(** * NeuralNet: a shallow embedding of [NeuralNet.py]

    The development follows the Python source function by function.
    Python dictionaries are insertion-ordered association lists (the
    code iterates over [keys()] and slices the key list, so order
    matters); the instance's [__dict__], which the code only probes for
    membership and updates, is a finite map.  The dictionaries and
    arrays that attributes hold are objects of a store and are held by
    reference, so that a change made in place is seen through every
    reference.  Exceptions are values of [pyerr] carried by the
    [result] type.  Arrays are two-dimensional numpy arrays given by
    their shape and their entries; the scalar arithmetic is a
    parameter ([Scalar]) that is instantiated with IEEE binary64 where
    a statement depends on floating-point values.  What numpy computes
    in an order or a way of its own (the reduction of [np.sum], the
    comparison of an array with a string, the exponential, the random
    generator) is a parameter of the functions that use it. *)

From Stdlib Require Import ZArith List Lia Bool Arith Permutation.
From Stdlib Require Import Floats.SpecFloat.
From stdpp Require Import base gmap strings.
Import ListNotations.

(** ** Exceptions and results *)

Inductive pyerr : Type :=
| KeyError
| IndexError
| ValueError
| TypeError
| ZeroDivisionError
| NameError (name : string)
| AttributeError (name : string)
| NotImplementedError.

Inductive result (A : Type) : Type :=
| Ok (a : A)
| Raise (e : pyerr).
Arguments Ok {A} a.
Arguments Raise {A} e.

Definition bind {A B} (r : result A) (k : A -> result B) : result B :=
  match r with
  | Ok a => k a
  | Raise e => Raise e
  end.

Notation "'let*' x ':=' e 'in' k" := (bind e (fun x => k))
  (at level 10, x pattern, e at level 100, k at level 200).

(** Whether a call returned rather than raised. *)
Definition is_ok {A} (r : result A) : bool :=
  match r with
  | Ok _ => true
  | Raise _ => false
  end.

(** A [for] loop whose body may raise: the state is threaded through
    the iterations in order and the first exception ends the loop. *)
Fixpoint for_each {A S} (xs : list A) (body : S -> A -> result S) (s : S)
  : result S :=
  match xs with
  | [] => Ok s
  | x :: xs' => let* s' := body s x in for_each xs' body s'
  end.

(** ** Python dictionaries with integer keys *)

Module dict.

(** A dictionary is the list of its items in the order of insertion. *)
Abbreviation t V := (list (Z * V)) (only parsing).

Section Dict.
Context {V : Type}.
Implicit Types d : t V.

Definition keys d : list Z := map fst d.
Definition values d : list V := map snd d.

(** [d[k]] *)
Fixpoint get d (k : Z) : result V :=
  match d with
  | [] => Raise KeyError
  | (k', v) :: d' => if Z.eqb k' k then Ok v else get d' k
  end.

(** [d[k] = v]: an existing key keeps its position, a new key goes to
    the end. *)
Fixpoint set d (k : Z) (v : V) : t V :=
  match d with
  | [] => [(k, v)]
  | (k', v') :: d' =>
      if Z.eqb k' k then (k, v) :: d' else (k', v') :: set d' k v
  end.

(** [list(d.keys())[-1]] *)
Definition last_key d : result Z :=
  match rev (keys d) with
  | [] => Raise IndexError
  | k :: _ => Ok k
  end.

(** A dictionary has no repeated key. *)
Definition wf d : Prop := List.NoDup (keys d).

End Dict.
End dict.

(** The keys [a, a+1, ..., a+n-1]. *)
Definition zrange (a n : nat) : list Z := map Z.of_nat (seq a n).

(** [range(hi, lo, -1)]: [hi, hi-1, ..., lo+1]. *)
Definition range_down (hi lo : nat) : list Z :=
  map (fun i => Z.of_nat (hi - i)) (seq 0 (hi - lo)).

(** ** Scalars *)

Class Scalar : Type := {
  F : Type;
  F0 : F;
  F1 : F;
  F1e_9 : F;                      (* the literal [1e-9] *)
  Fadd : F -> F -> F;
  Fsub : F -> F -> F;
  Fmul : F -> F -> F;
  Fdiv : F -> F -> F;
  Feqb : F -> F -> bool;          (* [==] *)
  Fof_nat : nat -> F              (* [float(n)] *)
}.

(** IEEE 754 binary64, the [float64] of numpy. *)
Module Binary64.

Definition prec : Z := 53.
Definition emax : Z := 1024.
Definition zero : spec_float := S754_zero false.
Definition one : spec_float := S754_finite false 4503599627370496 (-52).

(** [1e-9] rounded to the nearest binary64. *)
Definition lit_1e_9 : spec_float :=
  S754_finite false 4835703278458517 (-82).

(** [1e-12] rounded to the nearest binary64. *)
Definition lit_1e_12 : spec_float :=
  S754_finite false 4951760157141521 (-92).

Definition add := SFadd prec emax.
Definition sub := SFsub prec emax.
Definition mul := SFmul prec emax.
Definition div := SFdiv prec emax.
Definition eqb := SFeqb.

(** The float nearest to an integer. *)
Definition of_nat (n : nat) : spec_float :=
  binary_normalize prec emax (Z.of_nat n) 0 false.

End Binary64.

Definition binary64 : Scalar := {|
  F := spec_float;
  F0 := Binary64.zero;
  F1 := Binary64.one;
  F1e_9 := Binary64.lit_1e_9;
  Fadd := Binary64.add;
  Fsub := Binary64.sub;
  Fmul := Binary64.mul;
  Fdiv := Binary64.div;
  Feqb := Binary64.eqb;
  Fof_nat := Binary64.of_nat
|}.

(** ** Two-dimensional arrays *)

Record ndarray `{Scalar} : Type := NdArray {
  nrows : nat;
  ncols : nat;
  entry : nat -> nat -> F
}.

Section Arrays.
Context `{Scalar}.

Definition shape (A : ndarray) : nat * nat := (nrows A, ncols A).

(** The rows of an array, as numpy prints them. *)
Definition to_rows (A : ndarray) : list (list F) :=
  map (fun i => map (entry A i) (seq 0 (ncols A))) (seq 0 (nrows A)).

(** The array with the given rows, each of [c] entries. *)
Definition of_rows (c : nat) (rows : list (list F)) : ndarray :=
  NdArray _ (length rows) c (fun i j => nth j (nth i rows []) F0).

(** Two arrays are the same array: same shape, same entries. *)
Definition same_array (A B : ndarray) : Prop :=
  shape A = shape B /\
  forall i j, i < nrows A -> j < ncols A -> entry A i j = entry B i j.

End Arrays.

Module np.
Section Numpy.
Context `{Scalar}.

(** [v[a:b]] for [0 <= a <= b]: the slice is cut at the end of [v]. *)
Definition slice {A} (v : list A) (a b : nat) : list A :=
  firstn (b - a) (skipn a v).

(** [np.reshape(v, (r, c), order="F")]: entry [(i, j)] is [v[i + j*r]];
    a vector of any other size than [r*c] is refused. *)
Definition reshape_F (v : list F) (r c : nat) : result ndarray :=
  if length v =? r * c
  then Ok (NdArray _ r c (fun i j => nth (i + j * r) v F0))
  else Raise ValueError.

(** [np.ravel(A, order="F")]: the columns one after the other. *)
Definition ravel_F (A : ndarray) : list F :=
  flat_map (fun j => map (fun i => entry A i j) (seq 0 (nrows A)))
           (seq 0 (ncols A)).

(** [A.transpose()] *)
Definition transpose (A : ndarray) : ndarray :=
  NdArray _ (ncols A) (nrows A) (fun i j => entry A j i).

(** [np.dot(A, B)]; the products of a row and a column are added from
    the left. *)
Definition dot (A B : ndarray) : result ndarray :=
  if ncols A =? nrows B
  then Ok (NdArray _ (nrows A) (ncols B) (fun i j =>
         fold_left Fadd
           (map (fun k => Fmul (entry A i k) (entry B k j))
                (seq 0 (ncols A))) F0))
  else Raise ValueError.

(** Broadcasting of one dimension: equal extents, or one of them 1. *)
Definition broadcast_dim (a b : nat) : option nat :=
  if a =? b then Some a
  else if a =? 1 then Some b
  else if b =? 1 then Some a
  else None.

(** The index read in a dimension of extent [n] that may be stretched. *)
Definition bidx (n i : nat) : nat := if n =? 1 then 0 else i.

Definition elementwise (f : F -> F -> F) (A B : ndarray)
  : result ndarray :=
  match broadcast_dim (nrows A) (nrows B),
        broadcast_dim (ncols A) (ncols B) with
  | Some r, Some c =>
      Ok (NdArray _ r c (fun i j =>
            f (entry A (bidx (nrows A) i) (bidx (ncols A) j))
              (entry B (bidx (nrows B) i) (bidx (ncols B) j))))
  | _, _ => Raise ValueError
  end.

Definition add := elementwise Fadd.
Definition subtract := elementwise Fsub.
Definition multiply := elementwise Fmul.

(** [x * A] for a scalar [x]. *)
Definition scale (x : F) (A : ndarray) : ndarray :=
  NdArray _ (nrows A) (ncols A) (fun i j => Fmul x (entry A i j)).

(** A function applied to every entry. *)
Definition map_entries (f : F -> F) (A : ndarray) : ndarray :=
  NdArray _ (nrows A) (ncols A) (fun i j => f (entry A i j)).

(** [np.sum(A)].  numpy adds the entries of an array in an order of
    its own (in blocks, and pairwise within a block), so the float it
    returns is not the one a loop over the entries gives.  The
    reduction is left as a parameter [add_all], applied to the rows of
    the array. *)
Definition sum (add_all : list (list F) -> F) (A : ndarray) : F :=
  add_all (to_rows A).

(** [np.tile(1, (1, m))] *)
Definition tile1 (m : nat) : ndarray := NdArray _ 1 m (fun _ _ => F1).

(** [np.concatenate((A, B), axis=0)] *)
Definition concatenate0 (A B : ndarray) : result ndarray :=
  if ncols A =? ncols B
  then Ok (NdArray _ (nrows A + nrows B) (ncols A) (fun i j =>
         if i <? nrows A then entry A i j else entry B (i - nrows A) j))
  else Raise ValueError.

(** [A[:,1:]] *)
Definition cols_from1 (A : ndarray) : ndarray :=
  NdArray _ (nrows A) (ncols A - 1) (fun i j => entry A i (S j)).

(** [A[1:,:]] *)
Definition rows_from1 (A : ndarray) : ndarray :=
  NdArray _ (nrows A - 1) (ncols A) (fun i j => entry A (S i) j).

(** [A[:,1:] = V]: [V] is stretched to the shape of the slice when it
    can be, and refused otherwise. *)
Definition set_cols_from1 (A V : ndarray) : result ndarray :=
  if ((nrows V =? nrows A) || (nrows V =? 1)) &&
     ((ncols V =? ncols A - 1) || (ncols V =? 1))
  then Ok (NdArray _ (nrows A) (ncols A) (fun i j =>
         match j with
         | 0 => entry A i 0
         | S j' => entry V (bidx (nrows V) i) (bidx (ncols V) j')
         end))
  else Raise ValueError.

(** [x in A] *)
Definition contains (x : F) (A : ndarray) : bool :=
  existsb (existsb (fun y => Feqb y x)) (to_rows A).

(** [A[np.where(A == x)] = f(A[np.where(A == x)])] for an entrywise [f] *)
Definition update_where_eq (x : F) (f : F -> F) (A : ndarray) : ndarray :=
  map_entries (fun y => if Feqb y x then f y else y) A.

(** [A[i, j] = v] *)
Definition set_entry (A : ndarray) (i j : nat) (v : F) : ndarray :=
  NdArray _ (nrows A) (ncols A) (fun i' j' =>
    if (i' =? i) && (j' =? j) then v else entry A i' j').

(** An index into a dimension of extent [n]; negative indices count
    from the end. *)
Definition index (n : nat) (i : Z) : result nat :=
  if ((0 <=? i) && (i <? Z.of_nat n))%Z then Ok (Z.to_nat i)
  else if ((- Z.of_nat n <=? i) && (i <? 0))%Z
       then Ok (Z.to_nat (i + Z.of_nat n))
       else Raise IndexError.

(** [np.unique(v)]: the distinct values of [v]. *)
Definition unique (v : list Z) : list Z := nodup Z.eq_dec v.

(** [np.squeeze]: the dimensions of extent 1 are dropped. *)
Definition squeeze (dims : list nat) : list nat :=
  List.filter (fun d => negb (d =? 1)) dims.

End Numpy.
End np.

(** ** The class [NeuralNetwork] *)

(** Dictionaries and arrays are objects: a value that holds one holds
    a reference to it, two values may hold the same reference, and an
    assignment to an item changes the object for all of them.  The
    objects live in a store. *)
Definition loc : Type := positive.

(** Values held by the attributes of an instance. *)
Inductive pyval `{Scalar} : Type :=
| VNone
| VInt (z : Z)
| VFloat (x : F)
| VStr (s : string)
| VFunc (name : string)
| VRef (l : loc).

(** Objects of the store: a dictionary with integer keys and values,
    and a one-dimensional array of floats. *)
Inductive pyobj `{Scalar} : Type :=
| ODict (d : dict.t nat)
| OArray (v : list F).

(** Name resolution in a scope; an unbound name raises [NameError]. *)
Fixpoint lookup_name {A} (scope : list (string * A)) (name : string)
  : result A :=
  match scope with
  | [] => Raise (NameError name)
  | (n, v) :: scope' =>
      if String.eqb n name then Ok v else lookup_name scope' name
  end.

Module NeuralNetwork.
Section Methods.
Context `{Scalar}.

(** The reduction of [np.sum]. *)
Variable np_sum : list (list F) -> F.

(** The truth value of [a == s] for an array [a] and a string [s]: the
    comparison is numpy's, and what it returns for operands of these
    two kinds has changed between its versions. *)
Variable array_equals : list F -> string -> result bool.

(** The instance is its [__dict__]. *)
Abbreviation instance := (gmap string pyval) (only parsing).
Abbreviation store := (gmap loc pyobj) (only parsing).

Definition scipy_optimisers : list string := ["fmin_cg"; "fmin_bfgs"]%string.

(** [__init__]; [architecture] is the reference to the dictionary
    given, which the instance shares with the caller. *)
Definition init (architecture : loc) (LAMBDA : F) (neuron : string)
    (optimiser : string) (maxiter : Z) : result instance :=
  let self : instance := ∅ in
  let self := <["architecture" := VRef architecture]> self in
  let self := <["LAMBDA" := VFloat LAMBDA]> self in
  let self := <["neuron" := VStr neuron]> self in
  let self := <["maxiter" := VInt maxiter]> self in
  if existsb (String.eqb optimiser) scipy_optimisers
  then
    let self := <["optimiser" := VFunc optimiser]> self in
    Ok (<["_trainedParams" := VNone]> self)
  else Raise NotImplementedError.

(** The default argument [{1:25}] of [__init__]: one dictionary, made
    when the class is defined and given to every call that leaves
    [architecture] out. *)
Definition default_architecture : dict.t nat := [(1%Z, 25)].
Definition default_architecture_ref : loc := 1%positive.
Definition class_store : store :=
  <[default_architecture_ref := ODict default_architecture]> ∅.

(** [self.name] *)
Definition getattr (self : instance) (name : string) : result pyval :=
  match self !! name with
  | Some v => Ok v
  | None => Raise (AttributeError name)
  end.

(** [get_params] *)
Definition get_params (self : instance) : result (list (string * pyval)) :=
  let* a := getattr self "architecture" in
  let* l := getattr self "LAMBDA" in
  let* n := getattr self "neuron" in
  let* o := getattr self "optimiser" in
  let* m := getattr self "maxiter" in
  Ok [("architecture", a); ("LAMBDA", l); ("neuron", n);
      ("optimiser", o); ("maxiter", m)]%string.

(** The configuration options: the keys [get_params] reports. *)
Definition configuration_options : list string :=
  ["architecture"; "LAMBDA"; "neuron"; "optimiser"; "maxiter"]%string.

(** [setattr] *)
Definition setattr (self : instance) (parameter : string) (value : pyval)
  : result instance :=
  match self !! parameter with
  | Some _ => Ok (<[parameter := value]> self)
  | None => Raise (AttributeError parameter)
  end.

(** The body of [set_params]: the keyword arguments are applied in
    order; the instance keeps the assignments made before an
    exception. *)
Fixpoint set_params_body (self : instance)
    (parameters : list (string * pyval)) : instance * result unit :=
  match parameters with
  | [] => (self, Ok tt)
  | (parameter, value) :: rest =>
      match setattr self parameter value with
      | Ok self' => set_params_body self' rest
      | Raise e => (self, Raise e)
      end
  end.

(** [set_params(self, **parameters)].  A keyword named [self] is a
    second value for the first parameter of the method: the call
    raises [TypeError] while the arguments are bound, before the body
    is run. *)
Definition set_params (self : instance) (parameters : list (string * pyval))
  : instance * result unit :=
  if existsb (String.eqb "self") (map fst parameters)
  then (self, Raise TypeError)
  else set_params_body self parameters.

(** The body of the loop of [reshapeParams]; the state is [thetas] and
    [lastIndex]. *)
Definition reshape_step (architecture : dict.t nat) (params : list F)
    (st : dict.t ndarray * nat) (layer : Z)
  : result (dict.t ndarray * nat) :=
  let '(thetas, lastIndex) := st in
  let* units := dict.get architecture layer in
  let* below := dict.get architecture (layer - 1)%Z in
  let* theta :=
    np.reshape_F
      (np.slice params lastIndex (lastIndex + units * (below + 1)))
      units (below + 1) in
  Ok (dict.set thetas layer theta, lastIndex + units * (below + 1)).

(** [reshapeParams] *)
Definition reshapeParams (architecture : dict.t nat) (params : list F)
  : result (dict.t ndarray) :=
  let* a1 := dict.get architecture 1%Z in
  let* a0 := dict.get architecture 0%Z in
  let* theta1 :=
    np.reshape_F (np.slice params 0 (a1 * (a0 + 1))) a1 (a0 + 1) in
  let thetas := [(1%Z, theta1)] in
  let lastIndex := a1 * (a0 + 1) in
  let* st :=
    for_each (skipn 2 (dict.keys architecture))
             (reshape_step architecture params) (thetas, lastIndex) in
  Ok (fst st).

(** The last four lines of [backProp]: the gradients of the layers,
    each read column by column, one after the other, beginning with
    [grads[1]] and going on in the order of the keys. *)
Definition flatten (grads : dict.t ndarray) : result (list F) :=
  let* g1 := dict.get grads 1%Z in
  for_each (skipn 1 (dict.keys grads))
           (fun gradients layer =>
              let* g := dict.get grads layer in
              Ok (gradients ++ np.ravel_F g))
           (np.ravel_F g1).

(** The body of [oneHotEncoding], as a function of the value of the
    name [targets]. *)
Definition oneHotEncoding_body (targets : list Z) : result ndarray :=
  let numClasses := length (np.unique targets) in
  let indicatorFunction :=
    NdArray _ (length targets) numClasses (fun _ _ => F0) in
  let* indicatorFunction :=
    for_each (seq 0 (length targets))
             (fun ind i =>
                let* j := np.index numClasses (nth i targets 0%Z) in
                Ok (np.set_entry ind i j F1))
             indicatorFunction in
  Ok (np.transpose indicatorFunction).

(** [oneHotEncoding(self, y)]: the parameter is [y], the body reads
    [targets], and the module binds no such name. *)
Definition oneHotEncoding (y : list Z) : result ndarray :=
  let locals := [("y"%string, y)] in
  let* targets := lookup_name locals "targets" in
  oneHotEncoding_body targets.

(** The contribution of one weight matrix to the regularisation term:
    [np.sum(np.multiply(theta[:,1:], theta[:,1:]))]. *)
Definition sum_squares_from1 (theta : ndarray) : result F :=
  let* sq := np.multiply (np.cols_from1 theta) (np.cols_from1 theta) in
  Ok (np.sum np_sum sq).

(** The body of the loop of [feedForward]; the state is [activs] and
    [regTerm]. *)
Definition forward_step (thetas : dict.t ndarray) (m : nat)
    (neuron : F -> F) (st : dict.t ndarray * F) (layer : Z)
  : result (dict.t ndarray * F) :=
  let '(activs, regTerm) := st in
  let* theta := dict.get thetas layer in
  let* a := dict.get activs layer in
  let* z := np.dot theta a in
  let* a' := np.concatenate0 (np.tile1 m) (np.map_entries neuron z) in
  let activs := dict.set activs (layer + 1)%Z a' in
  let* r := sum_squares_from1 theta in
  Ok (activs, Fadd regTerm r).

(** The checks for numerical instabilities at the end of [feedForward]. *)
Definition stabilise (hypothesis : ndarray) : ndarray :=
  let hypothesis :=
    if np.contains F1 hypothesis
    then np.update_where_eq F1 (fun x => Fsub x F1e_9) hypothesis
    else hypothesis in
  if np.contains F0 hypothesis
  then np.update_where_eq F0 (fun x => Fadd x F1e_9) hypothesis
  else hypothesis.

(** [feedForward] up to the hypothesis [neuron(z)], before the checks
    for numerical instabilities. *)
Definition feedForward_raw (thetas : dict.t ndarray) (input : ndarray)
    (regTerm : F) (m : nat) (neuron : F -> F)
  : result (ndarray * dict.t ndarray * F) :=
  let activs := [(1%Z, input)] in
  let* st :=
    for_each (removelast (dict.keys thetas))
             (forward_step thetas m neuron) (activs, regTerm) in
  let '(activs, regTerm) := st in
  let* last := dict.last_key thetas in
  let* theta := dict.get thetas last in
  let* r := sum_squares_from1 theta in
  let regTerm := Fadd regTerm r in
  let* lastA := dict.last_key activs in
  let* a := dict.get activs lastA in
  let* z := np.dot theta a in
  Ok (np.map_entries neuron z, activs, regTerm).

(** [feedForward] *)
Definition feedForward (thetas : dict.t ndarray) (input : ndarray)
    (regTerm : F) (m : nat) (neuron : F -> F)
  : result (ndarray * dict.t ndarray * F) :=
  let* (hypothesis, activs, regTerm) :=
    feedForward_raw thetas input regTerm m neuron in
  Ok (stabilise hypothesis, activs, regTerm).

(** The body of the first loop of [backProp]. *)
Definition backward_step (thetas activs : dict.t ndarray)
    (dneuron : F -> F) (deltas : dict.t ndarray) (layer : Z)
  : result (dict.t ndarray) :=
  let* theta := dict.get thetas (layer - 1)%Z in
  let* d := dict.get deltas layer in
  let* p := np.dot (np.transpose theta) d in
  let* a := dict.get activs (layer - 1)%Z in
  let* e := np.multiply p (np.map_entries dneuron a) in
  let deltas := dict.set deltas (layer - 1)%Z e in
  let* e := dict.get deltas (layer - 1)%Z in
  Ok (dict.set deltas (layer - 1)%Z (np.rows_from1 e)).

(** [x / y] on Python floats: a divisor equal to zero raises. *)
Definition truediv (x y : F) : result F :=
  if Feqb y F0 then Raise ZeroDivisionError else Ok (Fdiv x y).

(** The body of the second loop of [backProp].  In [1/m * (...)] the
    quotient is evaluated before the product of the matrices. *)
Definition gradient_step (LAMBDA : F) (thetas activs deltas : dict.t ndarray)
    (m : F) (grads : dict.t ndarray) (layer : Z)
  : result (dict.t ndarray) :=
  let* inv := truediv F1 m in
  let* d := dict.get deltas (layer + 1)%Z in
  let* a := dict.get activs layer in
  let* p := np.dot d (np.transpose a) in
  let grad := np.scale inv p in
  let* inv := truediv F1 m in
  let* theta := dict.get thetas layer in
  let* v :=
    np.add (np.cols_from1 grad)
           (np.scale inv (np.scale LAMBDA (np.cols_from1 theta))) in
  let* grad := np.set_cols_from1 grad v in
  Ok (dict.set grads layer grad).

(** [backProp] up to the dictionary [grads]. *)
Definition backProp_grads (architecture : dict.t nat) (LAMBDA : F)
    (thetas : dict.t ndarray) (hypothesis : ndarray)
    (activs : dict.t ndarray) (targets : ndarray) (m : F)
    (dneuron : F -> F) : result (dict.t ndarray) :=
  let numLayers := length (dict.keys architecture) in
  let* d := np.subtract hypothesis targets in
  let deltas := dict.set [] (Z.of_nat numLayers) d in
  let* deltas :=
    for_each (range_down numLayers 2)
             (backward_step thetas activs dneuron) deltas in
  for_each (dict.keys thetas)
           (gradient_step LAMBDA thetas activs deltas m) [].

(** [backProp] *)
Definition backProp (architecture : dict.t nat) (LAMBDA : F)
    (thetas : dict.t ndarray) (hypothesis : ndarray)
    (activs : dict.t ndarray) (targets : ndarray) (m : F)
    (dneuron : F -> F) : result (list F) :=
  let* grads :=
    backProp_grads architecture LAMBDA thetas hypothesis activs targets m
                   dneuron in
  flatten grads.

(** The size of the output layer that [fit] derives from the labels,
    written into a dictionary. *)
Definition resolve_output (architecture : dict.t nat) (y : list Z)
  : dict.t nat :=
  let labels := length (np.unique y) in
  if 2 <? labels
  then dict.set architecture
                (Z.of_nat (length (dict.keys architecture))) labels
  else if labels =? 2
       then dict.set architecture
                     (Z.of_nat (length (dict.keys architecture))) 1
       else architecture.

(** [obj[0] = n] on an object: a dictionary takes the item, an array
    takes the float at index 0 when it has one. *)
Definition setitem0 (o : pyobj) (n : nat) : result pyobj :=
  match o with
  | ODict d => Ok (ODict (dict.set d 0%Z n))
  | OArray [] => Raise IndexError
  | OArray (_ :: v) => Ok (OArray (Fof_nat n :: v))
  end.

(** The [if]/[elif] of [fit] that writes the output layer at the key
    [len(list(obj.keys()))]; an array has no method [keys]. *)
Definition set_output (o : pyobj) (y : list Z) : result pyobj :=
  match o with
  | ODict d => Ok (ODict (resolve_output d y))
  | OArray v =>
      if 2 <=? length (np.unique y)
      then Raise (AttributeError "keys")
      else Ok (OArray v)
  end.

(** The truth value of [v == s] for the value of an attribute and a
    string. *)
Definition equals_str (h : store) (v : pyval) (s : string) : result bool :=
  match v with
  | VStr s' => Ok (String.eqb s' s)
  | VRef l =>
      match h !! l with
      | Some (OArray a) => array_equals a s
      | _ => Ok false
      end
  | _ => Ok false
  end.

(** The choice of the neurons in [fit]: the [if]/[elif] on
    [self.neuron]; no branch is taken for another value. *)
Definition select_neuron (h : store) (self : instance) : result unit :=
  let* v := getattr self "neuron" in
  let* sigmoid := equals_str h v "sigmoid" in
  if sigmoid then Ok tt
  else
    let* v := getattr self "neuron" in
    let* tanh := equals_str h v "tanh" in
    Ok tt.

(** [fit], for an array [X] of the given dimensions and labels [y].
    The dimensions of extent 1 are squeezed away and the two left are
    [m] and [n].  The object [self.architecture] refers to is changed
    in place, for every holder of the reference; a value that is not a
    reference takes no item, and neither does a reference to no
    object, which Python does not have.  Then the call
    [oneHotEncoding(y)] looks the function up as a global name, which
    the module does not bind, and the [NameError] is not caught by
    [except AttributeError]: the statements after it are never run and
    no attribute is assigned.  The store is returned as the call
    leaves it. *)
Definition fit (h : store) (self : instance) (X : list nat) (y : list Z)
  : store * result unit :=
  match np.squeeze X with
  | [m; n] =>
      match self !! "architecture" with
      | Some (VRef l) =>
          match h !! l with
          | Some o =>
              match setitem0 o n with
              | Ok o1 =>
                  let h1 := <[l := o1]> h in
                  match set_output o1 y with
                  | Ok o2 =>
                      let h2 := <[l := o2]> h1 in
                      match select_neuron h2 self with
                      | Ok _ => (h2, Raise (NameError "oneHotEncoding"))
                      | Raise e => (h2, Raise e)
                      end
                  | Raise e => (h1, Raise e)
                  end
              | Raise e => (h, Raise e)
              end
          | None => (h, Raise TypeError)
          end
      | Some _ => (h, Raise TypeError)
      | None => (h, Raise (AttributeError "architecture"))
      end
  | _ => (h, Raise ValueError)
  end.

(** The dictionary the attribute [architecture] refers to. *)
Definition architecture_of (h : store) (self : instance)
  : option (dict.t nat) :=
  match self !! "architecture" with
  | Some (VRef l) =>
      match h !! l with
      | Some (ODict architecture) => Some architecture
      | _ => None
      end
  | _ => None
  end.

End Methods.
End NeuralNetwork.

(** ** Notions used in the statements *)

Import NeuralNetwork.

Section Statements.
Context `{Scalar}.
(** The number of units of a layer, 0 for a layer the architecture
    does not have. *)
Definition size_at (architecture : dict.t nat) (layer : Z) : nat :=
  match dict.get architecture layer with
  | Ok units => units
  | Raise _ => 0
  end.

(** The number of weights into a layer: one row per unit, one column
    per unit of the layer below and one for the bias. *)
Definition weights_at (architecture : dict.t nat) (layer : Z) : nat :=
  size_at architecture layer * (size_at architecture (layer - 1) + 1).

(** The architecture-derived total: the sum over l < N of
    [architecture[l+1] * (architecture[l] + 1)]. *)
Definition param_count (architecture : dict.t nat) (N : nat) : nat :=
  list_sum (map (weights_at architecture) (zrange 1 N)).

(** The keys are the integers 0..N, in any order of insertion. *)
Definition contiguous_keys {V} (d : dict.t V) (N : nat) : Prop :=
  Permutation (dict.keys d) (zrange 0 (S N)).

(** The keys are the integers 0..N with N >= 1, inserted in the order
    0, 1, 2, ..., N or 1, 0, 2, ..., N (the order [fit] leaves behind for
    one hidden layer). *)
Definition layer_order {V} (d : dict.t V) (N : nat) : Prop :=
  1 <= N /\
  (dict.keys d = 0%Z :: 1%Z :: zrange 2 (N - 1) \/
   dict.keys d = 1%Z :: 0%Z :: zrange 2 (N - 1)).

(** [unpacked architecture layers v thetas]: [thetas] has the keys
    [layers] in this order, each matrix has the shape the architecture
    gives its layer, and the matrices read column by column one after
    the other make up [v]. *)
Inductive unpacked (architecture : dict.t nat)
  : list Z -> list F -> dict.t ndarray -> Prop :=
| unpacked_nil : unpacked architecture [] [] []
| unpacked_cons layer layers v theta d :
    nrows theta = size_at architecture layer ->
    ncols theta = size_at architecture (layer - 1) + 1 ->
    unpacked architecture layers v d ->
    unpacked architecture (layer :: layers) (np.ravel_F theta ++ v)
             ((layer, theta) :: d).
End Statements.

Section RegularisationStatement.
Context `{Scalar}.

(** The squares of the entries of a weight matrix outside column 0, row
    by row. *)
Definition nonbias_squares (theta : ndarray) : list (list F) :=
  map (fun i =>
         map (fun j => Fmul (entry theta i j) (entry theta i j))
             (seq 1 (ncols theta - 1)))
      (seq 0 (nrows theta)).

(** Their sum, as the reduction [np_sum] computes it. *)
Definition nonbias_sum_squares (np_sum : list (list F) -> F)
    (theta : ndarray) : F :=
  np_sum (nonbias_squares theta).

End RegularisationStatement.

(** The binary64 value of [1 - 1e-9] and of [1 - 1e-12]. *)
Definition one_minus_1e_9 : spec_float :=
  S754_finite false 9007199245733793 (-53).
Definition one_minus_1e_12 : spec_float :=
  S754_finite false 9007199254731985 (-53).

Section StabilisationStatement.
Context `{Scalar}.

(** What the two checks do to one entry of the hypothesis. *)
Definition nudge_one (x : F) : F := if Feqb x F1 then Fsub x F1e_9 else x.
Definition nudge_zero (x : F) : F := if Feqb x F0 then Fadd x F1e_9 else x.

End StabilisationStatement.

Section GradientStatements.
Context `{Scalar}.

(** Two matrices of the same shape with the same column 0. *)
Definition same_bias_column (A B : ndarray) : Prop :=
  shape A = shape B /\
  forall i, i < nrows A -> entry A i 0 = entry B i 0.

(** Two dictionaries of gradients with the same keys in the same order,
    layer by layer of the same shape and with the same column 0. *)
Definition same_bias (G1 G2 : dict.t ndarray) : Prop :=
  Forall2 (fun x y => fst x = fst y /\ same_bias_column (snd x) (snd y))
          G1 G2.

(** The matrices [flatten] reads, in the order in which it reads them. *)
Definition flatten_order (grads : dict.t ndarray) : list ndarray :=
  flat_map (fun layer =>
              match dict.get grads layer with
              | Ok g => [g]
              | Raise _ => []
              end)
           (1%Z :: skipn 1 (dict.keys grads)).

(** The positions, in a vector made of matrices of the given shapes
    read column by column one after the other, of the entries of the
    columns 0; the first matrix begins at [offset]. *)
Fixpoint bias_positions (shapes : list (nat * nat)) (offset : nat)
  : list nat :=
  match shapes with
  | [] => []
  | (r, c) :: rest =>
      (if c =? 0 then [] else seq offset r)
      ++ bias_positions rest (offset + r * c)
  end.

(** The activations, the hypothesis and the targets have the shapes the
    architecture asks for, for [m] examples: layer [l] of the
    activations has one row per unit of layer [l-1] and one for the
    bias unit. *)
Definition backprop_shapes (architecture : dict.t nat) (N m : nat)
    (hypothesis : ndarray) (activs : dict.t ndarray) (targets : ndarray)
  : Prop :=
  (forall l, (1 <= l <= Z.of_nat N)%Z ->
     exists a, dict.get activs l = Ok a /\
               shape a = (size_at architecture (l - 1) + 1, m)) /\
  shape hypothesis = (size_at architecture (Z.of_nat N), m) /\
  shape targets = (size_at architecture (Z.of_nat N), m).

End GradientStatements.

Section ShapeStatements.
Context `{Scalar}.

(** The weight matrices of the layers 1..N are there, each of the shape
    the architecture gives it. *)
Definition thetas_shapes (architecture : dict.t nat) (N : nat)
    (thetas : dict.t ndarray) : Prop :=
  forall l, (1 <= l <= Z.of_nat N)%Z ->
    exists theta, dict.get thetas l = Ok theta /\
      shape theta = (size_at architecture l, size_at architecture (l - 1) + 1).

(** The errors of the layers [lo..N+1] are there, one row per unit of
    the layer below and one column per example. *)
Definition deltas_shapes (architecture : dict.t nat) (N m : nat)
    (deltas : dict.t ndarray) (lo : Z) : Prop :=
  forall l, (lo <= l <= Z.of_nat N + 1)%Z ->
    exists d, dict.get deltas l = Ok d /\
      shape d = (size_at architecture (l - 1), m).

(** The activations of the layers [1..c] are there and no other, in
    this order, each with one row per unit of the layer below and one
    for the bias unit. *)
Definition activs_shapes (architecture : dict.t nat) (m : nat)
    (activs : dict.t ndarray) (c : nat) : Prop :=
  dict.keys activs = zrange 1 c /\
  forall l, (1 <= l <= Z.of_nat c)%Z ->
    exists a, dict.get activs l = Ok a /\
      shape a = (size_at architecture (l - 1) + 1, m).

End ShapeStatements.

(** ** Concrete inputs *)

Module Examples.

Definition b1 : spec_float := Binary64.one.
Definition b0 : spec_float := Binary64.zero.
(** 2.0 and 5.0 *)
Definition b2 : spec_float := S754_finite false 4503599627370496 (-51).
Definition b5 : spec_float := S754_finite false 5629499534213120 (-50).

(** One hidden layer of 2 units between 1 input and 1 output, with the
    keys in the order [fit] leaves them in. *)
Definition arch_1_2_1 : dict.t nat := [(1%Z, 2); (0%Z, 1); (2%Z, 1)].
Definition params7 : list spec_float := [b1; b0; b2; b1; b5; b1; b2].

(** An input layer and an output layer only. *)
Definition arch_1_2 : dict.t nat := [(0%Z, 1); (1%Z, 2)].
Definition arch_1_1 : dict.t nat := [(0%Z, 1); (1%Z, 1)].

(** An input layer only. *)
Definition arch_input_only : dict.t nat := [(0%Z, 2)].

(** Two hidden layers, with the keys in the order [fit] leaves them in. *)
Definition arch_two_hidden : dict.t nat :=
  [(1%Z, 3); (2%Z, 2); (0%Z, 2); (3%Z, 1)].

(** A bias row and one feature, for one example and for two. *)
Definition input_1x1 : @ndarray binary64 :=
  @of_rows binary64 1 [[b1]; [b5]].
Definition input_1x2 : @ndarray binary64 :=
  @of_rows binary64 2 [[b1; b1]; [b5; b2]].
Definition targets_1x2 : @ndarray binary64 :=
  @of_rows binary64 2 [[b1; b0]].

(** Weights that make the hypothesis exactly [[1.0]; [0.0]]. *)
Definition params_boundary : list spec_float := [b1; b0; b0; b0].
Definition thetas_boundary : dict.t (@ndarray binary64) :=
  [(1%Z, @of_rows binary64 2 [[b1; b0]; [b0; b0]])].

(** Weight matrices for [arch_1_2_1]. *)
Definition thetas_1_2_1 : dict.t (@ndarray binary64) :=
  [(1%Z, @of_rows binary64 2 [[b1; b2]; [b0; b5]]);
   (2%Z, @of_rows binary64 3 [[b1; b2; b5]])].

(** Activations and an output for [thetas_1_2_1] and [input_1x2]. *)
Definition activs_1_2_1 : dict.t (@ndarray binary64) :=
  [(1%Z, input_1x2);
   (2%Z, @of_rows binary64 2 [[b1; b1]; [b2; b5]; [b5; b2]])].
Definition hypothesis_1x2 : @ndarray binary64 :=
  @of_rows binary64 2 [[b2; b5]].

(** The layers 0..3 with layer 3 inserted before layer 2, weights for
    them, and activations, an output and a target of the shapes they
    ask for, for one example. *)
Definition arch_shuffled : dict.t nat :=
  [(0%Z, 1); (1%Z, 1); (3%Z, 1); (2%Z, 2)].
Definition params9 : list spec_float :=
  [b1; b2; b5; b1; b2; b5; b0; b1; b2].
Definition activs_shuffled : dict.t (@ndarray binary64) :=
  [(1%Z, @of_rows binary64 1 [[b1]; [b2]]);
   (2%Z, @of_rows binary64 1 [[b1]; [b5]]);
   (3%Z, @of_rows binary64 1 [[b1]; [b2]; [b5]])].
Definition hypothesis_1x1 : @ndarray binary64 := @of_rows binary64 1 [[b5]].
Definition targets_1x1 : @ndarray binary64 := @of_rows binary64 1 [[b1]].

(** An activation that leaves its stimulus as it is. *)
Definition identity (x : spec_float) : spec_float := x.

(** A reduction that adds the entries one after the other. *)
Definition sum_in_order (rows : list (list spec_float)) : spec_float :=
  fold_left Binary64.add (concat rows) Binary64.zero.

(** A comparison of an array with a string that holds for none. *)
Definition never_equal (a : list spec_float) (s : string) : result bool :=
  Ok false.

(** The instance [NeuralNetwork()]: its architecture is the dictionary
    of the default argument. *)
Definition fresh_instance : gmap string (@pyval binary64) :=
  <["_trainedParams"%string := VNone]>
    (<["optimiser"%string := VFunc "fmin_cg"]>
       (<["maxiter"%string := VInt 1000]>
          (<["neuron"%string := VStr "sigmoid"]>
             (<["LAMBDA"%string := @VFloat binary64 b0]>
                (<["architecture"%string :=
                     VRef NeuralNetwork.default_architecture_ref]> ∅))))).

(** A store with the dictionary of the default argument, a dictionary
    [{1: 3, 2: 2}], a dictionary [{2: 5}] and an array [[1.0, 2.0]]. *)
Definition two_hidden_ref : loc := 2%positive.
Definition layer_two_ref : loc := 3%positive.
Definition vector_ref : loc := 4%positive.
Definition store0 : gmap loc (@pyobj binary64) :=
  <[vector_ref := @OArray binary64 [b1; b2]]>
    (<[layer_two_ref := @ODict binary64 [(2%Z, 5)]]>
       (<[two_hidden_ref := @ODict binary64 [(1%Z, 3); (2%Z, 2)]]>
          (@NeuralNetwork.class_store binary64))).

End Examples.

(** ** The rest of [NeuralNet.py] and [Neuron.py] *)

Module Initialisation.
Section Initialise.
Context `{Scalar}.

(** numpy's square root, the conversion of an integer to a float, and
    the random generator: [np.random.rand(r, c)] returns an array of
    that shape and leaves the generator in a new state. *)
Variable np_sqrt : F -> F.
Variable of_nat : nat -> F.
Variable generator : Type.
Variable np_random_rand : generator -> nat -> nat -> ndarray * generator.

(** [randInitParams] *)
Definition randInitParams (g : generator) (nIn nOut : nat)
  : ndarray * generator :=
  let r := Fdiv (np_sqrt (of_nat 6)) (np_sqrt (of_nat (nOut + nIn + 1))) in
  let (sample, g') := np_random_rand g nOut (nIn + 1) in
  (np.map_entries (fun x => Fsub (Fmul (Fmul x (of_nat 2)) r) r) sample, g').

(** The body of the loop of [initialise]; the state is [initialParams]
    and the generator. *)
Definition initialise_step (architecture : dict.t nat)
    (st : list F * generator) (layer : Z) : result (list F * generator) :=
  let '(initialParams, g) := st in
  let* nIn := dict.get architecture layer in
  let* nOut := dict.get architecture (layer + 1)%Z in
  let (weights, g') := randInitParams g nIn nOut in
  Ok (initialParams ++ np.ravel_F weights, g').

(** [initialise]: the first matrix is drawn from [self.architecture],
    the layers of the loop are the keys of [self._architecture].  An
    array and a string can be indexed too: with fewer than two items
    the index is out of range, and with two the items are floats or
    characters, which the first call of [randInitParams] cannot use as
    sizes. *)
Definition initialise (g : generator) (h : gmap loc pyobj)
    (self : gmap string pyval) : result (list F * generator) :=
  let* a := NeuralNetwork.getattr self "architecture" in
  match a with
  | VRef l =>
      match h !! l with
      | Some (ODict architecture) =>
          let* nIn := dict.get architecture 0%Z in
          let* nOut := dict.get architecture 1%Z in
          let (weights, g') := randInitParams g nIn nOut in
          let initialParams := np.ravel_F weights in
          let* a' := NeuralNetwork.getattr self "_architecture" in
          match a' with
          | VRef l' =>
              match h !! l' with
              | Some (ODict _architecture) =>
                  for_each (removelast (skipn 1 (dict.keys _architecture)))
                           (initialise_step architecture) (initialParams, g')
              | _ => Raise (AttributeError "keys")
              end
          | _ => Raise (AttributeError "keys")
          end
      | Some (OArray v) =>
          if length v <? 2 then Raise IndexError else Raise TypeError
      | None => Raise TypeError
      end
  | VStr s => if String.length s <? 2 then Raise IndexError else Raise TypeError
  | _ => Raise TypeError
  end.

End Initialise.
End Initialisation.

(** [predict]: the body is [pass]; the call returns [None] and leaves
    the instance as it is. *)
Definition predict `{Scalar} (self : gmap string pyval) (X : list nat)
  : gmap string pyval * result pyval :=
  (self, Ok VNone).

(** The states a program can be in: an instance built by [__init__]
    in some store, then passed through calls to [fit], which change
    the store, and to [set_params], which change the instance. *)
Section Reachable.
Context `{Scalar}.
Variable array_equals : list F -> string -> result bool.

Inductive reachable : gmap loc pyobj -> gmap string pyval -> Prop :=
| reachable_init h architecture LAMBDA neuron optimiser maxiter self :
    NeuralNetwork.init architecture LAMBDA neuron optimiser maxiter
    = Ok self ->
    reachable h self
| reachable_fit h self X y :
    reachable h self ->
    reachable (fst (NeuralNetwork.fit array_equals h self X y)) self
| reachable_set_params h self parameters :
    reachable h self ->
    reachable h (fst (NeuralNetwork.set_params self parameters)).

End Reachable.

(** The object a value refers to, if it refers to one. *)
Definition object_of `{Scalar} (h : gmap loc pyobj) (v : pyval)
  : option pyobj :=
  match v with
  | VRef l => h !! l
  | _ => None
  end.

(** The names of the attributes [__init__] creates. *)
Definition attribute_names : gset string :=
  {[ "architecture"; "LAMBDA"; "neuron"; "maxiter"; "optimiser";
     "_trainedParams" ]}%string.

(** ** [Neuron.py] *)

Module Neuron.
Section Neurons.
Context `{Scalar}.

(** numpy's exponential and hyperbolic tangent, and the negation of a
    float. *)
Variable np_exp : F -> F.
Variable np_tanh : F -> F.
Variable Fopp : F -> F.

(** The abstract class: both methods raise. *)
Definition fire (stimuli : F) : result F := Raise NotImplementedError.
Definition dfire (stimuli : F) : result F := Raise NotImplementedError.

(** [SigmoidNeuron], on one entry of the stimuli. *)
Definition sigmoid_fire (stimuli : F) : F :=
  Fdiv F1 (Fadd F1 (np_exp (Fopp stimuli))).
Definition sigmoid_dfire (stimuli : F) : F :=
  Fmul (sigmoid_fire stimuli) (Fsub F1 (sigmoid_fire stimuli)).

(** [TanhNeuron], on one entry of the stimuli. *)
Definition tanh_fire (stimuli : F) : F := np_tanh stimuli.
Definition tanh_dfire (stimuli : F) : F :=
  Fmul (tanh_fire stimuli)
       (Fmul (Fsub F1 (tanh_fire stimuli)) (Fsub F1 (tanh_fire stimuli))).

End Neurons.
End Neuron.

(** -1.0, 4.0 and -4.0 in binary64. *)
Definition minus_one : spec_float :=
  S754_finite true 4503599627370496 (-52).
Definition minus_four : spec_float :=
  S754_finite true 4503599627370496 (-50).

Section MoreStatements.
Context `{Scalar}.

(** The forward recurrence at layer [l]: the activation of layer [l+1]
    is a row of ones on top of the neuron applied to the product of
    the weights and the activation of layer [l]. *)
Definition forward_recurrence_at (thetas : dict.t ndarray)
    (neuron : F -> F) (activs : dict.t ndarray) (l : Z) : Prop :=
  exists theta a z a',
    dict.get thetas l = Ok theta /\
    dict.get activs l = Ok a /\
    np.dot theta a = Ok z /\
    dict.get activs (l + 1)%Z = Ok a' /\
    nrows a' = S (nrows z) /\
    ncols a' = ncols z /\
    (forall j, entry a' 0 j = F1) /\
    (forall i j, entry a' (S i) j = neuron (entry z i j)).

(** The one-hot matrix of the labels: entry [(j, i)] is 1 where [j] is
    the label of example [i] and 0 elsewhere. *)
Definition one_hot_of (targets : list Z) (M : ndarray) : Prop :=
  shape M = (length (np.unique targets), length targets) /\
  forall i j, i < length targets -> j < length (np.unique targets) ->
    entry M j i = if (Z.of_nat j =? nth i targets 0%Z)%Z then F1 else F0.

End MoreStatements.

Section BackwardStatements.
Context `{Scalar}.

(** The backward recurrence at layer [l]: the error of layer [l] is the
    product, entry by entry, of the transposed weights of layer [l]
    times the error of layer [l+1] and of [dneuron] applied to the
    activation of layer [l], without its first row. *)
Definition backward_recurrence_at (thetas activs : dict.t ndarray)
    (dneuron : F -> F) (deltas : dict.t ndarray) (l : Z) : Prop :=
  exists theta d p a e,
    dict.get thetas l = Ok theta /\
    dict.get deltas (l + 1)%Z = Ok d /\
    np.dot (np.transpose theta) d = Ok p /\
    dict.get activs l = Ok a /\
    np.multiply p (np.map_entries dneuron a) = Ok e /\
    dict.get deltas l = Ok (np.rows_from1 e).

(** The gradient of layer [l]: [1/m] times the product of the error of
    layer [l+1] and the transposed activation of layer [l], to which
    [1/m] times [LAMBDA] times the weight is added everywhere but in
    column 0. *)
Definition gradient_at (LAMBDA : F) (thetas activs deltas : dict.t ndarray)
    (m : F) (grads : dict.t ndarray) (l : Z) : Prop :=
  exists theta d a p grad,
    dict.get thetas l = Ok theta /\
    dict.get deltas (l + 1)%Z = Ok d /\
    dict.get activs l = Ok a /\
    np.dot d (np.transpose a) = Ok p /\
    dict.get grads l = Ok grad /\
    shape grad = shape theta /\
    forall i j, i < nrows theta -> j < ncols theta ->
      entry grad i j
      = match j with
        | 0 => Fmul (Fdiv F1 m) (entry p i 0)
        | S _ => Fadd (Fmul (Fdiv F1 m) (entry p i j))
                      (Fmul (Fdiv F1 m) (Fmul LAMBDA (entry theta i j)))
        end.

End BackwardStatements.

(** An output of two units for two examples. *)
Definition hypothesis_2x2 : @ndarray binary64 :=
  @of_rows binary64 2 [[Examples.b2; Examples.b5]; [Examples.b1; Examples.b0]].

(** * Properties *)

(** ** Lists and dictionaries *)

Section ListFacts.
Context {A : Type}.
Lemma firstn_plus (a b : nat) (l : list A) :
  firstn (a + b) l = firstn a l ++ firstn b (skipn a l).
Proof.
  revert l; induction a as [|a IH]; intros l; [reflexivity|].
  destruct l as [|x l]; simpl.
  - now rewrite firstn_nil.
  - now rewrite IH.
Qed.

Lemma skipn_nth_cons (d : A) (off : nat) (l : list A) :
  off < length l -> skipn off l = nth off l d :: skipn (S off) l.
Proof.
  revert l; induction off as [|off IH]; intros [|x l] Hlt; simpl in *; try lia.
  - reflexivity.
  - apply IH. lia.
Qed.

Lemma map_nth_window (d : A) (v : list A) (r off : nat) :
  off + r <= length v ->
  map (fun i => nth (i + off) v d) (seq 0 r) = firstn r (skipn off v).
Proof.
  revert off; induction r as [|r IH]; intros off Hle; [reflexivity|].
  rewrite (skipn_nth_cons d off v) by lia.
  simpl. f_equal.
  rewrite <- seq_shift, map_map.
  rewrite <- (IH (S off)) by lia.
  apply map_ext. intros i. f_equal. lia.
Qed.

Lemma slice_length (v : list A) (a n : nat) :
  length (np.slice v a (a + n)) = Nat.min n (length v - a).
Proof.
  unfold np.slice. rewrite length_firstn, length_skipn. f_equal. lia.
Qed.

Lemma slice_window (v : list A) (a n : nat) :
  np.slice v a (a + n) = firstn n (skipn a v).
Proof. unfold np.slice. f_equal. lia. Qed.
End ListFacts.

Section Codec.
Context `{Scalar}.

Lemma ravel_window (v : list F) (r c k : nat) :
  k * r + r * c <= length v ->
  flat_map (fun j => map (fun i => nth (i + j * r) v F0) (seq 0 r)) (seq k c)
  = firstn (r * c) (skipn (k * r) v).
Proof.
  revert k; induction c as [|c IH]; intros k Hle.
  - now rewrite Nat.mul_0_r.
  - cbn [seq flat_map].
    rewrite map_nth_window by lia.
    rewrite IH by lia.
    replace (r * S c) with (r + r * c) by lia.
    rewrite firstn_plus, skipn_skipn.
    do 3 f_equal; lia.
Qed.

Lemma ravel_reshape (v : list F) (r c : nat) (A : ndarray) :
  np.reshape_F v r c = Ok A ->
  np.ravel_F A = v /\ nrows A = r /\ ncols A = c.
Proof.
  unfold np.reshape_F. destruct (Nat.eqb_spec (length v) (r * c)) as [E|]; [|discriminate].
  intros [= <-]. split; [|split; reflexivity].
  unfold np.ravel_F; cbn [nrows ncols entry].
  rewrite (ravel_window v r c 0) by lia.
  rewrite <- E. simpl. apply firstn_all.
Qed.

Lemma reshape_slice_ok (params : list F) (a r c : nat) :
  a + r * c <= length params ->
  exists A, np.reshape_F (np.slice params a (a + r * c)) r c = Ok A /\
            np.ravel_F A = firstn (r * c) (skipn a params) /\
            nrows A = r /\ ncols A = c.
Proof.
  intros Hle. unfold np.reshape_F at 1.
  rewrite slice_length.
  destruct (Nat.eqb_spec (Nat.min (r * c) (length params - a)) (r * c)); [|lia].
  eexists; split; [reflexivity|].
  rewrite <- slice_window.
  eapply ravel_reshape. unfold np.reshape_F. rewrite slice_length.
  destruct (Nat.eqb_spec (Nat.min (r * c) (length params - a)) (r * c)); [reflexivity|lia].
Qed.

Lemma reshape_slice_short (params : list F) (a r c : nat) :
  a <= length params -> length params < a + r * c ->
  np.reshape_F (np.slice params a (a + r * c)) r c = Raise ValueError.
Proof.
  intros Ha Hlt. unfold np.reshape_F. rewrite slice_length.
  destruct (Nat.eqb_spec (Nat.min (r * c) (length params - a)) (r * c)); [lia|reflexivity].
Qed.
End Codec.

Section DictFacts.
Context {V : Type}.
Implicit Types d : dict.t V.

Lemma get_in d k : In k (dict.keys d) -> exists v, dict.get d k = Ok v.
Proof.
  induction d as [|[k' v'] d IH]; simpl; [tauto|].
  intros [->|Hin].
  - rewrite Z.eqb_refl. eauto.
  - destruct (Z.eqb k' k); eauto.
Qed.

Lemma get_notin d k : ~ In k (dict.keys d) -> dict.get d k = Raise KeyError.
Proof.
  induction d as [|[k' v'] d IH]; simpl; [reflexivity|].
  intros Hn. destruct (Z.eqb_spec k' k); [tauto|]. apply IH. tauto.
Qed.

Lemma get_ok_in d k v : dict.get d k = Ok v -> In k (dict.keys d).
Proof.
  induction d as [|[k' v'] d IH]; simpl; [discriminate|].
  destruct (Z.eqb_spec k' k); [auto|]. intros Hg. right. auto.
Qed.

Lemma get_middle (pre suf : dict.t V) k v :
  ~ In k (dict.keys pre) -> dict.get (pre ++ (k, v) :: suf) k = Ok v.
Proof.
  induction pre as [|[k' v'] pre IH]; simpl; intros Hn.
  - now rewrite Z.eqb_refl.
  - destruct (Z.eqb_spec k' k); [tauto|]. apply IH. tauto.
Qed.

Lemma set_notin d k v : ~ In k (dict.keys d) -> dict.set d k v = d ++ [(k, v)].
Proof.
  induction d as [|[k' v'] d IH]; simpl; [reflexivity|].
  intros Hn. destruct (Z.eqb_spec k' k); [tauto|]. f_equal. apply IH. tauto.
Qed.

Lemma keys_app (d1 d2 : dict.t V) :
  dict.keys (d1 ++ d2) = dict.keys d1 ++ dict.keys d2.
Proof. apply map_app. Qed.

Lemma keys_set_in d k v : In k (dict.keys d) -> dict.keys (dict.set d k v) = dict.keys d.
Proof.
  induction d as [|[k' v'] d IH]; simpl; [tauto|].
  intros Hin. destruct (Z.eqb_spec k' k) as [->|Hne]; simpl; [reflexivity|].
  f_equal. apply IH. destruct Hin; [contradiction|assumption].
Qed.

Lemma get_set_same d k v : dict.get (dict.set d k v) k = Ok v.
Proof.
  induction d as [|[k' v'] d IH]; simpl.
  - now rewrite Z.eqb_refl.
  - destruct (Z.eqb_spec k' k) as [->|Hne]; simpl.
    + now rewrite Z.eqb_refl.
    + destruct (Z.eqb_spec k' k); [contradiction|assumption].
Qed.

Lemma get_set_other d k k' v : k <> k' -> dict.get (dict.set d k v) k' = dict.get d k'.
Proof.
  intros Hne. induction d as [|[k0 v0] d IH]; simpl.
  - destruct (Z.eqb_spec k k'); [contradiction|reflexivity].
  - destruct (Z.eqb_spec k0 k) as [->|Hne0]; simpl.
    + destruct (Z.eqb_spec k k'); [contradiction|reflexivity].
    + destruct (Z.eqb_spec k0 k'); [reflexivity|assumption].
Qed.
End DictFacts.

Lemma size_at_get (architecture : dict.t nat) (layer : Z) :
  In layer (dict.keys architecture) ->
  dict.get architecture layer = Ok (size_at architecture layer).
Proof.
  intros Hin. unfold size_at.
  destruct (get_in _ _ Hin) as [n ->]. reflexivity.
Qed.

Section CodecLoop.
Context `{Scalar}.
Variable architecture : dict.t nat.
Variable params : list F.

Lemma unpacked_keys layers v d :
  unpacked architecture layers v d ->
  dict.keys d = layers /\ concat (map np.ravel_F (dict.values d)) = v.
Proof.
  induction 1 as [|layer layers v theta d Hr Hc Hu [IHk IHv]]; [split; reflexivity|].
  simpl. split; congruence.
Qed.

Lemma unpacked_app l1 v1 d1 l2 v2 d2 :
  unpacked architecture l1 v1 d1 -> unpacked architecture l2 v2 d2 ->
  unpacked architecture (l1 ++ l2) (v1 ++ v2) (d1 ++ d2).
Proof.
  induction 1; intros Hsnd; simpl; [assumption|].
  rewrite <- app_assoc. constructor; auto.
Qed.

Lemma reshape_loop_ok layers : forall thetas lastIndex,
  (forall l, In l layers ->
     In l (dict.keys architecture) /\ In (l - 1)%Z (dict.keys architecture)) ->
  List.NoDup layers ->
  (forall l, In l layers -> ~ In l (dict.keys thetas)) ->
  lastIndex + list_sum (map (weights_at architecture) layers) <= length params ->
  exists added,
    for_each layers (reshape_step architecture params) (thetas, lastIndex)
    = Ok (thetas ++ added,
          lastIndex + list_sum (map (weights_at architecture) layers)) /\
    unpacked architecture layers
      (firstn (list_sum (map (weights_at architecture) layers))
              (skipn lastIndex params)) added.
Proof.
  induction layers as [|l layers IH]; intros thetas lastIndex Hkeys Hnd Hfresh Hlen.
  - exists []. simpl. rewrite app_nil_r, Nat.add_0_r. split; [reflexivity|constructor].
  - simpl in Hlen. inversion Hnd as [|? ? Hnl Hnd']; subst.
    destruct (Hkeys l (or_introl eq_refl)) as [Hl Hl1].
    destruct (reshape_slice_ok params lastIndex (size_at architecture l)
                (size_at architecture (l - 1) + 1)) as (theta & Hth & Hrav & Hr & Hc).
    { unfold weights_at in Hlen. lia. }
    destruct (IH (thetas ++ [(l, theta)]) (lastIndex + weights_at architecture l))
      as (added & Hloop & Hun).
    { intros l' Hl'. apply Hkeys. now right. }
    { assumption. }
    { intros l' Hl'. rewrite keys_app, in_app_iff. simpl.
      intros [Hin|[->|[]]]; [|contradiction].
      revert Hin. apply Hfresh. now right. }
    { lia. }
    exists ((l, theta) :: added). split.
    + cbn [for_each]. unfold reshape_step at 1.
      rewrite (size_at_get _ _ Hl), (size_at_get _ _ Hl1). cbn [bind].
      rewrite Hth. cbn [bind].
      rewrite set_notin by (apply Hfresh; now left).
      fold (weights_at architecture l).
      rewrite Hloop. rewrite <- app_assoc. simpl. do 2 f_equal. lia.
    + cbn [map list_sum fold_right]. rewrite firstn_plus, skipn_skipn.
      unfold weights_at at 1. rewrite <- Hrav.
      replace (weights_at architecture l + lastIndex)
        with (lastIndex + weights_at architecture l) by lia.
      constructor; assumption.
Qed.

Lemma reshape_loop_short layers : forall thetas lastIndex,
  (forall l, In l layers ->
     In l (dict.keys architecture) /\ In (l - 1)%Z (dict.keys architecture)) ->
  lastIndex <= length params ->
  length params < lastIndex + list_sum (map (weights_at architecture) layers) ->
  for_each layers (reshape_step architecture params) (thetas, lastIndex)
  = Raise ValueError.
Proof.
  induction layers as [|l layers IH]; intros thetas lastIndex Hkeys Hle Hlt.
  - simpl in Hlt. lia.
  - destruct (Hkeys l (or_introl eq_refl)) as [Hl Hl1].
    cbn [for_each]. unfold reshape_step at 1.
    rewrite (size_at_get _ _ Hl), (size_at_get _ _ Hl1). cbn [bind].
    fold (weights_at architecture l).
    destruct (le_lt_dec (lastIndex + weights_at architecture l) (length params)) as [Hfit|Hover].
    + destruct (reshape_slice_ok params lastIndex (size_at architecture l)
                  (size_at architecture (l - 1) + 1)) as (theta & Hth & _).
      { exact Hfit. }
      unfold weights_at at 1. rewrite Hth. cbn [bind].
      apply IH.
      * intros l' Hl'. apply Hkeys. now right.
      * exact Hfit.
      * simpl in Hlt. lia.
    + unfold weights_at at 1. rewrite reshape_slice_short; [reflexivity|lia|exact Hover].
Qed.

Lemma flatten_loop (pre suf : dict.t ndarray) (acc : list F) :
  List.NoDup (dict.keys (pre ++ suf)) ->
  for_each (dict.keys suf)
    (fun gradients layer =>
       let* g := dict.get (pre ++ suf) layer in Ok (gradients ++ np.ravel_F g))
    acc
  = Ok (acc ++ concat (map np.ravel_F (dict.values suf))).
Proof.
  revert pre acc. induction suf as [|[k g] suf IH]; intros pre acc Hnd.
  - simpl. now rewrite app_nil_r.
  - cbn [dict.keys map fst for_each].
    rewrite get_middle.
    2:{ rewrite keys_app in Hnd. apply NoDup_remove_2 in Hnd.
        intros Hin. apply Hnd. apply in_or_app. now left. }
    cbn [bind].
    replace (pre ++ (k, g) :: suf) with ((pre ++ [(k, g)]) ++ suf)
      by (now rewrite <- app_assoc).
    change (map fst suf) with (dict.keys suf).
    rewrite IH.
    + simpl. now rewrite <- app_assoc.
    + rewrite <- app_assoc. exact Hnd.
Qed.

Lemma flatten_unpacked layers v d :
  unpacked architecture (1%Z :: layers) v d -> List.NoDup (1%Z :: layers) ->
  flatten d = Ok v.
Proof.
  intros Hun Hnd. destruct (unpacked_keys _ _ _ Hun) as [Hk Hv].
  inversion Hun as [|? ? v' theta d' Hr Hc Hun' E1 E2 E3]; subst.
  unfold flatten. simpl dict.get. cbn [bind].
  cbn [dict.keys map skipn].
  change (map fst d') with (dict.keys d').
  rewrite (flatten_loop [(1%Z, theta)] d').
  - destruct (unpacked_keys _ _ _ Hun') as [_ ->]. reflexivity.
  - simpl. simpl in Hk. rewrite Hk. exact Hnd.
Qed.
End CodecLoop.

(** ** The parameter codec *)

Lemma zrange_in (a n : nat) (z : Z) :
  In z (zrange a n) <-> (Z.of_nat a <= z < Z.of_nat (a + n))%Z.
Proof.
  unfold zrange. rewrite in_map_iff. split.
  - intros (i & <- & Hi). apply in_seq in Hi. lia.
  - intros Hz. exists (Z.to_nat z). split; [lia|]. apply in_seq. lia.
Qed.

Lemma zrange_NoDup (a n : nat) : List.NoDup (zrange a n).
Proof.
  unfold zrange. apply Finite.Injective_map_NoDup.
  - intros x y. apply Nat2Z.inj.
  - apply seq_NoDup.
Qed.

Lemma zrange_cons (a n : nat) : zrange a (S n) = Z.of_nat a :: zrange (S a) n.
Proof. reflexivity. Qed.

Section LayerOrder.
Context {V : Type}.
Variable d : dict.t V.
Variable N : nat.
Hypothesis Hord : layer_order d N.

Lemma layer_order_tail : skipn 2 (dict.keys d) = zrange 2 (N - 1).
Proof using Hord. destruct Hord as [_ [-> | ->]]; reflexivity. Qed.

Lemma layer_order_in (z : Z) :
  In z (dict.keys d) <-> (0 <= z <= Z.of_nat N)%Z.
Proof using Hord.
  destruct Hord as [HN [-> | ->]]; simpl; rewrite zrange_in; lia.
Qed.

Lemma layer_order_layers : zrange 1 N = 1%Z :: zrange 2 (N - 1).
Proof using Hord.
  destruct Hord as [HN _]. destruct N as [|n]; [lia|].
  rewrite zrange_cons. do 2 f_equal. lia.
Qed.
End LayerOrder.

Lemma list_sum_cons (x : nat) (l : list nat) :
  list_sum (x :: l) = x + list_sum l.
Proof. reflexivity. Qed.

Section Codec.
Context `{Scalar}.

Lemma reshapeParams_ok (architecture : dict.t nat) (N : nat) (params : list F) :
  layer_order architecture N ->
  param_count architecture N <= length params ->
  exists thetas,
    reshapeParams architecture params = Ok thetas /\
    unpacked architecture (zrange 1 N)
             (firstn (param_count architecture N) params) thetas.
Proof.
  intros Hord Hlen.
  pose proof (layer_order_in _ _ Hord) as Hin.
  unfold param_count in *. rewrite (layer_order_layers _ _ Hord) in *.
  rewrite map_cons, list_sum_cons in *.
  destruct (reshape_slice_ok params 0 (size_at architecture 1)
              (size_at architecture (1 - 1) + 1)) as (theta1 & Hth & Hrav & Hr & Hc).
  { unfold weights_at in Hlen. lia. }
  destruct (reshape_loop_ok architecture params (zrange 2 (N - 1))
              [(1%Z, theta1)] (weights_at architecture 1))
    as (added & Hloop & Hun).
  - intros l Hl. apply zrange_in in Hl. rewrite !Hin. lia.
  - apply zrange_NoDup.
  - intros l Hl. apply zrange_in in Hl. simpl. intros [E|[]]. lia.
  - lia.
  - exists ((1%Z, theta1) :: added). split.
    + unfold reshapeParams.
      rewrite !size_at_get by (apply Hin; destruct Hord; lia). cbn [bind].
      change (1 - 1)%Z with 0%Z in Hth. cbn [Nat.add] in Hth.
      rewrite Hth. cbn [bind]. cbv zeta.
      rewrite (layer_order_tail _ _ Hord).
      unfold weights_at in Hloop at 1 2. change (1 - 1)%Z with 0%Z in Hloop.
      rewrite Hloop. reflexivity.
    + rewrite firstn_plus. unfold weights_at at 1.
      change (skipn 0 params) with params in Hrav. rewrite <- Hrav.
      constructor; assumption.
Qed.

Lemma reshapeParams_short (architecture : dict.t nat) (N : nat) (params : list F) :
  layer_order architecture N ->
  length params < param_count architecture N ->
  reshapeParams architecture params = Raise ValueError.
Proof.
  intros Hord Hlen.
  pose proof (layer_order_in _ _ Hord) as Hin.
  unfold param_count in *. rewrite (layer_order_layers _ _ Hord) in *.
  rewrite map_cons, list_sum_cons in *.
  unfold reshapeParams.
  rewrite !size_at_get by (apply Hin; destruct Hord; lia). cbn [bind].
  destruct (le_lt_dec (weights_at architecture 1) (length params)) as [Hfit|Hover].
  - destruct (reshape_slice_ok params 0 (size_at architecture 1)
                (size_at architecture (1 - 1) + 1)) as (theta1 & Hth & _).
    { exact Hfit. }
    change (1 - 1)%Z with 0%Z in Hth. cbn [Nat.add] in Hth.
    rewrite Hth. cbn [bind]. cbv zeta.
    rewrite (layer_order_tail _ _ Hord).
    rewrite reshape_loop_short; [reflexivity| | |].
    + intros l Hl. apply zrange_in in Hl. rewrite !Hin. lia.
    + exact Hfit.
    + unfold weights_at in Hlen at 1. change (1 - 1)%Z with 0%Z in Hlen. lia.
  - pose proof (reshape_slice_short params 0 (size_at architecture 1)
                  (size_at architecture 0 + 1)) as Hs.
    cbn [Nat.add] in Hs. rewrite Hs; [reflexivity|lia|exact Hover].
Qed.

Lemma reshapeParams_flatten (architecture : dict.t nat) (N : nat) (params : list F) :
  layer_order architecture N ->
  param_count architecture N <= length params ->
  exists thetas,
    reshapeParams architecture params = Ok thetas /\
    flatten thetas = Ok (firstn (param_count architecture N) params).
Proof.
  intros Hord Hlen.
  destruct (reshapeParams_ok architecture N params Hord Hlen) as (thetas & Hre & Hun).
  exists thetas. split; [exact Hre|].
  rewrite (layer_order_layers _ _ Hord) in Hun.
  eapply flatten_unpacked; [exact Hun|].
  rewrite <- (layer_order_layers _ _ Hord). apply zrange_NoDup.
Qed.

End Codec.

(** ** Forward propagation *)

Section Forward.
Context `{Scalar}.
Variable np_sum : list (list F) -> F.

Lemma broadcast_dim_same (a : nat) : np.broadcast_dim a a = Some a.
Proof. unfold np.broadcast_dim. now rewrite Nat.eqb_refl. Qed.

Lemma bidx_in_range (n i : nat) : i < n -> np.bidx n i = i.
Proof.
  unfold np.bidx. destruct (Nat.eqb_spec n 1); [lia|reflexivity].
Qed.

Lemma sum_squares_from1_value (theta : ndarray) :
  sum_squares_from1 np_sum theta = Ok (nonbias_sum_squares np_sum theta).
Proof.
  unfold sum_squares_from1, np.multiply, np.elementwise.
  rewrite !broadcast_dim_same. cbn [bind]. f_equal.
  unfold np.sum, nonbias_sum_squares, nonbias_squares, to_rows.
  cbn [nrows ncols entry np.cols_from1].
  f_equal. apply map_ext_in. intros i Hi. apply in_seq in Hi.
  rewrite <- seq_shift, map_map. apply map_ext_in. intros j Hj.
  apply in_seq in Hj.
  rewrite !bidx_in_range by lia. reflexivity.
Qed.

Lemma forward_loop_reg (thetas : dict.t ndarray) (m : nat) (neuron : F -> F)
    (layers : list Z) :
  forall activs r activs' r',
    for_each layers (forward_step np_sum thetas m neuron) (activs, r)
    = Ok (activs', r') ->
    exists ts,
      Forall2 (fun l t => dict.get thetas l = Ok t) layers ts /\
      r' = fold_left (fun acc t => Fadd acc (nonbias_sum_squares np_sum t)) ts r.
Proof.
  induction layers as [|l layers IH]; intros activs r activs' r' Hrun.
  - injection Hrun as <- <-. exists []. split; [constructor|reflexivity].
  - cbn [for_each] in Hrun. unfold forward_step at 1 in Hrun.
    destruct (dict.get thetas l) as [t|] eqn:Ht; [|discriminate].
    cbn [bind] in Hrun.
    destruct (dict.get activs l) as [a|]; [|discriminate].
    cbn [bind] in Hrun.
    destruct (np.dot t a) as [z|]; [|discriminate].
    cbn [bind] in Hrun.
    destruct (np.concatenate0 _ _) as [a'|]; [|discriminate].
    cbn [bind] in Hrun.
    rewrite sum_squares_from1_value in Hrun. cbn [bind] in Hrun.
    destruct (IH _ _ _ _ Hrun) as (ts & Hts & ->).
    exists (t :: ts). split; [constructor; assumption|reflexivity].
Qed.

Lemma get_all_values {V} (d : dict.t V) (vs : list V) :
  dict.wf d ->
  Forall2 (fun l v => dict.get d l = Ok v) (dict.keys d) vs ->
  vs = dict.values d.
Proof.
  unfold dict.wf. intros Hnd.
  enough (Hgen : forall pre suf vs,
             d = pre ++ suf ->
             Forall2 (fun l v => dict.get d l = Ok v) (dict.keys suf) vs ->
             vs = dict.values suf).
  { intros Hall. apply (Hgen [] d vs eq_refl Hall). }
  intros pre suf. revert pre.
  induction suf as [|[k v] suf IH]; intros pre vs0 Hd Hall.
  - inversion Hall. reflexivity.
  - cbn [dict.keys map fst] in Hall. inversion Hall as [|? w ? ws Hw Hrest]; subst.
    rewrite get_middle in Hw.
    2:{ rewrite keys_app in Hnd. apply NoDup_remove_2 in Hnd.
        intros Hin. apply Hnd. apply in_or_app. now left. }
    injection Hw as <-. cbn [dict.values map snd]. f_equal.
    apply (IH (pre ++ [(k, v)])); [now rewrite <- app_assoc|exact Hrest].
Qed.

Lemma last_key_split {V} (d : dict.t V) (k : Z) :
  dict.last_key d = Ok k -> dict.keys d = removelast (dict.keys d) ++ [k].
Proof.
  unfold dict.last_key. intros Hk.
  destruct (rev (dict.keys d)) as [|k0 ks] eqn:E; [discriminate|].
  injection Hk as ->.
  rewrite <- (rev_involutive (dict.keys d)), E. simpl.
  now rewrite removelast_last.
Qed.

Lemma feedForward_raw_reg (thetas : dict.t ndarray) (input : ndarray)
    (regTerm : F) (m : nat) (neuron : F -> F) hypothesis activs regTerm' :
  dict.wf thetas ->
  feedForward_raw np_sum thetas input regTerm m neuron
  = Ok (hypothesis, activs, regTerm') ->
  regTerm' = fold_left (fun acc t => Fadd acc (nonbias_sum_squares np_sum t))
                       (dict.values thetas) regTerm.
Proof.
  intros Hwf Hrun. unfold feedForward_raw in Hrun.
  destruct (for_each _ _ _) as [[activs1 r1]|] eqn:Hloop; [|discriminate].
  cbn [bind] in Hrun.
  destruct (dict.last_key thetas) as [last|] eqn:Hlast; [|discriminate].
  cbn [bind] in Hrun.
  destruct (dict.get thetas last) as [t|] eqn:Ht; [|discriminate].
  cbn [bind] in Hrun.
  rewrite sum_squares_from1_value in Hrun. cbn [bind] in Hrun.
  destruct (dict.last_key activs1) as [lastA|]; [|discriminate].
  cbn [bind] in Hrun.
  destruct (dict.get activs1 lastA) as [a|]; [|discriminate].
  cbn [bind] in Hrun.
  destruct (np.dot t a) as [z|]; [|discriminate].
  cbn [bind] in Hrun. injection Hrun as _ _ <-.
  destruct (forward_loop_reg _ _ _ _ _ _ _ _ Hloop) as (ts & Hts & ->).
  assert (Hall : Forall2 (fun l v => dict.get thetas l = Ok v)
                         (dict.keys thetas) (ts ++ [t])).
  { rewrite (last_key_split _ _ Hlast). apply Forall2_app; [exact Hts|].
    constructor; [exact Ht|constructor]. }
  rewrite <- (get_all_values _ _ Hwf Hall).
  rewrite fold_left_app. reflexivity.
Qed.

End Forward.

(** ** The checks for numerical instabilities *)

Section Stabilise.
Context `{Scalar}.

Lemma contains_false (x : F) (A : ndarray) :
  np.contains x A = false ->
  forall i j, i < nrows A -> j < ncols A -> Feqb (entry A i j) x = false.
Proof.
  intros Hno i j Hi Hj.
  destruct (Feqb (entry A i j) x) eqn:E; [|reflexivity].
  assert (Hyes : np.contains x A = true); [|congruence].
  unfold np.contains. apply existsb_exists.
  exists (map (entry A i) (seq 0 (ncols A))). split.
  - unfold to_rows.
    apply (in_map (fun i => map (entry A i) (seq 0 (ncols A)))).
    apply in_seq. lia.
  - apply existsb_exists. exists (entry A i j). split; [|exact E].
    apply in_map. apply in_seq. lia.
Qed.

Lemma update_where_entry (x : F) (f : F -> F) (A : ndarray) (i j : nat) :
  i < nrows A -> j < ncols A ->
  entry (if np.contains x A then np.update_where_eq x f A else A) i j
  = (if Feqb (entry A i j) x then f (entry A i j) else entry A i j).
Proof.
  intros Hi Hj. destruct (np.contains x A) eqn:E.
  - reflexivity.
  - now rewrite (contains_false x A E i j Hi Hj).
Qed.

Lemma update_where_shape (x : F) (f : F -> F) (A : ndarray) :
  shape (if np.contains x A then np.update_where_eq x f A else A) = shape A.
Proof. destruct (np.contains x A); reflexivity. Qed.

Lemma stabilise_shape (h : ndarray) : shape (stabilise h) = shape h.
Proof.
  unfold stabilise. cbv zeta. now rewrite !update_where_shape.
Qed.

Lemma stabilise_entry (h : ndarray) (i j : nat) :
  i < nrows h -> j < ncols h ->
  entry (stabilise h) i j = nudge_zero (nudge_one (entry h i j)).
Proof.
  intros Hi Hj. unfold stabilise. cbv zeta.
  pose proof (update_where_shape F1 (fun x => Fsub x F1e_9) h) as Hs.
  injection Hs as Hr Hc.
  rewrite update_where_entry by lia.
  rewrite update_where_entry by lia.
  reflexivity.
Qed.

End Stabilise.

(** Equality of binary64 values ([==]) at the two boundary values. *)
Lemma binary64_eqb_one (x : spec_float) :
  SFeqb x Binary64.one = true <-> x = Binary64.one.
Proof.
  split; [|intros ->; reflexivity].
  unfold SFeqb, Binary64.one.
  destruct x as [s|s| |s m e]; try destruct s; try discriminate.
  cbn [SFcompare].
  destruct (Z.compare e (-52)) eqn:Ee; try discriminate.
  destruct (Pos.compare_cont Eq m 4503599627370496) eqn:Em;
    try discriminate.
  intros _. apply Z.compare_eq in Ee. apply Pos.compare_eq in Em.
  now subst.
Qed.

Lemma binary64_eqb_zero (x : spec_float) :
  SFeqb x Binary64.zero = true <-> exists s, x = S754_zero s.
Proof.
  split.
  - destruct x as [s|s| |s m e]; try destruct s; try discriminate; eauto.
  - intros [s ->]. reflexivity.
Qed.

Lemma binary64_nudge (x : spec_float) :
  (x = Binary64.one ->
   @nudge_zero binary64 (@nudge_one binary64 x) = one_minus_1e_9) /\
  ((exists s, x = S754_zero s) ->
   @nudge_zero binary64 (@nudge_one binary64 x) = Binary64.lit_1e_9) /\
  (x <> Binary64.one -> (forall s, x <> S754_zero s) ->
   @nudge_zero binary64 (@nudge_one binary64 x) = x).
Proof.
  split; [|split].
  - intros ->. vm_compute. reflexivity.
  - intros [s ->]. destruct s; vm_compute; reflexivity.
  - intros Hone Hzero. unfold nudge_one, nudge_zero.
    cbn [Feqb F1 F0 binary64]. unfold Binary64.eqb.
    destruct (SFeqb x Binary64.one) eqn:E1.
    + apply binary64_eqb_one in E1. contradiction.
    + destruct (SFeqb x Binary64.zero) eqn:E0; [|reflexivity].
      apply binary64_eqb_zero in E0 as [s ->]. now destruct (Hzero s).
Qed.

(** ** Back propagation: the regularisation and column 0 *)

Section BiasColumn.
Context `{Scalar}.

Lemma same_bias_column_refl (A : ndarray) : same_bias_column A A.
Proof. split; [reflexivity|auto]. Qed.

Lemma same_bias_keys (G1 G2 : dict.t ndarray) :
  same_bias G1 G2 -> dict.keys G1 = dict.keys G2.
Proof.
  induction 1 as [|[k1 A] [k2 B] G1 G2 [Hk _] _ IH]; [reflexivity|].
  simpl in *. congruence.
Qed.

Lemma same_bias_get (G1 G2 : dict.t ndarray) (l : Z) :
  same_bias G1 G2 ->
  match dict.get G1 l, dict.get G2 l with
  | Ok A, Ok B => same_bias_column A B
  | Raise e1, Raise e2 => e1 = e2
  | _, _ => False
  end.
Proof.
  induction 1 as [|[k1 A] [k2 B] G1 G2 [Hk HAB] _ IH]; [reflexivity|].
  simpl in *. subst k2. destruct (Z.eqb k1 l); assumption.
Qed.

Lemma same_bias_set (G1 G2 : dict.t ndarray) (l : Z) (A B : ndarray) :
  same_bias G1 G2 -> same_bias_column A B ->
  same_bias (dict.set G1 l A) (dict.set G2 l B).
Proof.
  intros HG HAB.
  induction HG as [|[k1 A'] [k2 B'] G1 G2 [Hk HAB'] HG IH].
  - constructor; [split; [reflexivity|assumption]|constructor].
  - simpl in *. subst k2. destruct (Z.eqb k1 l).
    + constructor; [split; [reflexivity|assumption]|assumption].
    + constructor; [split; [reflexivity|assumption]|assumption].
Qed.

(** The gradient of one layer for two regularisation strengths. *)
Lemma gradient_step_same_bias (L1 L2 : F) (thetas activs deltas : dict.t ndarray)
    (m : F) (G1 G2 G1' : dict.t ndarray) (layer : Z) :
  same_bias G1 G2 ->
  gradient_step L1 thetas activs deltas m G1 layer = Ok G1' ->
  exists G2',
    gradient_step L2 thetas activs deltas m G2 layer = Ok G2' /\
    same_bias G1' G2'.
Proof.
  intros HG. unfold gradient_step.
  destruct (truediv F1 m) as [inv|]; [|discriminate].
  cbn [bind].
  destruct (dict.get deltas (layer + 1)) as [d|]; [|discriminate].
  cbn [bind].
  destruct (dict.get activs layer) as [a|]; [|discriminate].
  cbn [bind].
  destruct (np.dot d (np.transpose a)) as [p|]; [|discriminate].
  cbn [bind].
  destruct (dict.get thetas layer) as [theta|]; [|discriminate].
  cbn [bind].
  unfold np.add, np.elementwise. cbn [nrows ncols np.scale np.cols_from1].
  destruct (np.broadcast_dim (nrows p) (nrows theta)) as [r|]; [|discriminate].
  destruct (np.broadcast_dim (ncols p - 1) (ncols theta - 1)) as [c|];
    [|discriminate].
  cbn [bind].
  unfold np.set_cols_from1. cbn [nrows ncols np.scale].
  destruct ((r =? nrows p) || (r =? 1)) eqn:Er; [|discriminate].
  destruct ((c =? ncols p - 1) || (c =? 1)) eqn:Ec; [|discriminate].
  cbn [andb bind]. intros [= <-].
  eexists. split; [reflexivity|].
  apply same_bias_set; [exact HG|].
  split; [reflexivity|]. intros i Hi. reflexivity.
Qed.

Lemma gradient_loop_same_bias (L1 L2 : F) (thetas activs deltas : dict.t ndarray)
    (m : F) (layers : list Z) :
  forall G1 G2 G1',
    same_bias G1 G2 ->
    for_each layers (gradient_step L1 thetas activs deltas m) G1 = Ok G1' ->
    exists G2',
      for_each layers (gradient_step L2 thetas activs deltas m) G2 = Ok G2' /\
      same_bias G1' G2'.
Proof.
  induction layers as [|l layers IH]; intros G1 G2 G1' HG Hrun.
  - injection Hrun as <-. exists G2. split; [reflexivity|assumption].
  - cbn [for_each] in *.
    destruct (gradient_step L1 thetas activs deltas m G1 l) as [G1s|] eqn:E1;
      [|discriminate].
    destruct (gradient_step_same_bias L1 L2 _ _ _ _ _ _ _ _ HG E1)
      as (G2s & E2 & Hs).
    rewrite E2. cbn [bind] in *. eapply IH; eassumption.
Qed.

Lemma backProp_grads_same_bias (architecture : dict.t nat) (L1 L2 : F)
    (thetas : dict.t ndarray) (hypothesis : ndarray)
    (activs : dict.t ndarray) (targets : ndarray) (m : F)
    (dneuron : F -> F) (G1 : dict.t ndarray) :
  backProp_grads architecture L1 thetas hypothesis activs targets m dneuron
  = Ok G1 ->
  exists G2,
    backProp_grads architecture L2 thetas hypothesis activs targets m dneuron
    = Ok G2 /\ same_bias G1 G2.
Proof.
  unfold backProp_grads.
  destruct (np.subtract hypothesis targets) as [d|]; [|discriminate].
  cbn [bind].
  destruct (for_each (range_down _ 2) _ _) as [deltas|]; [|discriminate].
  cbn [bind]. apply gradient_loop_same_bias. constructor.
Qed.

(** What [flatten] returns. *)
Lemma flatten_loop_order (grads : dict.t ndarray) (layers : list Z) :
  forall acc g,
    for_each layers
      (fun gradients layer =>
         let* g := dict.get grads layer in Ok (gradients ++ np.ravel_F g))
      acc = Ok g ->
    g = acc ++ concat (map np.ravel_F
          (flat_map (fun layer =>
                       match dict.get grads layer with
                       | Ok g => [g]
                       | Raise _ => []
                       end) layers)) /\
    Forall (fun layer => exists M, dict.get grads layer = Ok M) layers.
Proof.
  induction layers as [|l layers IH]; intros acc g Hrun.
  - injection Hrun as <-. simpl. rewrite app_nil_r. split; [reflexivity|constructor].
  - cbn [for_each] in Hrun.
    destruct (dict.get grads l) as [M|] eqn:E; [|discriminate].
    cbn [bind] in Hrun. destruct (IH _ _ Hrun) as [-> Hall].
    split.
    + cbn [flat_map]. rewrite E. simpl. now rewrite <- app_assoc.
    + constructor; [eauto|assumption].
Qed.

Lemma flatten_value (grads : dict.t ndarray) (g : list F) :
  flatten grads = Ok g ->
  g = concat (map np.ravel_F (flatten_order grads)).
Proof.
  unfold flatten, flatten_order.
  destruct (dict.get grads 1) as [g1|] eqn:E; [|discriminate].
  cbn [bind]. intros Hrun.
  destruct (flatten_loop_order _ _ _ _ Hrun) as [-> _].
  cbn [flat_map]. rewrite E. reflexivity.
Qed.

Lemma flatten_loop_same_bias (G1 G2 : dict.t ndarray) (layers : list Z) :
  same_bias G1 G2 ->
  forall acc1 acc2 g1,
    for_each layers
      (fun gradients layer =>
         let* g := dict.get G1 layer in Ok (gradients ++ np.ravel_F g))
      acc1 = Ok g1 ->
    exists g2,
      for_each layers
        (fun gradients layer =>
           let* g := dict.get G2 layer in Ok (gradients ++ np.ravel_F g))
        acc2 = Ok g2.
Proof.
  intros HG. induction layers as [|l layers IH]; intros acc1 acc2 g1 Hrun.
  - eexists. reflexivity.
  - cbn [for_each] in *. pose proof (same_bias_get G1 G2 l HG) as Hl.
    destruct (dict.get G1 l) as [A|]; [|discriminate].
    destruct (dict.get G2 l) as [B|]; [|contradiction].
    cbn [bind] in *. eapply IH. exact Hrun.
Qed.

Lemma flatten_same_bias (G1 G2 : dict.t ndarray) (g1 : list F) :
  same_bias G1 G2 -> flatten G1 = Ok g1 -> exists g2, flatten G2 = Ok g2.
Proof.
  intros HG. unfold flatten.
  pose proof (same_bias_get G1 G2 1 HG) as H1.
  destruct (dict.get G1 1) as [A|]; [|discriminate].
  destruct (dict.get G2 1) as [B|]; [|contradiction].
  cbn [bind]. rewrite <- (same_bias_keys _ _ HG).
  apply flatten_loop_same_bias. exact HG.
Qed.

Lemma flatten_order_same_bias (G1 G2 : dict.t ndarray) :
  same_bias G1 G2 ->
  Forall2 same_bias_column (flatten_order G1) (flatten_order G2).
Proof.
  intros HG. unfold flatten_order. rewrite <- (same_bias_keys _ _ HG).
  generalize (1%Z :: skipn 1 (dict.keys G1)). intros layers.
  induction layers as [|l layers IH]; [constructor|].
  cbn [flat_map]. pose proof (same_bias_get G1 G2 l HG) as Hl.
  destruct (dict.get G1 l) as [A|], (dict.get G2 l) as [B|];
    try contradiction; simpl; [constructor; assumption|assumption].
Qed.

Lemma ravel_length (A : ndarray) :
  length (np.ravel_F A) = nrows A * ncols A.
Proof.
  unfold np.ravel_F.
  rewrite (flat_map_constant_length (c := nrows A)).
  - rewrite length_seq. lia.
  - intros j _. now rewrite length_map, length_seq.
Qed.

Lemma ravel_column0 (A : ndarray) (i : nat) :
  i < nrows A -> ncols A <> 0 ->
  nth_error (np.ravel_F A) i = Some (entry A i 0).
Proof.
  intros Hi Hc. unfold np.ravel_F.
  destruct (ncols A) as [|c]; [contradiction|].
  cbn [seq flat_map].
  rewrite nth_error_app1 by (now rewrite length_map, length_seq).
  rewrite nth_error_map, nth_error_seq.
  destruct (Nat.ltb_spec i (nrows A)); [reflexivity|lia].
Qed.

Lemma bias_positions_agree (Ms1 Ms2 : list ndarray) :
  Forall2 same_bias_column Ms1 Ms2 ->
  forall pre1 pre2 k,
    length pre1 = length pre2 ->
    In k (bias_positions (map shape Ms1) (length pre1)) ->
    nth_error (pre1 ++ concat (map np.ravel_F Ms1)) k
    = nth_error (pre2 ++ concat (map np.ravel_F Ms2)) k.
Proof.
  induction 1 as [|A B Ms1 Ms2 [Hsh Hcol] _ IH]; intros pre1 pre2 k Hlen Hk.
  - contradiction.
  - injection Hsh as Hr Hc.
    cbn [map shape bias_positions] in Hk. apply in_app_or in Hk.
    cbn [map concat]. destruct Hk as [Hk|Hk].
    + destruct (Nat.eqb_spec (ncols A) 0) as [|Hne]; [contradiction|].
      apply in_seq in Hk.
      rewrite (nth_error_app2 pre1), (nth_error_app2 pre2) by lia.
      rewrite (nth_error_app1 (np.ravel_F A)), (nth_error_app1 (np.ravel_F B))
        by (rewrite ravel_length; nia).
      rewrite (ravel_column0 A), (ravel_column0 B) by lia.
      rewrite Hlen. f_equal. apply Hcol. lia.
    + rewrite !app_assoc. apply IH.
      * rewrite !length_app, !ravel_length. lia.
      * rewrite length_app, ravel_length. exact Hk.
Qed.

End BiasColumn.

(** ** Shapes through back propagation *)

Lemma range_down_S (c lo : nat) :
  lo <= c -> range_down (S c) lo = Z.of_nat (S c) :: range_down c lo.
Proof.
  intros Hle. unfold range_down.
  replace (S c - lo) with (S (c - lo)) by lia.
  cbn [seq map]. rewrite <- seq_shift, map_map. f_equal.
Qed.

Lemma range_down_nil (c : nat) : range_down c c = [].
Proof. unfold range_down. now rewrite Nat.sub_diag. Qed.

Section ArrayShapes.
Context `{Scalar}.

Lemma elementwise_same_shape (f : F -> F -> F) (A B : ndarray) :
  shape A = shape B ->
  exists C, np.elementwise f A B = Ok C /\ shape C = shape A.
Proof.
  intros [= Hr Hc]. unfold np.elementwise.
  rewrite Hr, Hc, !broadcast_dim_same.
  eexists. split; [reflexivity|]. unfold shape. cbn. congruence.
Qed.

Lemma dot_shape (A B : ndarray) :
  ncols A = nrows B ->
  exists C, np.dot A B = Ok C /\ shape C = (nrows A, ncols B).
Proof.
  intros E. unfold np.dot. rewrite E, Nat.eqb_refl.
  eexists. split; reflexivity.
Qed.

Lemma unpacked_get (architecture : dict.t nat) layers v (d : dict.t ndarray) l :
  unpacked architecture layers v d -> List.NoDup layers -> In l layers ->
  exists theta, dict.get d l = Ok theta /\
    shape theta = (size_at architecture l, size_at architecture (l - 1) + 1).
Proof.
  induction 1 as [|layer layers v theta d Hr Hc Hu IH]; intros Hnd Hin.
  - contradiction.
  - inversion Hnd as [|? ? Hnotin Hnd']; subst. simpl.
    destruct (Z.eqb_spec layer l) as [->|Hne].
    + exists theta. split; [reflexivity|]. unfold shape. congruence.
    + destruct Hin as [|Hin]; [contradiction|]. auto.
Qed.

Lemma unpacked_length (architecture : dict.t nat) layers v (d : dict.t ndarray) :
  unpacked architecture layers v d ->
  length v = list_sum (map (weights_at architecture) layers).
Proof.
  induction 1 as [|layer layers v theta d Hr Hc Hu IH]; [reflexivity|].
  rewrite length_app, ravel_length, map_cons, list_sum_cons, IH.
  unfold weights_at. now rewrite Hr, Hc.
Qed.

Lemma unpacked_thetas_shapes (architecture : dict.t nat) (N : nat) v
    (thetas : dict.t ndarray) :
  unpacked architecture (zrange 1 N) v thetas ->
  thetas_shapes architecture N thetas.
Proof.
  intros Hun l Hl.
  apply (unpacked_get _ _ _ _ l Hun); [apply zrange_NoDup|].
  apply zrange_in. lia.
Qed.

End ArrayShapes.

Section BackwardShapes.
Context `{Scalar}.
Variable architecture : dict.t nat.
Variables N m : nat.
Variables thetas activs : dict.t ndarray.
Variable dneuron : F -> F.
Hypothesis Hthetas : thetas_shapes architecture N thetas.
Hypothesis Hactivs :
  forall l, (1 <= l <= Z.of_nat N)%Z ->
    exists a, dict.get activs l = Ok a /\
      shape a = (size_at architecture (l - 1) + 1, m).

Lemma backward_step_shapes (deltas : dict.t ndarray) (c : nat) :
  2 <= c <= N ->
  deltas_shapes architecture N m deltas (Z.of_nat (S c)) ->
  exists deltas',
    backward_step thetas activs dneuron deltas (Z.of_nat (S c)) = Ok deltas' /\
    deltas_shapes architecture N m deltas' (Z.of_nat c).
Proof using Hthetas Hactivs.
  intros Hc Hd. unfold backward_step.
  replace (Z.of_nat (S c) - 1)%Z with (Z.of_nat c) by lia.
  destruct (Hthetas (Z.of_nat c)) as (theta & -> & [= Htr Htc]); [lia|].
  cbn [bind].
  destruct (Hd (Z.of_nat (S c))) as (d & -> & [= Hdr Hdc]); [lia|].
  cbn [bind].
  replace (Z.of_nat (S c) - 1)%Z with (Z.of_nat c) in Hdr by lia.
  destruct (dot_shape (np.transpose theta) d) as (p & -> & [= Hpr Hpc]).
  { cbn. congruence. }
  cbn [bind]. cbn [np.transpose nrows ncols] in Hpr.
  destruct (Hactivs (Z.of_nat c)) as (a & -> & [= Har Hac]); [lia|].
  cbn [bind].
  destruct (elementwise_same_shape Fmul p (np.map_entries dneuron a))
    as (e & He & [= Her Hec]).
  { unfold shape. cbn. congruence. }
  unfold np.multiply. rewrite He. cbn [bind].
  rewrite get_set_same. cbn [bind].
  eexists. split; [reflexivity|].
  intros l Hl. destruct (Z.eq_dec l (Z.of_nat c)) as [->|Hne].
  - rewrite get_set_same. eexists. split; [reflexivity|].
    unfold shape. cbn. f_equal; lia.
  - rewrite !get_set_other by congruence. apply Hd. lia.
Qed.

Lemma backward_loop_shapes (c : nat) :
  forall deltas,
    2 <= c <= S N ->
    deltas_shapes architecture N m deltas (Z.of_nat c) ->
    exists deltas',
      for_each (range_down c 2) (backward_step thetas activs dneuron) deltas
      = Ok deltas' /\
      deltas_shapes architecture N m deltas' 2.
Proof using Hthetas Hactivs.
  induction c as [|c IH]; intros deltas Hc Hd; [lia|].
  destruct (Nat.eq_dec c 1) as [->|Hne].
  - rewrite range_down_nil. exists deltas. split; [reflexivity|exact Hd].
  - rewrite range_down_S by lia. cbn [for_each].
    destruct (backward_step_shapes deltas c) as (deltas1 & -> & Hd1);
      [lia|exact Hd|].
    cbn [bind]. apply IH; [lia|exact Hd1].
Qed.

Lemma truediv_nonzero (x y : F) :
  Feqb y F0 = false -> truediv x y = Ok (Fdiv x y).
Proof. intros Hy. unfold truediv. now rewrite Hy. Qed.

Lemma truediv_zero (x y : F) :
  Feqb y F0 = true -> truediv x y = Raise ZeroDivisionError.
Proof. intros Hy. unfold truediv. now rewrite Hy. Qed.

Lemma gradient_step_shapes (LAMBDA mF : F) (deltas grads : dict.t ndarray)
    (l : Z) :
  Feqb mF F0 = false ->
  (1 <= l <= Z.of_nat N)%Z ->
  deltas_shapes architecture N m deltas 2 ->
  exists grad,
    gradient_step LAMBDA thetas activs deltas mF grads l
    = Ok (dict.set grads l grad) /\
    shape grad = (size_at architecture l, size_at architecture (l - 1) + 1).
Proof using Hthetas Hactivs.
  intros Hm Hl Hd. unfold gradient_step.
  rewrite !(truediv_nonzero _ _ Hm). cbn [bind].
  destruct (Hd (l + 1)%Z) as (d & -> & [= Hdr Hdc]); [lia|].
  replace (l + 1 - 1)%Z with l in Hdr by lia.
  cbn [bind].
  destruct (Hactivs l Hl) as (a & -> & [= Har Hac]). cbn [bind].
  destruct (dot_shape d (np.transpose a)) as (p & -> & [= Hpr Hpc]).
  { cbn. congruence. }
  cbn [bind]. cbn [np.transpose nrows ncols] in Hpc.
  destruct (Hthetas l Hl) as (theta & -> & [= Htr Htc]). cbn [bind].
  destruct (elementwise_same_shape Fadd
              (np.cols_from1 (np.scale (Fdiv F1 mF) p))
              (np.scale (Fdiv F1 mF) (np.scale LAMBDA (np.cols_from1 theta))))
    as (v & Hv & [= Hvr Hvc]).
  { unfold shape. cbn. congruence. }
  unfold np.add. rewrite Hv. cbn [bind].
  cbn [np.cols_from1 np.scale nrows ncols] in Hvr, Hvc.
  unfold np.set_cols_from1. cbn [np.scale nrows ncols].
  rewrite Hvr, Hvc, !Nat.eqb_refl. cbn [orb andb bind].
  eexists. split; [reflexivity|]. unfold shape. cbn. congruence.
Qed.

Lemma gradient_loop_shapes (LAMBDA mF : F) (deltas : dict.t ndarray)
    (layers : list Z) :
  Feqb mF F0 = false ->
  deltas_shapes architecture N m deltas 2 ->
  forall grads,
    (forall l, In l layers -> (1 <= l <= Z.of_nat N)%Z) ->
    List.NoDup layers ->
    (forall l, In l layers -> ~ In l (dict.keys grads)) ->
    exists added v,
      for_each layers (gradient_step LAMBDA thetas activs deltas mF) grads
      = Ok (grads ++ added) /\
      unpacked architecture layers v added.
Proof using Hthetas Hactivs.
  intros Hm Hd.
  induction layers as [|l layers IH]; intros grads Hrange Hnd Hfresh.
  - exists [], []. rewrite app_nil_r. split; [reflexivity|constructor].
  - inversion Hnd as [|? ? Hnotin Hnd']; subst.
    destruct (gradient_step_shapes LAMBDA mF deltas grads l)
      as (grad & Hstep & [= Hgr Hgc]);
      [exact Hm|apply Hrange; now left|exact Hd|].
    destruct (IH (grads ++ [(l, grad)])) as (added & v & Hloop & Hun).
    + intros l' Hl'. apply Hrange. now right.
    + exact Hnd'.
    + intros l' Hl'. rewrite keys_app, in_app_iff. simpl.
      intros [Hin|[->|[]]]; [|contradiction].
      revert Hin. apply Hfresh. now right.
    + exists ((l, grad) :: added), (np.ravel_F grad ++ v). split.
      * cbn [for_each]. rewrite Hstep. cbn [bind].
        rewrite set_notin by (apply Hfresh; now left).
        rewrite Hloop. now rewrite <- app_assoc.
      * constructor; assumption.
Qed.

End BackwardShapes.

(** ** The whole of back propagation and of forward propagation *)

Section Pipeline.
Context `{Scalar}.

Lemma layer_order_length {V} (d : dict.t V) (N : nat) :
  layer_order d N -> length (dict.keys d) = S N.
Proof.
  intros [HN [-> | ->]]; simpl; unfold zrange;
    rewrite length_map, length_seq; lia.
Qed.

Lemma backProp_grads_unpacked (architecture : dict.t nat) (N m : nat)
    (LAMBDA : F) (thetas : dict.t ndarray) (params : list F)
    (hypothesis : ndarray) (activs : dict.t ndarray) (targets : ndarray)
    (mF : F) (dneuron : F -> F) :
  layer_order architecture N ->
  unpacked architecture (zrange 1 N) params thetas ->
  backprop_shapes architecture N m hypothesis activs targets ->
  Feqb mF F0 = false ->
  exists G g,
    backProp_grads architecture LAMBDA thetas hypothesis activs targets mF
                   dneuron = Ok G /\
    unpacked architecture (zrange 1 N) g G.
Proof.
  intros Hord Hun (Hactivs & Hhyp & Htar) Hm.
  pose proof (unpacked_thetas_shapes _ _ _ _ Hun) as Hthetas.
  unfold backProp_grads. rewrite (layer_order_length _ _ Hord).
  destruct (elementwise_same_shape Fsub hypothesis targets)
    as (d & Hd & Hds); [congruence|].
  unfold np.subtract. rewrite Hd. cbn [bind]. cbn [dict.set].
  destruct (backward_loop_shapes architecture N m thetas activs dneuron
              Hthetas Hactivs (S N) [(Z.of_nat (S N), d)])
    as (deltas & -> & Hdeltas).
  { destruct Hord. lia. }
  { intros l Hl. assert (l = Z.of_nat (S N)) as -> by lia.
    cbn [dict.get]. rewrite Z.eqb_refl. exists d. split; [reflexivity|].
    rewrite Hds, Hhyp. do 2 f_equal. lia. }
  cbn [bind].
  destruct (unpacked_keys _ _ _ _ Hun) as [-> _].
  destruct (gradient_loop_shapes architecture N m thetas activs
              Hthetas Hactivs LAMBDA mF deltas (zrange 1 N) Hm Hdeltas [])
    as (G & g & -> & HG).
  - intros l Hl. apply zrange_in in Hl. lia.
  - apply zrange_NoDup.
  - intros l _ [].
  - exists G, g. split; [reflexivity|exact HG].
Qed.

(** With [m] equal to zero the first quotient [1/m] raises. *)
Lemma backProp_grads_zero_division (architecture : dict.t nat) (N m : nat)
    (LAMBDA : F) (thetas : dict.t ndarray) (params : list F)
    (hypothesis : ndarray) (activs : dict.t ndarray) (targets top : ndarray)
    (mF : F) (dneuron : F -> F) :
  layer_order architecture N ->
  unpacked architecture (zrange 1 N) params thetas ->
  (forall l, (1 <= l <= Z.of_nat N)%Z ->
     exists a, dict.get activs l = Ok a /\
               shape a = (size_at architecture (l - 1) + 1, m)) ->
  shape hypothesis = (size_at architecture (Z.of_nat N), m) ->
  np.subtract hypothesis targets = Ok top ->
  shape top = shape hypothesis ->
  Feqb mF F0 = true ->
  backProp_grads architecture LAMBDA thetas hypothesis activs targets mF
                 dneuron = Raise ZeroDivisionError /\
  backProp architecture LAMBDA thetas hypothesis activs targets mF dneuron
  = Raise ZeroDivisionError.
Proof.
  intros Hord Hun Hactivs Hhyp Hd Hds Hm.
  pose proof (unpacked_thetas_shapes _ _ _ _ Hun) as Hthetas.
  assert (Hgrads : backProp_grads architecture LAMBDA thetas hypothesis
                     activs targets mF dneuron = Raise ZeroDivisionError).
  { unfold backProp_grads. rewrite (layer_order_length _ _ Hord).
    rewrite Hd. cbn [bind]. cbn [dict.set].
    destruct (backward_loop_shapes architecture N m thetas activs dneuron
                Hthetas Hactivs (S N) [(Z.of_nat (S N), top)])
      as (deltas & -> & Hdeltas).
    { destruct Hord. lia. }
    { intros l Hl. assert (l = Z.of_nat (S N)) as -> by lia.
      cbn [dict.get]. rewrite Z.eqb_refl. exists top. split; [reflexivity|].
      rewrite Hds, Hhyp. do 2 f_equal. lia. }
    cbn [bind].
    destruct (unpacked_keys _ _ _ _ Hun) as [-> _].
    destruct Hord as [HN _]. destruct N as [|N']; [lia|].
    rewrite zrange_cons. cbn [for_each]. unfold gradient_step at 1.
    now rewrite (truediv_zero _ _ Hm). }
  split; [exact Hgrads|]. unfold backProp. now rewrite Hgrads.
Qed.

Lemma backProp_unpacked (architecture : dict.t nat) (N m : nat)
    (LAMBDA : F) (thetas : dict.t ndarray) (params : list F)
    (hypothesis : ndarray) (activs : dict.t ndarray) (targets : ndarray)
    (mF : F) (dneuron : F -> F) :
  layer_order architecture N ->
  unpacked architecture (zrange 1 N) params thetas ->
  backprop_shapes architecture N m hypothesis activs targets ->
  Feqb mF F0 = false ->
  exists G g,
    backProp_grads architecture LAMBDA thetas hypothesis activs targets mF
                   dneuron = Ok G /\
    backProp architecture LAMBDA thetas hypothesis activs targets mF dneuron
    = Ok g /\
    unpacked architecture (zrange 1 N) g G /\
    length g = length params.
Proof.
  intros Hord Hun Hshapes Hm.
  destruct (backProp_grads_unpacked architecture N m LAMBDA thetas params
              hypothesis activs targets mF dneuron Hord Hun Hshapes Hm)
    as (G & g & HG & HunG).
  exists G, g. split; [exact HG|]. split; [|split; [exact HunG|]].
  - unfold backProp. rewrite HG. cbn [bind].
    rewrite (layer_order_layers _ _ Hord) in HunG.
    eapply flatten_unpacked; [exact HunG|].
    rewrite <- (layer_order_layers _ _ Hord). apply zrange_NoDup.
  - now rewrite (unpacked_length _ _ _ _ HunG), (unpacked_length _ _ _ _ Hun).
Qed.

End Pipeline.

(** ** Shapes through forward propagation *)

Lemma zrange_snoc (a n : nat) :
  zrange a (S n) = zrange a n ++ [Z.of_nat (a + n)].
Proof. unfold zrange. now rewrite seq_S, map_app. Qed.

Lemma zrange_last (N : nat) :
  1 <= N -> zrange 1 N = zrange 1 (N - 1) ++ [Z.of_nat N].
Proof.
  intros HN. destruct N as [|n]; [lia|].
  rewrite zrange_snoc. simpl. now rewrite Nat.sub_0_r.
Qed.

Lemma get_app_l {V} (d d' : dict.t V) (k : Z) (v : V) :
  dict.get d k = Ok v -> dict.get (d ++ d') k = Ok v.
Proof.
  induction d as [|[k0 v0] d IH]; simpl; [discriminate|].
  destruct (Z.eqb k0 k); auto.
Qed.

Section ForwardShapes.
Context `{Scalar}.
Variable np_sum : list (list F) -> F.
Variable architecture : dict.t nat.
Variables N m : nat.
Variable thetas : dict.t ndarray.
Variable neuron : F -> F.
Hypothesis Hthetas : thetas_shapes architecture N thetas.

Lemma forward_step_shapes (activs : dict.t ndarray) (r : F) (c : nat) :
  1 <= c <= N ->
  activs_shapes architecture m activs c ->
  exists activs' r',
    forward_step np_sum thetas m neuron (activs, r) (Z.of_nat c) = Ok (activs', r') /\
    activs_shapes architecture m activs' (S c).
Proof using Hthetas.
  intros Hc [Hkeys Hshapes]. unfold forward_step.
  destruct (Hthetas (Z.of_nat c)) as (theta & -> & [= Htr Htc]); [lia|].
  cbn [bind].
  destruct (Hshapes (Z.of_nat c)) as (a & Ha & [= Har Hac]); [lia|].
  rewrite Ha. cbn [bind].
  destruct (dot_shape theta a) as (z & -> & [= Hzr Hzc]); [congruence|].
  cbn [bind].
  unfold np.concatenate0. cbn [np.tile1 np.map_entries nrows ncols].
  rewrite Hzc, Hac, Nat.eqb_refl. cbn [bind].
  rewrite sum_squares_from1_value. cbn [bind].
  eexists _, _. split; [reflexivity|].
  assert (Hfresh : ~ In (Z.of_nat c + 1)%Z (dict.keys activs)).
  { rewrite Hkeys, zrange_in. lia. }
  rewrite set_notin by exact Hfresh. split.
  - rewrite keys_app, Hkeys, zrange_snoc. simpl. do 2 f_equal. lia.
  - intros l Hl. destruct (Z.eq_dec l (Z.of_nat c + 1)%Z) as [->|Hne].
    + rewrite get_middle by exact Hfresh.
      eexists. split; [reflexivity|]. unfold shape. cbn [nrows ncols].
      replace (Z.of_nat c + 1 - 1)%Z with (Z.of_nat c) by lia.
      f_equal. lia.
    + destruct (Hshapes l) as (a0 & Ha0 & Hs0); [lia|].
      exists a0. split; [|exact Hs0]. now apply get_app_l.
Qed.

Lemma forward_loop_shapes (k : nat) :
  forall c activs r,
    1 <= c -> c + k <= S N -> k <= N ->
    activs_shapes architecture m activs c ->
    exists activs' r',
      for_each (zrange c k) (forward_step np_sum thetas m neuron) (activs, r)
      = Ok (activs', r') /\
      activs_shapes architecture m activs' (c + k).
Proof using Hthetas.
  induction k as [|k IH]; intros c activs r Hc Hck Hk Ha.
  - exists activs, r. rewrite Nat.add_0_r. split; [reflexivity|exact Ha].
  - rewrite zrange_cons. cbn [for_each].
    destruct (forward_step_shapes activs r c) as (activs1 & r1 & -> & Ha1);
      [lia|exact Ha|].
    cbn [bind].
    destruct (IH (S c) activs1 r1) as (activs2 & r2 & Hloop & Ha2);
      [lia|lia|lia|exact Ha1|].
    exists activs2, r2. split; [exact Hloop|].
    now replace (c + S k) with (S c + k) by lia.
Qed.

End ForwardShapes.

Section ForwardTotal.
Context `{Scalar}.
Variable np_sum : list (list F) -> F.

Lemma feedForward_raw_shapes (architecture : dict.t nat) (N m : nat)
    (thetas : dict.t ndarray) (params : list F) (input : ndarray)
    (regTerm : F) (neuron : F -> F) :
  1 <= N ->
  unpacked architecture (zrange 1 N) params thetas ->
  shape input = (size_at architecture 0 + 1, m) ->
  exists hypothesis activs regTerm',
    feedForward_raw np_sum thetas input regTerm m neuron
    = Ok (hypothesis, activs, regTerm') /\
    activs_shapes architecture m activs N /\
    shape hypothesis = (size_at architecture (Z.of_nat N), m).
Proof.
  intros HN Hun Hin.
  pose proof (unpacked_thetas_shapes _ _ _ _ Hun) as Hthetas.
  destruct (unpacked_keys _ _ _ _ Hun) as [Hkeys _].
  unfold feedForward_raw.
  rewrite Hkeys, (zrange_last N HN), removelast_last.
  destruct (forward_loop_shapes np_sum architecture N m thetas neuron Hthetas
              (N - 1) 1 [(1%Z, input)] regTerm)
    as (activs & r & -> & Ha); [lia|lia|lia| |].
  { split; [reflexivity|]. intros l Hl. assert (l = 1%Z) as -> by lia.
    exists input. split; [reflexivity|exact Hin]. }
  cbn [bind].
  replace (1 + (N - 1)) with N in Ha by lia.
  unfold dict.last_key at 1. rewrite Hkeys, (zrange_last N HN), rev_app_distr.
  cbn [rev app bind].
  destruct (Hthetas (Z.of_nat N)) as (theta & -> & [= Htr Htc]); [lia|].
  cbn [bind]. rewrite sum_squares_from1_value. cbn [bind].
  destruct Ha as [Hakeys Hashapes].
  unfold dict.last_key. rewrite Hakeys, (zrange_last N HN), rev_app_distr.
  cbn [rev app bind].
  destruct (Hashapes (Z.of_nat N)) as (a & -> & [= Har Hac]); [lia|].
  cbn [bind].
  destruct (dot_shape theta a) as (z & -> & [= Hzr Hzc]); [congruence|].
  cbn [bind]. eexists _, _, _. split; [reflexivity|]. split.
  - split; [exact Hakeys|exact Hashapes].
  - unfold shape. cbn [np.map_entries nrows ncols]. congruence.
Qed.

Lemma feedForward_shapes (architecture : dict.t nat) (N m : nat)
    (thetas : dict.t ndarray) (params : list F) (input : ndarray)
    (regTerm : F) (neuron : F -> F) :
  1 <= N ->
  unpacked architecture (zrange 1 N) params thetas ->
  shape input = (size_at architecture 0 + 1, m) ->
  exists hypothesis activs regTerm',
    feedForward np_sum thetas input regTerm m neuron
    = Ok (hypothesis, activs, regTerm') /\
    activs_shapes architecture m activs N /\
    shape hypothesis = (size_at architecture (Z.of_nat N), m).
Proof.
  intros HN Hun Hin.
  destruct (feedForward_raw_shapes architecture N m thetas params input
              regTerm neuron HN Hun Hin) as (h & a & r & Hraw & Ha & Hh).
  exists (stabilise h), a, r. unfold feedForward. rewrite Hraw. cbn [bind].
  split; [reflexivity|]. split; [exact Ha|].
  now rewrite stabilise_shape.
Qed.

End ForwardTotal.
(** ** The instance: [__init__], [set_params] and [fit] *)

Section Instance.
Context `{Scalar}.
Variable array_equals : list F -> string -> result bool.
Implicit Types self : gmap string pyval.
Implicit Types h : gmap loc pyobj.

Lemma setattr_known self (parameter : string) (value : pyval) :
  is_Some (self !! parameter) ->
  setattr self parameter value = Ok (<[parameter := value]> self).
Proof. intros [v Hv]. unfold setattr. now rewrite Hv. Qed.

Lemma setattr_unknown self (parameter : string) (value : pyval) :
  self !! parameter = None ->
  setattr self parameter value = Raise (AttributeError parameter).
Proof. intros Hv. unfold setattr. now rewrite Hv. Qed.

Lemma keyword_self_absent (keys : list string) :
  ~ In "self"%string keys -> existsb (String.eqb "self") keys = false.
Proof.
  intros Hnot. destruct (existsb _ keys) eqn:E; [|reflexivity].
  apply existsb_exists in E as (k & Hk & Ek).
  apply String.eqb_eq in Ek. subst k. contradiction.
Qed.

Lemma keyword_self_present (keys : list string) :
  In "self"%string keys -> existsb (String.eqb "self") keys = true.
Proof.
  intros Hin. apply existsb_exists. exists "self"%string.
  split; [exact Hin|apply String.eqb_refl].
Qed.

Lemma set_params_bound self (parameters : list (string * pyval)) :
  ~ In "self"%string (map fst parameters) ->
  set_params self parameters = set_params_body self parameters.
Proof.
  intros Hnot. unfold set_params. now rewrite keyword_self_absent.
Qed.

Lemma set_params_self self (parameters : list (string * pyval)) :
  In "self"%string (map fst parameters) ->
  set_params self parameters = (self, Raise TypeError).
Proof.
  intros Hin. unfold set_params. now rewrite keyword_self_present.
Qed.

Lemma set_params_body_unknown (parameters : list (string * pyval)) :
  forall self (key : string),
    In key (map fst parameters) ->
    self !! key = None ->
    exists unknown,
      snd (set_params_body self parameters) = Raise (AttributeError unknown) /\
      In unknown (map fst parameters) /\
      self !! unknown = None /\
      dom (fst (set_params_body self parameters)) = dom self.
Proof.
  induction parameters as [|[p v] rest IH]; intros self key Hin Hkey.
  - contradiction.
  - cbn [set_params_body]. destruct (self !! p) as [old|] eqn:Hp.
    + rewrite setattr_known by (rewrite Hp; eauto).
      assert (Hne : p <> key) by congruence.
      destruct Hin as [|Hin]; [contradiction|].
      destruct (IH (<[p := v]> self) key Hin) as (u & Hu & Hin' & Hnone & Hdom).
      { now rewrite lookup_insert_ne. }
      exists u. split; [exact Hu|]. split; [now right|]. split.
      * destruct (decide (p = u)) as [->|Hpu].
        -- now rewrite lookup_insert_eq in Hnone.
        -- now rewrite lookup_insert_ne in Hnone.
      * rewrite Hdom. apply dom_insert_lookup_L. rewrite Hp. eauto.
    + rewrite setattr_unknown by exact Hp.
      exists p. split; [reflexivity|]. split; [now left|].
      split; [exact Hp|reflexivity].
Qed.

Lemma set_params_body_dom (parameters : list (string * pyval)) :
  forall self, dom (fst (set_params_body self parameters)) = dom self.
Proof.
  induction parameters as [|[p v] rest IH]; intros self; [reflexivity|].
  cbn [set_params_body]. unfold setattr.
  destruct (self !! p) as [old|] eqn:Hp; [|reflexivity].
  rewrite IH. apply dom_insert_lookup_L. rewrite Hp. eauto.
Qed.

Lemma set_params_dom (parameters : list (string * pyval)) self :
  dom (fst (set_params self parameters)) = dom self.
Proof.
  unfold set_params. destruct (existsb _ _); [reflexivity|].
  apply set_params_body_dom.
Qed.

Lemma set_params_known self (key : string) (value : pyval) :
  is_Some (self !! key) ->
  key <> "self"%string ->
  set_params self [(key, value)] = (<[key := value]> self, Ok tt).
Proof.
  intros Hk Hne. rewrite set_params_bound.
  - cbn [set_params_body]. now rewrite setattr_known.
  - cbn. intros [E|[]]. now apply Hne.
Qed.

Lemma init_attributes (architecture : loc) (LAMBDA : F)
    (neuron optimiser : string) (maxiter : Z) self :
  init architecture LAMBDA neuron optimiser maxiter = Ok self ->
  self !! "architecture"%string = Some (VRef architecture) /\
  self !! "LAMBDA"%string = Some (VFloat LAMBDA) /\
  self !! "neuron"%string = Some (VStr neuron) /\
  self !! "maxiter"%string = Some (VInt maxiter) /\
  self !! "optimiser"%string = Some (VFunc optimiser) /\
  self !! "_trainedParams"%string = Some VNone.
Proof.
  unfold init.
  destruct (existsb (String.eqb optimiser) scipy_optimisers); [|discriminate].
  intros [= <-].
  repeat split;
    repeat (rewrite lookup_insert_ne by discriminate);
    apply lookup_insert_eq.
Qed.

Lemma init_dom (architecture : loc) (LAMBDA : F)
    (neuron optimiser : string) (maxiter : Z) self :
  init architecture LAMBDA neuron optimiser maxiter = Ok self ->
  dom self = attribute_names.
Proof.
  unfold init.
  destruct (existsb (String.eqb optimiser) scipy_optimisers); [|discriminate].
  intros [= <-]. unfold attribute_names.
  rewrite !dom_insert_L, dom_empty_L. set_solver.
Qed.

(** The attribute names of a reachable state are those of
    [__init__]. *)
Lemma reachable_dom h self :
  reachable array_equals h self -> dom self = attribute_names.
Proof.
  induction 1 as [h a L n o mi self Hinit|h self X y _ IH|h self ps _ IH].
  - exact (init_dom _ _ _ _ _ _ Hinit).
  - exact IH.
  - now rewrite set_params_dom.
Qed.

Lemma attribute_names_known (key : string) self :
  dom self = attribute_names ->
  is_Some (self !! key) ->
  key <> "self"%string.
Proof.
  intros Hdom Hk ->. apply elem_of_dom in Hk. rewrite Hdom in Hk.
  unfold attribute_names in Hk. set_solver.
Qed.

Lemma squeeze_pair (m n : nat) :
  m <> 1 -> n <> 1 -> np.squeeze [m; n] = [m; n].
Proof.
  intros Hm Hn. unfold np.squeeze. cbn [List.filter].
  destruct (Nat.eqb_spec m 1); [contradiction|].
  destruct (Nat.eqb_spec n 1); [contradiction|]. reflexivity.
Qed.

Lemma architecture_of_Some h self (architecture : dict.t nat) :
  architecture_of h self = Some architecture ->
  exists l, self !! "architecture"%string = Some (VRef l) /\
            h !! l = Some (ODict architecture).
Proof.
  unfold architecture_of.
  destruct (self !! "architecture"%string) as [[]|]; try discriminate.
  destruct (h !! l) as [[]|] eqn:Hl; try discriminate.
  intros [= ->]. eauto.
Qed.

Lemma fit_bad_shape h self (X : list nat) (y : list Z) :
  length (np.squeeze X) <> 2 ->
  fit array_equals h self X y = (h, Raise ValueError).
Proof.
  intros Hlen. unfold fit.
  destruct (np.squeeze X) as [|m [|n [|? ?]]]; try reflexivity.
  contradiction Hlen. reflexivity.
Qed.

Lemma fit_raises h self (X : list nat) (y : list Z) :
  is_ok (snd (fit array_equals h self X y)) = false.
Proof.
  unfold fit.
  destruct (np.squeeze X) as [|m [|n [|? ?]]]; try reflexivity.
  destruct (self !! "architecture"%string) as [[]|]; try reflexivity.
  destruct (h !! l) as [o|]; [|reflexivity].
  destruct (setitem0 o n) as [o1|]; [|reflexivity].
  destruct (set_output o1 y) as [o2|]; [|reflexivity].
  destruct (select_neuron _ _ _); reflexivity.
Qed.

(** [fit] changes no object but the one [self.architecture] refers
    to. *)
Lemma fit_frame h self (X : list nat) (y : list Z) (l : loc) :
  self !! "architecture"%string <> Some (VRef l) ->
  fst (fit array_equals h self X y) !! l = h !! l.
Proof.
  intros Hne. unfold fit.
  destruct (np.squeeze X) as [|m [|n [|? ?]]]; try reflexivity.
  destruct (self !! "architecture"%string) as [[| | | | |la]|];
    try reflexivity.
  assert (Hla : la <> l) by congruence.
  destruct (h !! la) as [o|]; [|reflexivity].
  destruct (setitem0 o n) as [o1|]; [|reflexivity].
  destruct (set_output o1 y) as [o2|]; cbn [fst].
  - destruct (select_neuron _ _ _); cbn [fst];
      now rewrite !lookup_insert_ne by exact Hla.
  - now rewrite lookup_insert_ne by exact Hla.
Qed.

(** [fit] creates no object. *)
Lemma fit_dom h self (X : list nat) (y : list Z) :
  dom (fst (fit array_equals h self X y)) = dom h.
Proof.
  unfold fit.
  destruct (np.squeeze X) as [|m [|n [|? ?]]]; try reflexivity.
  destruct (self !! "architecture"%string) as [[| | | | |la]|];
    try reflexivity.
  destruct (h !! la) as [o|] eqn:Hla; [|reflexivity].
  assert (Hin : forall o', dom (<[la := o']> h) = dom h).
  { intros o'. apply dom_insert_lookup_L. rewrite Hla. eauto. }
  destruct (setitem0 o n) as [o1|]; [|reflexivity].
  destruct (set_output o1 y) as [o2|]; cbn [fst].
  - destruct (select_neuron _ _ _); cbn [fst];
      now rewrite dom_insert_L, Hin, subseteq_union_1_L
        by (rewrite <- (Hin o1); set_solver).
  - apply Hin.
Qed.

(** What [fit] leaves in the dictionary of the architecture. *)
Lemma fit_architecture h self (architecture : dict.t nat) (m n : nat)
    (y : list Z) :
  architecture_of h self = Some architecture ->
  m <> 1 -> n <> 1 ->
  architecture_of (fst (fit array_equals h self [m; n] y)) self
  = Some (resolve_output (dict.set architecture 0 n) y).
Proof.
  intros Ha Hm Hn.
  destruct (architecture_of_Some _ _ _ Ha) as (l & Hl & Hd).
  unfold fit. rewrite (squeeze_pair m n Hm Hn), Hl, Hd.
  cbn [setitem0 set_output]. unfold architecture_of. rewrite Hl.
  destruct (select_neuron _ _ _); cbn [fst]; now rewrite lookup_insert_eq.
Qed.

End Instance.

Section Resolve.

Lemma keys_set_0 (architecture : dict.t nat) (Hn n : nat) :
  Permutation (dict.keys architecture) (zrange 1 Hn) \/
  Permutation (dict.keys architecture) (zrange 0 (S Hn)) ->
  Permutation (dict.keys (dict.set architecture 0 n)) (zrange 0 (S Hn)).
Proof.
  intros [Hp|Hp].
  - rewrite set_notin.
    + rewrite keys_app. simpl. rewrite zrange_cons.
      rewrite <- Permutation_cons_append. now constructor.
    + intros Hin. apply (Permutation_in _ Hp) in Hin.
      apply zrange_in in Hin. lia.
  - rewrite keys_set_in; [exact Hp|].
    apply (Permutation_in _ (Permutation_sym Hp)). apply zrange_in. lia.
Qed.

Lemma resolve_output_value (architecture : dict.t nat) (y : list Z) :
  2 <= length (np.unique y) ->
  resolve_output architecture y
  = dict.set architecture (Z.of_nat (length (dict.keys architecture)))
      (if length (np.unique y) =? 2 then 1 else length (np.unique y)).
Proof.
  intros Hk. unfold resolve_output.
  destruct (Nat.ltb_spec 2 (length (np.unique y))).
  - destruct (Nat.eqb_spec (length (np.unique y)) 2); [lia|reflexivity].
  - destruct (Nat.eqb_spec (length (np.unique y)) 2); [reflexivity|lia].
Qed.

Lemma resolve_output_few (architecture : dict.t nat) (y : list Z) :
  length (np.unique y) < 2 -> resolve_output architecture y = architecture.
Proof.
  intros Hk. unfold resolve_output.
  destruct (Nat.ltb_spec 2 (length (np.unique y))); [lia|].
  destruct (Nat.eqb_spec (length (np.unique y)) 2); [lia|reflexivity].
Qed.

Lemma keys_length {V} (d : dict.t V) : length (dict.keys d) = length d.
Proof. apply length_map. Qed.

Lemma resolve_contiguous (architecture : dict.t nat) (Hn n : nat) (y : list Z) :
  Permutation (dict.keys architecture) (zrange 1 Hn) \/
  Permutation (dict.keys architecture) (zrange 0 (S Hn)) ->
  2 <= length (np.unique y) ->
  let resolved := resolve_output (dict.set architecture 0 n) y in
  contiguous_keys resolved (S Hn) /\
  dict.get resolved 0 = Ok n /\
  dict.get resolved (Z.of_nat (S Hn))
  = Ok (if length (np.unique y) =? 2 then 1 else length (np.unique y)) /\
  length resolved = S (length (dict.set architecture 0 n)) /\
  (forall l, (1 <= l <= Z.of_nat Hn)%Z ->
     dict.get resolved l = dict.get architecture l).
Proof.
  intros Hp Hk resolved. subst resolved.
  pose proof (keys_set_0 architecture Hn n Hp) as Hp0.
  assert (Hlen : length (dict.keys (dict.set architecture 0 n)) = S Hn).
  { rewrite (Permutation_length Hp0). unfold zrange.
    now rewrite length_map, length_seq. }
  rewrite (resolve_output_value _ y Hk), Hlen.
  assert (Hfresh : ~ In (Z.of_nat (S Hn)) (dict.keys (dict.set architecture 0 n))).
  { intros Hin. apply (Permutation_in _ Hp0) in Hin.
    apply zrange_in in Hin. lia. }
  split; [|split; [|split; [|split]]].
  - unfold contiguous_keys. rewrite set_notin by exact Hfresh.
    rewrite keys_app. simpl. rewrite (zrange_snoc 0 (S Hn)).
    now apply Permutation_app_tail.
  - rewrite get_set_other by lia. apply get_set_same.
  - apply get_set_same.
  - rewrite set_notin by exact Hfresh. rewrite length_app. simpl. lia.
  - intros l Hl. rewrite !get_set_other by lia. reflexivity.
Qed.

End Resolve.

(** * The statements of the specification *)

Import Examples.

(** ** Parameter codec *)

(** C1 (as amended).  For every architecture whose keys, in the order
    of the mapping, are 0, 1, 2, ..., N or 1, 0, 2, ..., N with N >= 1,
    and every parameter vector whose length is the architecture-derived
    total, flattening what [reshapeParams] returns (each layer's matrix
    column by column, layers ascending) gives the vector back. *)
Theorem flatten_reshapeParams `{Scalar} (architecture : dict.t nat)
    (N : nat) (params : list F) :
  layer_order architecture N ->
  length params = param_count architecture N ->
  (let* thetas := reshapeParams architecture params in flatten thetas)
  = Ok params.
Proof.
  intros Hord Hlen.
  destruct (reshapeParams_flatten architecture N params Hord)
    as (thetas & -> & Hflat); [lia|].
  cbn [bind]. rewrite Hflat, <- Hlen. now rewrite firstn_all.
Qed.

Lemma flatten_reshapeParams_witness :
  layer_order arch_1_2_1 2 /\
  length params7 = param_count arch_1_2_1 2 /\
  (let* thetas := @reshapeParams binary64 arch_1_2_1 params7 in
   flatten thetas) = Ok params7.
Proof.
  assert (Hord : layer_order arch_1_2_1 2).
  { split; [lia|right; reflexivity]. }
  assert (Hlen : length params7 = param_count arch_1_2_1 2).
  { reflexivity. }
  split; [exact Hord|]. split; [exact Hlen|].
  exact (@flatten_reshapeParams binary64 arch_1_2_1 2 params7 Hord Hlen).
Defined.

(** C1 as stated fails: an architecture with the input layer alone has
    the keys 0..0 and the empty vector has the right length, and an
    architecture with two hidden layers as [fit] leaves it has the keys
    0..3; [reshapeParams] raises [KeyError] on both. *)
Lemma flatten_reshapeParams_counterexample :
  (contiguous_keys arch_input_only 0 /\
   length (@nil spec_float) = param_count arch_input_only 0 /\
   (let* thetas := @reshapeParams binary64 arch_input_only [] in
    flatten thetas) = Raise KeyError) /\
  (contiguous_keys arch_two_hidden 3 /\
   length (repeat b1 20) = param_count arch_two_hidden 3 /\
   (let* thetas := @reshapeParams binary64 arch_two_hidden (repeat b1 20) in
    flatten thetas) = Raise KeyError).
Proof.
  split; (split; [|split; reflexivity]).
  - apply Permutation_refl.
  - unfold contiguous_keys. cbn.
    apply perm_trans with (l' := [1; 0; 2; 3]%Z).
    + apply perm_skip. apply perm_swap.
    + apply perm_swap.
Qed.

(** C2 (as amended).  For an architecture as in C1 and a vector whose
    length is not the architecture-derived total: a shorter vector is
    refused with [ValueError]; a longer one is accepted, and what
    [reshapeParams] returns holds the leading elements up to the total
    and nothing of the rest. *)
Theorem reshapeParams_wrong_length `{Scalar} (architecture : dict.t nat)
    (N : nat) (params : list F) :
  layer_order architecture N ->
  length params <> param_count architecture N ->
  (length params < param_count architecture N /\
   reshapeParams architecture params = Raise ValueError) \/
  (param_count architecture N < length params /\
   exists thetas,
     reshapeParams architecture params = Ok thetas /\
     flatten thetas = Ok (firstn (param_count architecture N) params)).
Proof.
  intros Hord Hne.
  destruct (Nat.lt_ge_cases (length params) (param_count architecture N))
    as [Hshort|Hlong].
  - left. split; [exact Hshort|]. now apply reshapeParams_short with N.
  - right. split; [lia|]. apply reshapeParams_flatten; [exact Hord|lia].
Qed.

Lemma reshapeParams_wrong_length_witness :
  layer_order arch_1_2_1 2 /\
  length [b1; b2] <> param_count arch_1_2_1 2 /\
  ((length [b1; b2] < param_count arch_1_2_1 2 /\
    @reshapeParams binary64 arch_1_2_1 [b1; b2] = Raise ValueError) \/
   (param_count arch_1_2_1 2 < length [b1; b2] /\
    exists thetas,
      @reshapeParams binary64 arch_1_2_1 [b1; b2] = Ok thetas /\
      flatten thetas = Ok (firstn (param_count arch_1_2_1 2) [b1; b2]))).
Proof.
  assert (Hord : layer_order arch_1_2_1 2).
  { split; [lia|right; reflexivity]. }
  assert (Hne : length [b1; b2] <> param_count arch_1_2_1 2).
  { vm_compute. lia. }
  split; [exact Hord|]. split; [exact Hne|].
  exact (@reshapeParams_wrong_length binary64 arch_1_2_1 2 [b1; b2] Hord Hne).
Defined.

(** C2 as stated fails: a vector one element too long is not refused. *)
Lemma reshapeParams_wrong_length_counterexample :
  layer_order arch_1_1 1 /\
  length [b1; b2; b5] <> param_count arch_1_1 1 /\
  exists thetas,
    @reshapeParams binary64 arch_1_1 [b1; b2; b5] = Ok thetas /\
    flatten thetas = Ok [b1; b2].
Proof.
  split; [split; [lia|left; reflexivity]|].
  split; [vm_compute; lia|].
  eexists. split; reflexivity.
Qed.

(** ** Forward propagation *)

(** C3.  The regularisation term [feedForward] returns is the term it
    was given (0 in [costFunction]) to which, for every weight matrix,
    the sum of the squares of its entries outside column 0 has been
    added: once for every layer, in the order of the layers.  The sum
    within a matrix is the reduction [np_sum] of [np.sum], whatever
    the order in which it adds the entries; the sums of the layers are
    added to the term one after the other. *)
Theorem feedForward_regularisation `{Scalar} (np_sum : list (list F) -> F)
    (thetas : dict.t ndarray)
    (input : ndarray) (regTerm : F) (m : nat) (neuron : F -> F)
    (hypothesis : ndarray) (activs : dict.t ndarray) (regTerm' : F) :
  dict.wf thetas ->
  feedForward np_sum thetas input regTerm m neuron
  = Ok (hypothesis, activs, regTerm') ->
  regTerm' = fold_left (fun acc theta => Fadd acc (np_sum (nonbias_squares theta)))
                       (dict.values thetas) regTerm.
Proof.
  intros Hwf Hrun. unfold feedForward in Hrun.
  destruct (feedForward_raw np_sum thetas input regTerm m neuron)
    as [[[h a] r]|] eqn:Hraw; [|discriminate].
  cbn [bind] in Hrun. injection Hrun as _ _ <-.
  now apply (feedForward_raw_reg np_sum thetas input regTerm m neuron h a r).
Qed.

Lemma feedForward_regularisation_witness :
  dict.wf thetas_1_2_1 /\
  match @feedForward binary64 sum_in_order thetas_1_2_1 input_1x2 b0 2
          identity with
  | Ok (_, _, regTerm') =>
      regTerm' = fold_left
                   (fun acc theta =>
                      @Fadd binary64 acc
                        (sum_in_order (@nonbias_squares binary64 theta)))
                   (dict.values thetas_1_2_1) b0
  | Raise _ => False
  end.
Proof.
  assert (Hwf : dict.wf thetas_1_2_1).
  { repeat constructor; cbn; intuition discriminate. }
  split; [exact Hwf|].
  destruct (@feedForward binary64 sum_in_order thetas_1_2_1 input_1x2 b0 2
              identity) as [[[h a] r]|e] eqn:Hrun.
  - exact (@feedForward_regularisation binary64 sum_in_order thetas_1_2_1
             input_1x2 b0 2 identity h a r Hwf Hrun).
  - assert (Hok : is_ok (@feedForward binary64 sum_in_order thetas_1_2_1
                           input_1x2 b0 2 identity) = true)
      by (vm_compute; reflexivity).
    rewrite Hrun in Hok. discriminate Hok.
Defined.

(** C4.  In binary64, an entry of the hypothesis that is exactly 1.0
    comes back as 1 - 1e-9, an entry that is exactly 0.0 (of either
    sign) as 1e-9, and every other entry, 1 - 1e-12 among them, as it
    is. *)
Theorem feedForward_stabilisation
    (np_sum : list (list spec_float) -> spec_float)
    (thetas : dict.t (@ndarray binary64))
    (input : @ndarray binary64) (regTerm : spec_float) (m : nat)
    (neuron : spec_float -> spec_float)
    (hypothesis : @ndarray binary64) (activs : dict.t (@ndarray binary64))
    (regTerm' : spec_float) :
  @feedForward binary64 np_sum thetas input regTerm m neuron
  = Ok (hypothesis, activs, regTerm') ->
  Binary64.sub Binary64.one Binary64.lit_1e_9 = one_minus_1e_9 /\
  Binary64.sub Binary64.one Binary64.lit_1e_12 = one_minus_1e_12 /\
  exists raw,
    @feedForward_raw binary64 np_sum thetas input regTerm m neuron
    = Ok (raw, activs, regTerm') /\
    shape hypothesis = shape raw /\
    forall i j, i < nrows raw -> j < ncols raw ->
      (entry raw i j = Binary64.one ->
       entry hypothesis i j = one_minus_1e_9) /\
      ((exists s, entry raw i j = S754_zero s) ->
       entry hypothesis i j = Binary64.lit_1e_9) /\
      (entry raw i j <> Binary64.one ->
       (forall s, entry raw i j <> S754_zero s) ->
       entry hypothesis i j = entry raw i j) /\
      (entry raw i j = one_minus_1e_12 ->
       entry hypothesis i j = one_minus_1e_12).
Proof.
  intros Hrun. split; [reflexivity|]. split; [reflexivity|].
  unfold feedForward in Hrun.
  destruct (@feedForward_raw binary64 np_sum thetas input regTerm m neuron)
    as [[[raw a] r]|] eqn:Hraw; [|discriminate].
  cbn [bind] in Hrun. injection Hrun as <- <- <-.
  exists raw. split; [reflexivity|]. split; [apply stabilise_shape|].
  intros i j Hi Hj. rewrite (@stabilise_entry binary64 raw i j Hi Hj).
  destruct (binary64_nudge (entry raw i j)) as (H1 & H0 & Hother).
  repeat split; try assumption.
  intros E. rewrite E. reflexivity.
Qed.

Lemma feedForward_stabilisation_witness :
  match @feedForward binary64 sum_in_order thetas_boundary input_1x1 b0 1 identity with
  | Ok (hypothesis, activs, regTerm') =>
      exists raw,
        @feedForward_raw binary64 sum_in_order thetas_boundary input_1x1 b0 1 identity
        = Ok (raw, activs, regTerm') /\
        shape hypothesis = shape raw /\
        forall i j, i < nrows raw -> j < ncols raw ->
          (entry raw i j = Binary64.one ->
           entry hypothesis i j = one_minus_1e_9) /\
          ((exists s, entry raw i j = S754_zero s) ->
           entry hypothesis i j = Binary64.lit_1e_9) /\
          (entry raw i j <> Binary64.one ->
           (forall s, entry raw i j <> S754_zero s) ->
           entry hypothesis i j = entry raw i j) /\
          (entry raw i j = one_minus_1e_12 ->
           entry hypothesis i j = one_minus_1e_12)
  | Raise _ => False
  end.
Proof.
  destruct (@feedForward binary64 sum_in_order thetas_boundary input_1x1 b0 1 identity)
    as [[[h a] r]|e] eqn:Hrun.
  - exact (proj2 (proj2 (feedForward_stabilisation sum_in_order thetas_boundary input_1x1
                           b0 1 identity h a r Hrun))).
  - assert (Hok : is_ok (@feedForward binary64 sum_in_order thetas_boundary input_1x1 b0 1
                           identity) = true) by (vm_compute; reflexivity).
    rewrite Hrun in Hok. discriminate Hok.
Defined.

(** The run of the witness: the hypothesis [[1.0]; [0.0]] comes back as
    [[1 - 1e-9]; [1e-9]]. *)
Example feedForward_boundary_run :
  match @feedForward_raw binary64 sum_in_order thetas_boundary input_1x1 b0 1 identity,
        @feedForward binary64 sum_in_order thetas_boundary input_1x1 b0 1 identity with
  | Ok (raw, _, _), Ok (hypothesis, _, _) =>
      to_rows raw = [[Binary64.one]; [Binary64.zero]] /\
      to_rows hypothesis = [[one_minus_1e_9]; [Binary64.lit_1e_9]]
  | _, _ => False
  end.
Proof. vm_compute. split; reflexivity. Qed.

(** ** Back propagation *)

Lemma same_bias_lengths `{Scalar} (Ms1 Ms2 : list ndarray) :
  Forall2 same_bias_column Ms1 Ms2 ->
  length (concat (map np.ravel_F Ms1)) = length (concat (map np.ravel_F Ms2)).
Proof.
  induction 1 as [|A B Ms1 Ms2 [[= Hr Hc] _] _ IH]; [reflexivity|].
  cbn [map concat]. rewrite !length_app, !ravel_length, IH, Hr, Hc.
  reflexivity.
Qed.

(** C5.  Two runs of [backProp] that differ in the regularisation
    strength only both return or both raise; when they return, the
    gradients of every layer have the same shape and the same column 0
    in both runs, and the two gradient vectors agree at every position
    that holds an entry of a column 0. *)
Theorem backProp_bias_columns `{Scalar} (architecture : dict.t nat)
    (LAMBDA1 LAMBDA2 : F) (thetas : dict.t ndarray) (hypothesis : ndarray)
    (activs : dict.t ndarray) (targets : ndarray) (m : F)
    (dneuron : F -> F) (gradients1 : list F) :
  backProp architecture LAMBDA1 thetas hypothesis activs targets m dneuron
  = Ok gradients1 ->
  exists grads1 grads2 gradients2,
    backProp_grads architecture LAMBDA1 thetas hypothesis activs targets m
                   dneuron = Ok grads1 /\
    backProp_grads architecture LAMBDA2 thetas hypothesis activs targets m
                   dneuron = Ok grads2 /\
    backProp architecture LAMBDA2 thetas hypothesis activs targets m dneuron
    = Ok gradients2 /\
    same_bias grads1 grads2 /\
    length gradients2 = length gradients1 /\
    forall k,
      In k (bias_positions (map shape (flatten_order grads1)) 0) ->
      nth_error gradients2 k = nth_error gradients1 k.
Proof.
  intros Hrun. unfold backProp in Hrun.
  destruct (backProp_grads architecture LAMBDA1 thetas hypothesis activs
              targets m dneuron) as [grads1|] eqn:HG1; [|discriminate].
  cbn [bind] in Hrun.
  destruct (backProp_grads_same_bias architecture LAMBDA1 LAMBDA2 thetas
              hypothesis activs targets m dneuron grads1 HG1)
    as (grads2 & HG2 & Hsame).
  destruct (flatten_same_bias grads1 grads2 gradients1 Hsame Hrun)
    as (gradients2 & Hflat2).
  exists grads1, grads2, gradients2.
  split; [reflexivity|]. split; [exact HG2|].
  split; [unfold backProp; rewrite HG2; exact Hflat2|].
  split; [exact Hsame|].
  pose proof (flatten_order_same_bias grads1 grads2 Hsame) as Hord.
  rewrite (flatten_value _ _ Hrun), (flatten_value _ _ Hflat2).
  split.
  - symmetry. now apply same_bias_lengths.
  - intros k Hk. symmetry.
    apply (bias_positions_agree _ _ Hord [] [] k eq_refl Hk).
Qed.

Lemma backProp_bias_columns_witness :
  match @backProp binary64 arch_1_2_1 b0 thetas_1_2_1 hypothesis_1x2
          activs_1_2_1 targets_1x2 b2 identity with
  | Ok gradients1 =>
      exists grads1 grads2 gradients2,
        @backProp_grads binary64 arch_1_2_1 b0 thetas_1_2_1 hypothesis_1x2
          activs_1_2_1 targets_1x2 b2 identity = Ok grads1 /\
        @backProp_grads binary64 arch_1_2_1 b5 thetas_1_2_1 hypothesis_1x2
          activs_1_2_1 targets_1x2 b2 identity = Ok grads2 /\
        @backProp binary64 arch_1_2_1 b5 thetas_1_2_1 hypothesis_1x2
          activs_1_2_1 targets_1x2 b2 identity = Ok gradients2 /\
        same_bias grads1 grads2 /\
        length gradients2 = length gradients1 /\
        forall k,
          In k (bias_positions (map shape (flatten_order grads1)) 0) ->
          nth_error gradients2 k = nth_error gradients1 k
  | Raise _ => False
  end.
Proof.
  destruct (@backProp binary64 arch_1_2_1 b0 thetas_1_2_1 hypothesis_1x2
              activs_1_2_1 targets_1x2 b2 identity) as [g1|e] eqn:Hrun.
  - exact (@backProp_bias_columns binary64 arch_1_2_1 b0 b5 thetas_1_2_1
             hypothesis_1x2 activs_1_2_1 targets_1x2 b2 identity g1 Hrun).
  - assert (Hok : is_ok (@backProp binary64 arch_1_2_1 b0 thetas_1_2_1
                           hypothesis_1x2 activs_1_2_1 targets_1x2 b2
                           identity) = true) by (vm_compute; reflexivity).
    rewrite Hrun in Hok. discriminate Hok.
Defined.

(** C7 (as amended).  On an architecture as in C1, weight matrices
    that [reshapeParams] made of a vector of the right length,
    activations, hypothesis and targets of the shapes the architecture
    asks for, and [m] other than zero, [backProp] returns; the
    gradients have the keys 1..N in this order and the shapes of the
    weight matrices, the vector returned is these gradients read
    column by column one after the other, it is as long as the
    parameter vector, and [reshapeParams] takes it apart as it does a
    parameter vector.  With [m] equal to zero the quotient [1/m]
    raises [ZeroDivisionError] and no vector is returned. *)
Theorem backProp_layout `{Scalar} (architecture : dict.t nat) (N m : nat)
    (LAMBDA : F) (params : list F) (thetas : dict.t ndarray)
    (hypothesis : ndarray) (activs : dict.t ndarray) (targets : ndarray)
    (mF : F) (dneuron : F -> F) :
  layer_order architecture N ->
  length params = param_count architecture N ->
  reshapeParams architecture params = Ok thetas ->
  backprop_shapes architecture N m hypothesis activs targets ->
  (Feqb mF F0 = false ->
   exists grads gradients,
     backProp_grads architecture LAMBDA thetas hypothesis activs targets mF
                    dneuron = Ok grads /\
     backProp architecture LAMBDA thetas hypothesis activs targets mF dneuron
     = Ok gradients /\
     unpacked architecture (zrange 1 N) gradients grads /\
     unpacked architecture (zrange 1 N) params thetas /\
     length gradients = length params /\
     (let* again := reshapeParams architecture gradients in flatten again)
     = Ok gradients) /\
  (Feqb mF F0 = true ->
   backProp architecture LAMBDA thetas hypothesis activs targets mF dneuron
   = Raise ZeroDivisionError).
Proof.
  intros Hord Hlen Hre Hshapes.
  destruct (reshapeParams_ok architecture N params Hord)
    as (thetas' & Hre' & Hun); [lia|].
  rewrite Hre in Hre'. injection Hre' as <-.
  rewrite <- Hlen, firstn_all in Hun.
  split.
  - intros Hm.
    destruct (backProp_unpacked architecture N m LAMBDA thetas params
                hypothesis activs targets mF dneuron Hord Hun Hshapes Hm)
      as (G & g & HG & Hg & HunG & Hglen).
    exists G, g. repeat (split; [assumption|]).
    destruct (reshapeParams_flatten architecture N g Hord)
      as (again & -> & Hflat); [lia|].
    cbn [bind]. rewrite Hflat.
    replace (param_count architecture N) with (length g) by lia.
    now rewrite firstn_all.
  - intros Hm. destruct Hshapes as (Hactivs & Hhyp & Htar).
    destruct (elementwise_same_shape Fsub hypothesis targets)
      as (top & Htop & Hts); [congruence|].
    exact (proj2 (backProp_grads_zero_division architecture N m LAMBDA
                    thetas params hypothesis activs targets top mF dneuron
                    Hord Hun Hactivs Hhyp Htop Hts Hm)).
Qed.

Lemma backProp_layout_witness :
  match @reshapeParams binary64 arch_1_2_1 params7 with
  | Ok thetas =>
      exists grads gradients,
        @backProp_grads binary64 arch_1_2_1 b5 thetas hypothesis_1x2
          activs_1_2_1 targets_1x2 b2 identity = Ok grads /\
        @backProp binary64 arch_1_2_1 b5 thetas hypothesis_1x2
          activs_1_2_1 targets_1x2 b2 identity = Ok gradients /\
        @unpacked binary64 arch_1_2_1 (zrange 1 2) gradients grads /\
        @unpacked binary64 arch_1_2_1 (zrange 1 2) params7 thetas /\
        length gradients = length params7 /\
        (let* again := @reshapeParams binary64 arch_1_2_1 gradients in
         flatten again) = Ok gradients
  | Raise _ => False
  end.
Proof.
  assert (Hord : layer_order arch_1_2_1 2).
  { split; [lia|right; reflexivity]. }
  assert (Hlen : length params7 = param_count arch_1_2_1 2) by reflexivity.
  assert (Hshapes : @backprop_shapes binary64 arch_1_2_1 2 2 hypothesis_1x2
                      activs_1_2_1 targets_1x2).
  { split; [|split; reflexivity].
    intros l Hl. assert (Hcases : l = 1%Z \/ l = 2%Z) by lia.
    destruct Hcases as [-> | ->]; eexists; split; reflexivity. }
  assert (Hm : @Feqb binary64 b2 F0 = false) by reflexivity.
  destruct (@reshapeParams binary64 arch_1_2_1 params7) as [thetas|e] eqn:Hre.
  - exact (proj1 (@backProp_layout binary64 arch_1_2_1 2 2 b5 params7 thetas
                    hypothesis_1x2 activs_1_2_1 targets_1x2 b2 identity
                    Hord Hlen Hre Hshapes) Hm).
  - assert (Hok : is_ok (@reshapeParams binary64 arch_1_2_1 params7) = true)
      by (vm_compute; reflexivity).
    rewrite Hre in Hok. discriminate Hok.
Defined.

(** C7 as stated fails where the keys 0..N were not inserted in
    ascending order.  With the keys in the order 0, 1, 3, 2 the weight
    matrices have the keys 1, 3, 2, so have the gradients, and the
    vector returned is the gradient of layer 1, then that of layer 3,
    then that of layer 2: it is not the gradients in ascending layer
    index. *)
Lemma backProp_layout_counterexample :
  contiguous_keys arch_shuffled 3 /\
  length params9 = param_count arch_shuffled 3 /\
  @backprop_shapes binary64 arch_shuffled 3 1 hypothesis_1x1
    activs_shuffled targets_1x1 /\
  match @reshapeParams binary64 arch_shuffled params9 with
  | Ok thetas =>
      dict.keys thetas = [1; 3; 2]%Z /\
      match @backProp_grads binary64 arch_shuffled b0 thetas hypothesis_1x1
              activs_shuffled targets_1x1 b1 identity,
            @backProp binary64 arch_shuffled b0 thetas hypothesis_1x1
              activs_shuffled targets_1x1 b1 identity with
      | Ok grads, Ok gradients =>
          dict.keys grads = [1; 3; 2]%Z /\
          match dict.get grads 1, dict.get grads 2, dict.get grads 3 with
          | Ok g1, Ok g2, Ok g3 =>
              gradients = np.ravel_F g1 ++ np.ravel_F g3 ++ np.ravel_F g2 /\
              gradients <> np.ravel_F g1 ++ np.ravel_F g2 ++ np.ravel_F g3
          | _, _, _ => False
          end
      | _, _ => False
      end
  | Raise _ => False
  end.
Proof.
  split; [unfold contiguous_keys; cbn; do 2 apply perm_skip; apply perm_swap|].
  split; [reflexivity|].
  split.
  { split; [|split; reflexivity].
    intros l Hl. assert (Hcases : l = 1%Z \/ l = 2%Z \/ l = 3%Z) by lia.
    destruct Hcases as [-> | [-> | ->]]; eexists; split; reflexivity. }
  vm_compute.
  split; [reflexivity|]. split; [reflexivity|]. split; [reflexivity|].
  intros E. discriminate E.
Qed.

(** ** Label encoding *)

(** C6.  [oneHotEncoding] never returns a matrix: its parameter is
    named [y], its body reads the name [targets], which is bound
    nowhere, and every call raises [NameError]. *)
Theorem oneHotEncoding_raises `{Scalar} (y : list Z) :
  oneHotEncoding y = Raise (NameError "targets").
Proof. reflexivity. Qed.
(** ** Training set-up and configuration *)

(** C8.  [fit] does not overwrite what an earlier call resolved; it
    adds to it.  On an instance whose architecture has the keys 0..N,
    as a call to [fit] leaves them, a further call with [X] of the
    shape (m, n), neither extent 1, and at least two distinct labels
    sets layer 0 again and writes the output layer at the new key N+1:
    the keys are then 0..N+1, the mapping has one key more than it
    had, and the layers 1..N are as they were, the output layer of the
    earlier call among them. *)
Theorem fit_again_grows `{Scalar}
    (array_equals : list F -> string -> result bool)
    (h : gmap loc pyobj) (self : gmap string pyval)
    (architecture : dict.t nat) (N m n : nat) (y : list Z) :
  architecture_of h self = Some architecture ->
  contiguous_keys architecture N ->
  m <> 1 -> n <> 1 ->
  2 <= length (np.unique y) ->
  exists resolved,
    architecture_of (fst (fit array_equals h self [m; n] y)) self
    = Some resolved /\
    contiguous_keys resolved (S N) /\
    length resolved = S (length architecture) /\
    dict.get resolved 0 = Ok n /\
    dict.get resolved (Z.of_nat (S N))
    = Ok (if length (np.unique y) =? 2 then 1 else length (np.unique y)) /\
    (forall l, (1 <= l <= Z.of_nat N)%Z ->
       dict.get resolved l = dict.get architecture l).
Proof.
  intros Ha Hkeys Hm Hn Hlabels.
  exists (resolve_output (dict.set architecture 0 n) y).
  split; [now apply fit_architecture|].
  destruct (resolve_contiguous architecture N n y (or_intror Hkeys) Hlabels)
    as (Hc & H0 & Hout & Hlen & Hrest).
  split; [exact Hc|]. split; [|split; [exact H0|split; [exact Hout|exact Hrest]]].
  rewrite Hlen, <- !keys_length. f_equal. f_equal.
  apply keys_set_in.
  apply (Permutation_in _ (Permutation_sym Hkeys)). apply zrange_in. lia.
Qed.

Lemma fit_again_grows_witness :
  let once :=
    fst (@fit binary64 never_equal class_store fresh_instance [4; 2] [0; 1; 2; 1]%Z) in
  exists resolved,
    architecture_of (fst (@fit binary64 never_equal once fresh_instance [4; 2]
                            [0; 1; 2; 1]%Z)) fresh_instance
    = Some resolved /\
    contiguous_keys resolved 3 /\
    length resolved = 4 /\
    dict.get resolved 0 = Ok 2 /\
    dict.get resolved 3 = Ok 3 /\
    (forall l, (1 <= l <= 2)%Z ->
       dict.get resolved l = dict.get [(1%Z, 25); (0%Z, 2); (2%Z, 3)] l).
Proof.
  intros once.
  assert (Ha : architecture_of once fresh_instance
               = Some [(1%Z, 25); (0%Z, 2); (2%Z, 3)]) by reflexivity.
  assert (Hkeys : contiguous_keys [(1%Z, 25); (0%Z, 2); (2%Z, 3)] 2).
  { unfold contiguous_keys. cbn. apply perm_swap. }
  assert (Hm : 4 <> 1) by lia.
  assert (Hn : 2 <> 1) by lia.
  assert (Hlabels : 2 <= length (np.unique [0; 1; 2; 1]%Z)).
  { vm_compute. lia. }
  exact (@fit_again_grows binary64 never_equal once fresh_instance
           [(1%Z, 25); (0%Z, 2); (2%Z, 3)] 2 4 2 [0; 1; 2; 1]%Z
           Ha Hkeys Hm Hn Hlabels).
Defined.

(** The run of the witness: [NeuralNetwork()] fitted twice on the same
    data.  The first call leaves [{1: 25, 0: 2, 2: 3}]; the second
    leaves [{1: 25, 0: 2, 2: 3, 3: 3}]. *)
Example fit_twice_run :
  let once :=
    fst (@fit binary64 never_equal class_store fresh_instance [4; 2] [0; 1; 2; 1]%Z) in
  let twice :=
    fst (@fit binary64 never_equal once fresh_instance [4; 2] [0; 1; 2; 1]%Z) in
  architecture_of once fresh_instance
  = Some [(1%Z, 25); (0%Z, 2); (2%Z, 3)] /\
  architecture_of twice fresh_instance
  = Some [(1%Z, 25); (0%Z, 2); (2%Z, 3); (3%Z, 3)].
Proof. split; reflexivity. Qed.

(** C9 (as amended).  When one of the keys given to [set_params] is not
    an attribute of the instance, the call fails and creates no
    attribute.  With no key named [self] it raises [AttributeError]
    for a key given that is not an attribute, and the instance has the
    same attribute names after the call as before.  With a key named
    [self] the call raises [TypeError] while the arguments are bound,
    and the instance is as it was. *)
Theorem set_params_unknown_key `{Scalar} (self : gmap string pyval)
    (parameters : list (string * pyval)) (key : string) :
  In key (map fst parameters) ->
  self !! key = None ->
  (~ In "self"%string (map fst parameters) ->
   exists unknown,
     snd (set_params self parameters) = Raise (AttributeError unknown) /\
     In unknown (map fst parameters) /\
     self !! unknown = None /\
     dom (fst (set_params self parameters)) = dom self) /\
  (In "self"%string (map fst parameters) ->
   set_params self parameters = (self, Raise TypeError)).
Proof.
  intros Hin Hkey. split.
  - intros Hself. rewrite (set_params_bound self parameters Hself).
    now apply (set_params_body_unknown parameters self key).
  - apply set_params_self.
Qed.

Lemma set_params_unknown_key_witness :
  exists unknown,
    snd (set_params fresh_instance
           [("maxiter"%string, @VInt binary64 5);
            ("momentum"%string, @VInt binary64 1)])
    = Raise (AttributeError unknown) /\
    In unknown ["maxiter"; "momentum"]%string /\
    fresh_instance !! unknown = None /\
    dom (fst (set_params fresh_instance
                [("maxiter"%string, @VInt binary64 5);
                 ("momentum"%string, @VInt binary64 1)]))
    = dom fresh_instance.
Proof.
  assert (Hin : In "momentum"%string
                   (map fst [("maxiter"%string, @VInt binary64 5);
                             ("momentum"%string, @VInt binary64 1)])).
  { right. left. reflexivity. }
  assert (Hnone : fresh_instance !! "momentum"%string = None).
  { reflexivity. }
  assert (Hself : ~ In "self"%string
                      (map fst [("maxiter"%string, @VInt binary64 5);
                                ("momentum"%string, @VInt binary64 1)])).
  { cbn. intuition discriminate. }
  exact (proj1 (@set_params_unknown_key binary64 fresh_instance _ _ Hin Hnone)
               Hself).
Defined.

(** C9 as stated fails: [_trainedParams] is not one of the
    configuration options, and [set_params] accepts it. *)
Lemma set_params_unknown_key_counterexample :
  ~ In "_trainedParams"%string configuration_options /\
  @init binary64 default_architecture_ref b0 "sigmoid" "fmin_cg" 1000
  = Ok fresh_instance /\
  snd (set_params fresh_instance
         [("_trainedParams"%string, @VRef binary64 vector_ref)])
  = Ok tt.
Proof.
  split; [|split].
  - cbn. intuition discriminate.
  - reflexivity.
  - reflexivity.
Qed.

(** C10.  [set_params] applies any key that is an attribute of the
    instance.  [_trainedParams] is one from [__init__] on and stays
    one through every call to [fit] and to [set_params], so a call
    with that key returns and the attribute then holds the value
    given. *)
Theorem set_params_trained_params `{Scalar}
    (array_equals : list F -> string -> result bool)
    (architecture : loc)
    (LAMBDA : F) (neuron optimiser : string) (maxiter : Z)
    (self : gmap string pyval) (value : pyval) :
  init architecture LAMBDA neuron optimiser maxiter = Ok self ->
  (forall key, is_Some (self !! key) ->
     set_params self [(key, value)] = (<[key := value]> self, Ok tt)) /\
  set_params self [("_trainedParams"%string, value)]
  = (<["_trainedParams"%string := value]> self, Ok tt) /\
  (forall h X y,
     reachable array_equals (fst (fit array_equals h self X y)) self) /\
  (forall h later,
     reachable array_equals h later ->
     set_params later [("_trainedParams"%string, value)]
     = (<["_trainedParams"%string := value]> later, Ok tt) /\
     <["_trainedParams"%string := value]> later !! "_trainedParams"%string
     = Some value).
Proof.
  intros Hinit.
  pose proof (init_dom _ _ _ _ _ _ Hinit) as Hdom.
  assert (Hknown : forall later : gmap string pyval,
             dom later = attribute_names ->
             is_Some (later !! "_trainedParams"%string)).
  { intros later Hd. apply elem_of_dom. rewrite Hd.
    unfold attribute_names. set_solver. }
  split.
  { intros key Hkey. apply set_params_known; [exact Hkey|].
    exact (attribute_names_known key self Hdom Hkey). }
  split.
  { apply set_params_known; [now apply Hknown|discriminate]. }
  split.
  { intros h X y. apply reachable_fit.
    exact (reachable_init array_equals h _ _ _ _ _ _ Hinit). }
  intros h later Hreach. split.
  - apply set_params_known; [|discriminate].
    apply Hknown. exact (reachable_dom array_equals h later Hreach).
  - apply lookup_insert_eq.
Qed.

Lemma set_params_trained_params_witness :
  set_params fresh_instance
    [("_trainedParams"%string, @VRef binary64 vector_ref)]
  = (<["_trainedParams"%string := @VRef binary64 vector_ref]> fresh_instance,
     Ok tt).
Proof.
  assert (Hinit : @init binary64 default_architecture_ref b0 "sigmoid"
                    "fmin_cg" 1000 = Ok fresh_instance) by reflexivity.
  exact (proj1 (proj2 (@set_params_trained_params binary64 never_equal
                         default_architecture_ref b0 "sigmoid" "fmin_cg" 1000
                         fresh_instance (@VRef binary64 vector_ref) Hinit))).
Defined.

(** * Further properties of the code *)

(** ** Forward propagation and the whole evaluation *)

(** X1.  On an architecture with keys in layer order, weight matrices
    made by [reshapeParams] of a vector of the right length and an
    input with one row per input unit plus the bias row and [m]
    columns, [feedForward] returns: the activations have the keys 1..N
    in this order, the activation of layer [l] has one row per unit of
    layer [l-1] and one for the bias, and the hypothesis has one row
    per output unit and [m] columns. *)
Theorem feedForward_returns `{Scalar} (np_sum : list (list F) -> F)
    (architecture : dict.t nat) (N m : nat) (params : list F) (thetas : dict.t ndarray)
    (input : ndarray) (regTerm : F) (neuron : F -> F) :
  layer_order architecture N ->
  length params = param_count architecture N ->
  reshapeParams architecture params = Ok thetas ->
  shape input = (size_at architecture 0 + 1, m) ->
  exists hypothesis activs regTerm',
    feedForward np_sum thetas input regTerm m neuron
    = Ok (hypothesis, activs, regTerm') /\
    activs_shapes architecture m activs N /\
    shape hypothesis = (size_at architecture (Z.of_nat N), m).
Proof.
  intros Hord Hlen Hre Hin.
  destruct (reshapeParams_ok architecture N params Hord)
    as (thetas' & Hre' & Hun); [lia|].
  rewrite Hre in Hre'. injection Hre' as <-.
  apply feedForward_shapes with (params := firstn (param_count architecture N) params);
    [destruct Hord; lia|exact Hun|exact Hin].
Qed.

Lemma feedForward_returns_witness :
  match @reshapeParams binary64 arch_1_2_1 params7 with
  | Ok thetas =>
      exists hypothesis activs regTerm',
        @feedForward binary64 sum_in_order thetas input_1x2 b0 2 identity
        = Ok (hypothesis, activs, regTerm') /\
        activs_shapes arch_1_2_1 2 activs 2 /\
        shape hypothesis = (size_at arch_1_2_1 2, 2)
  | Raise _ => False
  end.
Proof.
  assert (Hord : layer_order arch_1_2_1 2).
  { split; [lia|right; reflexivity]. }
  assert (Hlen : length params7 = param_count arch_1_2_1 2) by reflexivity.
  assert (Hin : shape input_1x2 = (size_at arch_1_2_1 0 + 1, 2))
    by reflexivity.
  destruct (@reshapeParams binary64 arch_1_2_1 params7) as [thetas|e] eqn:Hre.
  - exact (@feedForward_returns binary64 sum_in_order arch_1_2_1 2 2 params7 thetas
             input_1x2 b0 identity Hord Hlen Hre Hin).
  - assert (Hok : is_ok (@reshapeParams binary64 arch_1_2_1 params7) = true)
      by (vm_compute; reflexivity).
    rewrite Hre in Hok. discriminate Hok.
Defined.

(** X2.  One evaluation from the parameter vector to the gradient: on
    an architecture with keys in layer order, a vector of the right
    length, an input and targets of the shapes the architecture asks
    for, [reshapeParams] and [feedForward] return; then, with [m]
    other than zero, [backProp] returns a gradient vector as long as
    the parameter vector, and with [m] equal to zero it raises
    [ZeroDivisionError]. *)
Theorem evaluation_returns `{Scalar} (np_sum : list (list F) -> F)
    (architecture : dict.t nat)
    (N m : nat) (LAMBDA : F) (params : list F) (input targets : ndarray)
    (regTerm mF : F) (neuron dneuron : F -> F) :
  layer_order architecture N ->
  length params = param_count architecture N ->
  shape input = (size_at architecture 0 + 1, m) ->
  shape targets = (size_at architecture (Z.of_nat N), m) ->
  exists thetas hypothesis activs regTerm',
    reshapeParams architecture params = Ok thetas /\
    feedForward np_sum thetas input regTerm m neuron
    = Ok (hypothesis, activs, regTerm') /\
    (Feqb mF F0 = false ->
     exists gradients,
       backProp architecture LAMBDA thetas hypothesis activs targets mF
                dneuron = Ok gradients /\
       length gradients = length params) /\
    (Feqb mF F0 = true ->
     backProp architecture LAMBDA thetas hypothesis activs targets mF dneuron
     = Raise ZeroDivisionError).
Proof.
  intros Hord Hlen Hin Htar.
  destruct (reshapeParams_ok architecture N params Hord)
    as (thetas & Hre & Hun); [lia|].
  rewrite <- Hlen, firstn_all in Hun.
  destruct (feedForward_shapes np_sum architecture N m thetas params input
              regTerm neuron) as (h & a & r & Hff & [Hkeys Hact] & Hh);
    [destruct Hord; lia|exact Hun|exact Hin|].
  exists thetas, h, a, r.
  split; [exact Hre|]. split; [exact Hff|]. split.
  - intros Hm.
    destruct (backProp_unpacked architecture N m LAMBDA thetas params h a
                targets mF dneuron Hord Hun)
      as (G & g & _ & Hg & _ & Hglen); [|exact Hm|].
    { split; [exact Hact|]. split; [exact Hh|exact Htar]. }
    exists g. split; assumption.
  - intros Hm.
    destruct (elementwise_same_shape Fsub h targets)
      as (top & Htop & Hts); [congruence|].
    exact (proj2 (backProp_grads_zero_division architecture N m LAMBDA
                    thetas params h a targets top mF dneuron
                    Hord Hun Hact Hh Htop Hts Hm)).
Qed.

Lemma evaluation_returns_witness :
  exists thetas hypothesis activs regTerm' gradients,
    @reshapeParams binary64 arch_1_2_1 params7 = Ok thetas /\
    @feedForward binary64 sum_in_order thetas input_1x2 b0 2 identity
    = Ok (hypothesis, activs, regTerm') /\
    @backProp binary64 arch_1_2_1 b5 thetas hypothesis activs targets_1x2
      b2 identity = Ok gradients /\
    length gradients = length params7.
Proof.
  assert (Hord : layer_order arch_1_2_1 2).
  { split; [lia|right; reflexivity]. }
  assert (Hlen : length params7 = param_count arch_1_2_1 2) by reflexivity.
  assert (Hin : shape input_1x2 = (size_at arch_1_2_1 0 + 1, 2))
    by reflexivity.
  assert (Htar : shape targets_1x2 = (size_at arch_1_2_1 (Z.of_nat 2), 2))
    by reflexivity.
  assert (Hm : @Feqb binary64 b2 F0 = false) by reflexivity.
  destruct (@evaluation_returns binary64 sum_in_order arch_1_2_1 2 2 b5
              params7 input_1x2 targets_1x2 b0 b2 identity identity
              Hord Hlen Hin Htar)
    as (thetas & h & a & r & Hre & Hff & Hback & _).
  destruct (Hback Hm) as (g & Hg & Hglen).
  exists thetas, h, a, r, g. repeat split; assumption.
Defined.

Section ForwardValues.
Context `{Scalar}.
Variable np_sum : list (list F) -> F.
Variable architecture : dict.t nat.
Variables N m : nat.
Variable thetas : dict.t ndarray.
Variable neuron : F -> F.
Hypothesis Hthetas : thetas_shapes architecture N thetas.

Lemma forward_recurrence_grows (activs extra : dict.t ndarray) (l : Z) :
  forward_recurrence_at thetas neuron activs l ->
  forward_recurrence_at thetas neuron (activs ++ extra) l.
Proof.
  intros (theta & a & z & a' & Ht & Ha & Hz & Ha' & Hrest).
  exists theta, a, z, a'.
  split; [exact Ht|]. split; [now apply get_app_l|].
  split; [exact Hz|]. split; [now apply get_app_l|exact Hrest].
Qed.

Lemma forward_step_values (activs : dict.t ndarray) (r : F) (c : nat) :
  1 <= c <= N ->
  activs_shapes architecture m activs c ->
  (forall l, (1 <= l < Z.of_nat c)%Z ->
     forward_recurrence_at thetas neuron activs l) ->
  exists activs' r',
    forward_step np_sum thetas m neuron (activs, r) (Z.of_nat c) = Ok (activs', r') /\
    activs_shapes architecture m activs' (S c) /\
    dict.get activs' 1 = dict.get activs 1 /\
    (forall l, (1 <= l < Z.of_nat (S c))%Z ->
       forward_recurrence_at thetas neuron activs' l).
Proof using Hthetas.
  intros Hc Hshapes Hrec.
  destruct (forward_step_shapes np_sum architecture N m thetas neuron Hthetas
              activs r c Hc Hshapes) as (activs' & r' & Hstep & Hshapes').
  exists activs', r'. split; [exact Hstep|]. split; [exact Hshapes'|].
  destruct Hshapes as [Hkeys Hget].
  unfold forward_step in Hstep.
  destruct (Hthetas (Z.of_nat c)) as (theta & Ht & [= Htr Htc]); [lia|].
  rewrite Ht in Hstep. cbn [bind] in Hstep.
  destruct (Hget (Z.of_nat c)) as (a & Ha & [= Har Hac]); [lia|].
  rewrite Ha in Hstep. cbn [bind] in Hstep.
  destruct (dot_shape theta a) as (z & Hz & [= Hzr Hzc]); [congruence|].
  rewrite Hz in Hstep. cbn [bind] in Hstep.
  unfold np.concatenate0 in Hstep.
  cbn [np.tile1 np.map_entries nrows ncols] in Hstep.
  rewrite Hzc, Hac, Nat.eqb_refl in Hstep. cbn [bind] in Hstep.
  rewrite sum_squares_from1_value in Hstep. cbn [bind] in Hstep.
  assert (Hfresh : ~ In (Z.of_nat c + 1)%Z (dict.keys activs)).
  { rewrite Hkeys, zrange_in. lia. }
  rewrite set_notin in Hstep by exact Hfresh.
  injection Hstep as <- <-.
  split.
  - destruct (Hget 1%Z) as (a1 & Ha1 & _); [lia|].
    rewrite Ha1. now apply get_app_l.
  - intros l Hl. destruct (Z.eq_dec l (Z.of_nat c)) as [->|Hne].
    + exists theta, a, z. eexists.
      split; [exact Ht|]. split; [now apply get_app_l|].
      split; [exact Hz|].
      split; [apply get_middle; exact Hfresh|].
      cbn [nrows ncols entry]. split; [reflexivity|].
      split; [congruence|]. split; [reflexivity|].
      intros i j. cbn. now rewrite Nat.sub_0_r.
    + apply forward_recurrence_grows. apply Hrec. lia.
Qed.

Lemma forward_loop_values (k : nat) :
  forall c activs r,
    1 <= c -> c + k <= S N -> k <= N ->
    activs_shapes architecture m activs c ->
    (forall l, (1 <= l < Z.of_nat c)%Z ->
       forward_recurrence_at thetas neuron activs l) ->
    exists activs' r',
      for_each (zrange c k) (forward_step np_sum thetas m neuron) (activs, r)
      = Ok (activs', r') /\
      activs_shapes architecture m activs' (c + k) /\
      dict.get activs' 1 = dict.get activs 1 /\
      (forall l, (1 <= l < Z.of_nat (c + k))%Z ->
         forward_recurrence_at thetas neuron activs' l).
Proof using Hthetas.
  induction k as [|k IH]; intros c activs r Hc Hck Hk Hshapes Hrec.
  - exists activs, r. rewrite Nat.add_0_r.
    split; [reflexivity|]. split; [exact Hshapes|]. split; [reflexivity|exact Hrec].
  - rewrite zrange_cons. cbn [for_each].
    destruct (forward_step_values activs r c)
      as (activs1 & r1 & -> & Hs1 & H1 & Hrec1); [lia|exact Hshapes|exact Hrec|].
    cbn [bind].
    destruct (IH (S c) activs1 r1)
      as (activs2 & r2 & Hloop & Hs2 & H2 & Hrec2); [lia|lia|lia|exact Hs1|exact Hrec1|].
    exists activs2, r2. replace (c + S k) with (S c + k) by lia.
    split; [exact Hloop|]. split; [exact Hs2|]. split; [congruence|exact Hrec2].
Qed.

End ForwardValues.

(** X3.  The activations [feedForward] returns follow the forward
    recurrence: layer 1 is the input as given, and for every layer [l]
    below the last the activation of layer [l+1] is a row of ones on
    top of the neuron applied, entry by entry, to the product of the
    weights of layer [l] and the activation of layer [l]; the raw
    hypothesis is the neuron applied to the product for the last
    layer. *)
Theorem feedForward_recurrence `{Scalar} (np_sum : list (list F) -> F)
    (architecture : dict.t nat)
    (N m : nat) (params : list F) (thetas : dict.t ndarray)
    (input : ndarray) (regTerm : F) (neuron : F -> F) :
  layer_order architecture N ->
  length params = param_count architecture N ->
  reshapeParams architecture params = Ok thetas ->
  shape input = (size_at architecture 0 + 1, m) ->
  exists raw activs regTerm',
    feedForward_raw np_sum thetas input regTerm m neuron
    = Ok (raw, activs, regTerm') /\
    feedForward np_sum thetas input regTerm m neuron
    = Ok (stabilise raw, activs, regTerm') /\
    dict.get activs 1 = Ok input /\
    (forall l, (1 <= l < Z.of_nat N)%Z ->
       forward_recurrence_at thetas neuron activs l) /\
    exists theta a z,
      dict.get thetas (Z.of_nat N) = Ok theta /\
      dict.get activs (Z.of_nat N) = Ok a /\
      np.dot theta a = Ok z /\
      raw = np.map_entries neuron z.
Proof.
  intros Hord Hlen Hre Hin.
  destruct (reshapeParams_ok architecture N params Hord)
    as (thetas' & Hre' & Hun); [lia|].
  rewrite Hre in Hre'. injection Hre' as <-.
  pose proof (unpacked_thetas_shapes _ _ _ _ Hun) as Hthetas.
  destruct (unpacked_keys _ _ _ _ Hun) as [Hkeys _].
  assert (HN : 1 <= N) by (destruct Hord; lia).
  destruct (forward_loop_values np_sum architecture N m thetas neuron Hthetas
              (N - 1) 1 [(1%Z, input)] regTerm)
    as (activs & r & Hloop & Ha & H1 & Hrec); [lia|lia|lia| | |].
  { split; [reflexivity|]. intros l Hl. assert (l = 1%Z) as -> by lia.
    exists input. split; [reflexivity|exact Hin]. }
  { intros l Hl. lia. }
  replace (1 + (N - 1)) with N in * by lia.
  destruct Ha as [Hakeys Hashapes].
  destruct (Hthetas (Z.of_nat N)) as (theta & Ht & [= Htr Htc]); [lia|].
  destruct (Hashapes (Z.of_nat N)) as (a & Ha & [= Har Hac]); [lia|].
  destruct (dot_shape theta a) as (z & Hz & _); [congruence|].
  assert (Hraw : feedForward_raw np_sum thetas input regTerm m neuron
                 = Ok (np.map_entries neuron z, activs,
                       Fadd r (nonbias_sum_squares np_sum theta))).
  { unfold feedForward_raw.
    rewrite Hkeys, (zrange_last N HN), removelast_last, Hloop. cbn [bind].
    unfold dict.last_key at 1.
    rewrite Hkeys, (zrange_last N HN), rev_app_distr. cbn [rev app bind].
    rewrite Ht. cbn [bind]. rewrite sum_squares_from1_value. cbn [bind].
    unfold dict.last_key.
    rewrite Hakeys, (zrange_last N HN), rev_app_distr. cbn [rev app bind].
    rewrite Ha. cbn [bind]. rewrite Hz. reflexivity. }
  eexists _, activs, _. split; [exact Hraw|].
  split; [unfold feedForward; rewrite Hraw; reflexivity|].
  split; [rewrite H1; cbn; reflexivity|].
  split; [exact Hrec|].
  exists theta, a, z. repeat split; assumption.
Qed.

Lemma feedForward_recurrence_witness :
  match @reshapeParams binary64 arch_1_2_1 params7 with
  | Ok thetas =>
      exists raw activs regTerm',
        @feedForward_raw binary64 sum_in_order thetas input_1x2 b0 2 identity
        = Ok (raw, activs, regTerm') /\
        @feedForward binary64 sum_in_order thetas input_1x2 b0 2 identity
        = Ok (stabilise raw, activs, regTerm') /\
        dict.get activs 1 = Ok input_1x2 /\
        (forall l, (1 <= l < Z.of_nat 2)%Z ->
           @forward_recurrence_at binary64 thetas identity activs l) /\
        exists theta a z,
          dict.get thetas (Z.of_nat 2) = Ok theta /\
          dict.get activs (Z.of_nat 2) = Ok a /\
          np.dot theta a = Ok z /\
          raw = @np.map_entries binary64 identity z
  | Raise _ => False
  end.
Proof.
  assert (Hord : layer_order arch_1_2_1 2).
  { split; [lia|right; reflexivity]. }
  assert (Hlen : length params7 = param_count arch_1_2_1 2) by reflexivity.
  assert (Hin : shape input_1x2 = (size_at arch_1_2_1 0 + 1, 2))
    by reflexivity.
  destruct (@reshapeParams binary64 arch_1_2_1 params7) as [thetas|e] eqn:Hre.
  - exact (@feedForward_recurrence binary64 sum_in_order arch_1_2_1 2 2 params7 thetas
             input_1x2 b0 identity Hord Hlen Hre Hin).
  - assert (Hok : is_ok (@reshapeParams binary64 arch_1_2_1 params7) = true)
      by (vm_compute; reflexivity).
    rewrite Hre in Hok. discriminate Hok.
Defined.

Lemma contains_none `{Scalar} (x : F) (A : ndarray) :
  (forall i j, i < nrows A -> j < ncols A -> Feqb (entry A i j) x = false) ->
  np.contains x A = false.
Proof.
  intros Hall. unfold np.contains, to_rows.
  destruct (existsb _ _) eqn:E; [|reflexivity].
  apply existsb_exists in E as (row & Hrow & E).
  apply in_map_iff in Hrow as (i & <- & Hi). apply in_seq in Hi.
  apply existsb_exists in E as (y & Hy & E).
  apply in_map_iff in Hy as (j & <- & Hj). apply in_seq in Hj.
  rewrite Hall in E by lia. discriminate.
Qed.

Lemma binary64_nudged_off_boundary (x : spec_float) :
  SFeqb (@nudge_zero binary64 (@nudge_one binary64 x)) Binary64.one = false /\
  SFeqb (@nudge_zero binary64 (@nudge_one binary64 x)) Binary64.zero = false.
Proof.
  destruct (binary64_nudge x) as (H1 & H0 & Hother).
  destruct (SFeqb x Binary64.one) eqn:E1.
  { apply binary64_eqb_one in E1. rewrite (H1 E1). split; reflexivity. }
  destruct (SFeqb x Binary64.zero) eqn:E0.
  { apply binary64_eqb_zero in E0. rewrite (H0 E0). split; reflexivity. }
  rewrite Hother.
  - split; assumption.
  - intros ->. discriminate E1.
  - intros s ->. destruct s; discriminate E0.
Qed.

(** X4.  In binary64 no entry of the hypothesis [feedForward] returns
    is exactly 1.0 or exactly 0.0: the tests [1 in hypothesis] and
    [0 in hypothesis] are both false on it, whatever the weights, the
    input and the neuron. *)
Theorem feedForward_hypothesis_off_boundary
    (np_sum : list (list spec_float) -> spec_float)
    (thetas : dict.t (@ndarray binary64)) (input : @ndarray binary64)
    (regTerm : spec_float) (m : nat) (neuron : spec_float -> spec_float)
    (hypothesis : @ndarray binary64) (activs : dict.t (@ndarray binary64))
    (regTerm' : spec_float) :
  @feedForward binary64 np_sum thetas input regTerm m neuron
  = Ok (hypothesis, activs, regTerm') ->
  @np.contains binary64 Binary64.one hypothesis = false /\
  @np.contains binary64 Binary64.zero hypothesis = false.
Proof.
  intros Hrun. unfold feedForward in Hrun.
  destruct (@feedForward_raw binary64 np_sum thetas input regTerm m neuron)
    as [[[raw a] r]|]; [|discriminate].
  cbn [bind] in Hrun. injection Hrun as <- _ _.
  pose proof (@stabilise_shape binary64 raw) as [= Hr Hc].
  split; apply contains_none; intros i j Hi Hj;
    rewrite (@stabilise_entry binary64 raw i j) by lia;
    apply binary64_nudged_off_boundary.
Qed.

Lemma feedForward_hypothesis_off_boundary_witness :
  match @feedForward binary64 sum_in_order thetas_boundary input_1x1 b0 1 identity with
  | Ok (hypothesis, _, _) =>
      @np.contains binary64 Binary64.one hypothesis = false /\
      @np.contains binary64 Binary64.zero hypothesis = false
  | Raise _ => False
  end.
Proof.
  destruct (@feedForward binary64 sum_in_order thetas_boundary input_1x1 b0 1 identity)
    as [[[h a] r]|e] eqn:Hrun.
  - exact (feedForward_hypothesis_off_boundary sum_in_order thetas_boundary input_1x1 b0 1
             identity h a r Hrun).
  - assert (Hok : is_ok (@feedForward binary64 sum_in_order thetas_boundary input_1x1 b0 1
                           identity) = true) by (vm_compute; reflexivity).
    rewrite Hrun in Hok. discriminate Hok.
Defined.

(** ** The parameter codec on other architectures *)

(** X5.  [reshapeParams] needs the layers 0 and 1: on an architecture
    without one of them it raises [KeyError], whatever the vector. *)
Theorem reshapeParams_missing_layer `{Scalar} (architecture : dict.t nat)
    (params : list F) :
  ~ In 1%Z (dict.keys architecture) \/ ~ In 0%Z (dict.keys architecture) ->
  reshapeParams architecture params = Raise KeyError.
Proof.
  intros Hmissing. unfold reshapeParams.
  destruct (dict.get architecture 1) as [a1|e1] eqn:E1.
  - destruct Hmissing as [H1|H0].
    + apply get_ok_in in E1. contradiction.
    + cbn [bind]. now rewrite (get_notin _ _ H0).
  - destruct (in_dec Z.eq_dec 1%Z (dict.keys architecture)) as [Hin|Hnot].
    + destruct (get_in _ _ Hin) as [v Hv]. congruence.
    + rewrite (get_notin _ _ Hnot) in E1. injection E1 as <-. reflexivity.
Qed.

Lemma reshapeParams_missing_layer_witness :
  @reshapeParams binary64 NeuralNetwork.default_architecture params7
  = Raise KeyError.
Proof.
  apply (@reshapeParams_missing_layer binary64).
  right. cbn. intros [Heq|[]]. discriminate Heq.
Defined.

Lemma for_each_app {A S} (xs ys : list A) (body : S -> A -> result S)
    (s : S) :
  for_each (xs ++ ys) body s
  = (let* s' := for_each xs body s in for_each ys body s').
Proof.
  revert s. induction xs as [|x xs IH]; intros s; [reflexivity|].
  cbn [app for_each]. destruct (body s x); cbn [bind]; auto.
Qed.

(** X6.  [fit] followed by [reshapeParams] with two or more hidden
    layers: when the architecture is configured with the hidden layers
    1..H in this order and H >= 2, [fit] leaves the keys in the order
    1, ..., H, 0, H+1, and on that architecture [reshapeParams] returns
    for no parameter vector at all. *)
Theorem fit_then_reshapeParams_raises `{Scalar}
    (array_equals : list F -> string -> result bool)
    (h : gmap loc pyobj) (self : gmap string pyval)
    (architecture : dict.t nat) (hidden m n : nat) (y : list Z) :
  architecture_of h self = Some architecture ->
  dict.keys architecture = zrange 1 hidden ->
  2 <= hidden ->
  m <> 1 -> n <> 1 ->
  2 <= length (np.unique y) ->
  exists resolved,
    architecture_of (fst (fit array_equals h self [m; n] y)) self
    = Some resolved /\
    dict.keys resolved
    = zrange 1 hidden ++ [0%Z; Z.of_nat (S hidden)] /\
    forall params, is_ok (reshapeParams resolved params) = false.
Proof.
  intros Ha Hkeys Hh Hm Hn Hlabels.
  exists (resolve_output (dict.set architecture 0 n) y).
  split; [now apply fit_architecture|].
  assert (H0 : ~ In 0%Z (dict.keys architecture)).
  { rewrite Hkeys, zrange_in. lia. }
  assert (Hk0 : dict.keys (dict.set architecture 0 n) = zrange 1 hidden ++ [0%Z]).
  { rewrite set_notin by exact H0. now rewrite keys_app, Hkeys. }
  assert (Hlen : length (dict.keys (dict.set architecture 0 n)) = S hidden).
  { rewrite Hk0, length_app. unfold zrange.
    rewrite length_map, length_seq. simpl. lia. }
  rewrite (resolve_output_value _ y Hlabels), Hlen.
  assert (Hfresh : ~ In (Z.of_nat (S hidden))
                     (dict.keys (dict.set architecture 0 n))).
  { rewrite Hk0, in_app_iff, zrange_in. simpl. lia. }
  assert (Hkr : dict.keys (dict.set (dict.set architecture 0 n)
                             (Z.of_nat (S hidden))
                             (if length (np.unique y) =? 2 then 1
                              else length (np.unique y)))
                = zrange 1 hidden ++ [0%Z; Z.of_nat (S hidden)]).
  { rewrite set_notin by exact Hfresh. rewrite keys_app, Hk0.
    now rewrite <- app_assoc. }
  split; [exact Hkr|].
  intros params. unfold reshapeParams.
  set (resolved := dict.set (dict.set architecture 0 n) _ _) in *.
  destruct (dict.get resolved 1) as [a1|]; [|reflexivity]. cbn [bind].
  destruct (dict.get resolved 0) as [a0|] eqn:E0; [|reflexivity]. cbn [bind].
  destruct (np.reshape_F _ a1 (a0 + 1)) as [theta1|]; [|reflexivity].
  cbn [bind]. cbv zeta. rewrite Hkr.
  destruct hidden as [|[|more]]; [lia|lia|].
  rewrite !zrange_cons. cbn [app skipn]. rewrite skipn_O, for_each_app.
  destruct (for_each (zrange 3 more) _ _) as [[thetas lastIndex]|];
    [|reflexivity].
  cbn [bind for_each]. unfold reshape_step at 1. rewrite E0. cbn [bind].
  rewrite get_notin; [reflexivity|].
  rewrite Hkr, in_app_iff, zrange_in. simpl. lia.
Qed.

Lemma fit_then_reshapeParams_raises_witness :
  exists resolved,
    architecture_of
      (fst (@fit binary64 never_equal store0
              (<["architecture"%string := @VRef binary64 two_hidden_ref]>
                 fresh_instance)
              [4; 2] [0; 1; 2; 1]%Z))
      (<["architecture"%string := @VRef binary64 two_hidden_ref]>
         fresh_instance)
    = Some resolved /\
    dict.keys resolved = zrange 1 2 ++ [0%Z; Z.of_nat 3] /\
    forall params, is_ok (@reshapeParams binary64 resolved params) = false.
Proof.
  apply (@fit_then_reshapeParams_raises binary64 never_equal store0 _
           [(1%Z, 3); (2%Z, 2)] 2 4 2 [0; 1; 2; 1]%Z).
  - reflexivity.
  - reflexivity.
  - lia.
  - lia.
  - lia.
  - vm_compute. lia.
Defined.

(** X7.  [fit] followed by the codec with one hidden layer: when the
    architecture is configured with the hidden layer 1 alone, the
    architecture [fit] leaves is in layer order, and on it
    [reshapeParams] followed by flattening gives back every parameter
    vector of the right length. *)
Theorem fit_then_codec_round_trip `{Scalar}
    (array_equals : list F -> string -> result bool)
    (h : gmap loc pyobj) (self : gmap string pyval)
    (units m n : nat) (y : list Z) (params : list F) :
  architecture_of h self = Some [(1%Z, units)] ->
  m <> 1 -> n <> 1 ->
  2 <= length (np.unique y) ->
  exists resolved,
    architecture_of (fst (fit array_equals h self [m; n] y)) self
    = Some resolved /\
    layer_order resolved 2 /\
    (length params = param_count resolved 2 ->
     (let* thetas := reshapeParams resolved params in flatten thetas)
     = Ok params).
Proof.
  intros Ha Hm Hn Hlabels.
  exists (resolve_output (dict.set [(1%Z, units)] 0 n) y).
  split; [now apply fit_architecture|].
  assert (Hord : layer_order (resolve_output (dict.set [(1%Z, units)] 0 n) y) 2).
  { rewrite (resolve_output_value _ y Hlabels).
    split; [lia|right; reflexivity]. }
  split; [exact Hord|].
  intros Hlen.
  destruct (reshapeParams_flatten _ 2 params Hord)
    as (thetas & -> & Hflat); [lia|].
  cbn [bind]. rewrite Hflat, <- Hlen. now rewrite firstn_all.
Qed.

Lemma fit_then_codec_round_trip_witness :
  exists resolved,
    architecture_of
      (fst (@fit binary64 never_equal class_store fresh_instance [4; 2]
              [0; 1; 2; 1]%Z)) fresh_instance
    = Some resolved /\
    layer_order resolved 2 /\
    (length (repeat b1 153) = param_count resolved 2 ->
     (let* thetas := @reshapeParams binary64 resolved (repeat b1 153) in
      flatten thetas) = Ok (repeat b1 153)).
Proof.
  apply (@fit_then_codec_round_trip binary64 never_equal class_store
           fresh_instance 25 4 2 [0; 1; 2; 1]%Z (repeat b1 153)).
  - reflexivity.
  - lia.
  - lia.
  - vm_compute. lia.
Defined.
(** ** [fit] *)

(** X8.  A call to [fit] never returns normally and never trains.  It
    ends in an exception, before any statement that assigns an
    attribute; it creates no object; and the only object it can change
    is the one [self.architecture] refers to.  Every other object is
    after the call what it was before, and so is what every attribute
    refers to that does not hold the reference [self.architecture]
    holds. *)
Theorem fit_never_trains `{Scalar}
    (array_equals : list F -> string -> result bool)
    (h : gmap loc pyobj) (self : gmap string pyval)
    (X : list nat) (y : list Z) :
  is_ok (snd (fit array_equals h self X y)) = false /\
  dom (fst (fit array_equals h self X y)) = dom h /\
  (forall l, self !! "architecture"%string <> Some (VRef l) ->
     fst (fit array_equals h self X y) !! l = h !! l) /\
  (forall key value,
     self !! key = Some value ->
     self !! "architecture"%string <> Some value ->
     object_of (fst (fit array_equals h self X y)) value
     = object_of h value).
Proof.
  split; [apply fit_raises|]. split; [apply fit_dom|].
  split; [intros l; apply fit_frame|].
  intros key value _ Hne. destruct value; try reflexivity.
  cbn [object_of]. now apply fit_frame.
Qed.

(** A run with a shared dictionary: [_trainedParams] is given the
    dictionary [architecture] holds, and the call to [fit] changes
    what it refers to. *)
Example fit_shared_dictionary :
  let shared :=
    <["_trainedParams"%string := @VRef binary64 default_architecture_ref]>
      fresh_instance in
  object_of class_store (@VRef binary64 default_architecture_ref)
  = Some (ODict [(1%Z, 25)]) /\
  object_of (fst (@fit binary64 never_equal class_store shared [4; 2]
                    [0; 1; 2; 1]%Z))
            (@VRef binary64 default_architecture_ref)
  = Some (ODict [(1%Z, 25); (0%Z, 2); (2%Z, 3)]).
Proof. split; reflexivity. Qed.

(** X9.  [fit] squeezes [X] before it reads its shape: a matrix with a
    single column or a single row has one dimension left or none, the
    shape cannot be unpacked, and the call raises [ValueError] with
    every object untouched. *)
Theorem fit_single_feature_or_example `{Scalar}
    (array_equals : list F -> string -> result bool)
    (h : gmap loc pyobj) (self : gmap string pyval)
    (extent : nat) (y : list Z) :
  fit array_equals h self [extent; 1] y = (h, Raise ValueError) /\
  fit array_equals h self [1; extent] y = (h, Raise ValueError).
Proof.
  split; apply fit_bad_shape; unfold np.squeeze; cbn [List.filter];
    destruct (Nat.eqb_spec extent 1); cbn; lia.
Qed.

(** X10.  With fewer than two distinct labels [fit] sets layer 0 and
    adds no output layer: an architecture configured with the hidden
    layers 1..H is left with the keys 1, ..., H, 0. *)
Theorem fit_single_label `{Scalar}
    (array_equals : list F -> string -> result bool)
    (h : gmap loc pyobj) (self : gmap string pyval)
    (architecture : dict.t nat) (hidden m n : nat) (y : list Z) :
  architecture_of h self = Some architecture ->
  dict.keys architecture = zrange 1 hidden ->
  m <> 1 -> n <> 1 ->
  length (np.unique y) < 2 ->
  architecture_of (fst (fit array_equals h self [m; n] y)) self
  = Some (architecture ++ [(0%Z, n)]) /\
  dict.keys (architecture ++ [(0%Z, n)]) = zrange 1 hidden ++ [0%Z].
Proof.
  intros Ha Hkeys Hm Hn Hlabels.
  rewrite (fit_architecture array_equals h self architecture m n y Ha Hm Hn).
  rewrite (resolve_output_few _ y Hlabels).
  rewrite set_notin by (rewrite Hkeys, zrange_in; lia).
  split; [reflexivity|]. now rewrite keys_app, Hkeys.
Qed.

Lemma fit_single_label_witness :
  architecture_of
    (fst (@fit binary64 never_equal class_store fresh_instance [4; 2]
            [7; 7; 7; 7]%Z)) fresh_instance
  = Some (default_architecture ++ [(0%Z, 2)]) /\
  dict.keys (default_architecture ++ [(0%Z, 2)]) = zrange 1 1 ++ [0%Z].
Proof.
  apply (@fit_single_label binary64 never_equal class_store fresh_instance
           default_architecture 1 4 2 [7; 7; 7; 7]%Z).
  - reflexivity.
  - reflexivity.
  - lia.
  - lia.
  - vm_compute. lia.
Defined.

(** X11.  [fit] writes the output layer at the key that equals the
    number of keys.  When the architecture, once layer 0 is set,
    already has that key (hidden layers not numbered 1..H, as in
    [{2: 5}]), no layer is added: the size of that configured layer is
    replaced by the size of the output layer and the keys stay as they
    were. *)
Theorem fit_overwrites_layer `{Scalar}
    (array_equals : list F -> string -> result bool)
    (h : gmap loc pyobj) (self : gmap string pyval)
    (architecture : dict.t nat) (m n : nat) (y : list Z) :
  architecture_of h self = Some architecture ->
  m <> 1 -> n <> 1 ->
  2 <= length (np.unique y) ->
  let with_input := dict.set architecture 0 n in
  let key := Z.of_nat (length (dict.keys with_input)) in
  In key (dict.keys with_input) ->
  exists resolved,
    architecture_of (fst (fit array_equals h self [m; n] y)) self
    = Some resolved /\
    dict.keys resolved = dict.keys with_input /\
    dict.get resolved key
    = Ok (if length (np.unique y) =? 2 then 1 else length (np.unique y)).
Proof.
  intros Ha Hm Hn Hlabels with_input key Hin.
  exists (resolve_output with_input y).
  split; [now apply fit_architecture|].
  rewrite (resolve_output_value _ y Hlabels). fold key.
  split; [now apply keys_set_in|apply get_set_same].
Qed.

Lemma fit_overwrites_layer_witness :
  exists resolved,
    architecture_of
      (fst (@fit binary64 never_equal store0
              (<["architecture"%string := @VRef binary64 layer_two_ref]>
                 fresh_instance) [4; 3] [0; 1; 2; 1]%Z))
      (<["architecture"%string := @VRef binary64 layer_two_ref]>
         fresh_instance)
    = Some resolved /\
    dict.keys resolved = [2%Z; 0%Z] /\
    dict.get resolved 2 = Ok 3.
Proof.
  apply (@fit_overwrites_layer binary64 never_equal store0 _ [(2%Z, 5)] 4 3
           [0; 1; 2; 1]%Z).
  - reflexivity.
  - lia.
  - lia.
  - vm_compute. lia.
  - left. reflexivity.
Defined.

(** ** [__init__], [get_params] and [set_params] *)

Section Configuration.
Context `{Scalar}.
Implicit Types self : gmap string pyval.

Lemma set_params_body_all_known (parameters : list (string * pyval)) :
  forall self,
    Forall (fun kv => is_Some (self !! fst kv)) parameters ->
    set_params_body self parameters
    = (foldl (fun s kv => <[fst kv := snd kv]> s) self parameters, Ok tt).
Proof.
  induction parameters as [|[p v] rest IH]; intros self Hall; [reflexivity|].
  inversion Hall as [|? ? Hp Hrest]; subst. cbn [set_params_body fst] in *.
  rewrite setattr_known by exact Hp. rewrite IH; [reflexivity|].
  eapply List.Forall_impl; [|exact Hrest]. intros [k w] Hk. cbn [fst] in *.
  apply lookup_insert_is_Some.
  destruct (decide (p = k)); [now left|right; split; assumption].
Qed.

Lemma foldl_insert_lookup (parameters : list (string * pyval)) :
  forall self,
    List.NoDup (map fst parameters) ->
    (forall key value, In (key, value) parameters ->
       foldl (fun s kv => <[fst kv := snd kv]> s) self parameters !! key
       = Some value) /\
    (forall key, ~ In key (map fst parameters) ->
       foldl (fun s kv => <[fst kv := snd kv]> s) self parameters !! key
       = self !! key).
Proof.
  induction parameters as [|[p v] rest IH]; intros self Hnd.
  - split; [intros ? ? []|reflexivity].
  - inversion Hnd as [|? ? Hnotin Hnd']; subst. cbn [foldl fst snd map] in *.
    destruct (IH (<[p := v]> self) Hnd') as [IHin IHout]. split.
    + intros key value [[= -> ->]|Hin].
      * rewrite IHout by exact Hnotin. apply lookup_insert_eq.
      * now apply IHin.
    + intros key Hkey.
      assert (Hne : p <> key) by (intros ->; apply Hkey; now left).
      assert (Hout : ~ In key (map fst rest))
        by (intros Hin; apply Hkey; now right).
      rewrite IHout by exact Hout. now apply lookup_insert_ne.
Qed.

Lemma set_params_body_stops (known rest : list (string * pyval))
    (unknown : string) (value : pyval) :
  forall self,
    Forall (fun kv => is_Some (self !! fst kv)) known ->
    self !! unknown = None ->
    set_params_body self (known ++ (unknown, value) :: rest)
    = (foldl (fun s kv => <[fst kv := snd kv]> s) self known,
       Raise (AttributeError unknown)).
Proof.
  induction known as [|[p v] known IH]; intros self Hknown Hunknown.
  - cbn [app set_params_body foldl]. now rewrite setattr_unknown.
  - inversion Hknown as [|? ? Hp Hrest]; subst. cbn [fst] in Hp.
    cbn [app set_params_body foldl fst snd].
    rewrite setattr_known by exact Hp. apply IH.
    + eapply List.Forall_impl; [|exact Hrest]. intros [k w] Hk. cbn [fst] in *.
      apply lookup_insert_is_Some.
      destruct (decide (p = k)); [now left|right; split; assumption].
    + rewrite lookup_insert_ne; [exact Hunknown|].
      intros ->. destruct Hp as [x Hx]. congruence.
Qed.

Lemma known_keys_not_self self (parameters : list (string * pyval)) :
  self !! "self"%string = None ->
  Forall (fun kv => is_Some (self !! fst kv)) parameters ->
  ~ In "self"%string (map fst parameters).
Proof.
  intros Hself Hall Hin. apply in_map_iff in Hin as ([k v] & Hk & Hin).
  cbn [fst] in Hk. subst k.
  rewrite List.Forall_forall in Hall. specialize (Hall _ Hin). cbn [fst] in Hall.
  rewrite Hself in Hall. destruct Hall as [x Hx]. discriminate Hx.
Qed.

End Configuration.

(** X12.  [set_params] is not all-or-nothing.  When no key given is
    named [self] and the keys given before the first unknown one are
    attributes, they are assigned before the exception is raised for
    the unknown key: the call raises [AttributeError] for that key and
    the instance keeps the values given for the earlier keys.  With a
    key named [self] the call raises [TypeError] while the arguments
    are bound and nothing is assigned. *)
Theorem set_params_keeps_earlier_assignments `{Scalar}
    (self : gmap string pyval) (known rest : list (string * pyval))
    (unknown : string) (value : pyval) :
  Forall (fun kv => is_Some (self !! fst kv)) known ->
  List.NoDup (map fst known) ->
  self !! unknown = None ->
  (~ In "self"%string (map fst (known ++ (unknown, value) :: rest)) ->
   snd (set_params self (known ++ (unknown, value) :: rest))
   = Raise (AttributeError unknown) /\
   (forall key value', In (key, value') known ->
      fst (set_params self (known ++ (unknown, value) :: rest)) !! key
      = Some value') /\
   (forall key, ~ In key (map fst known) ->
      fst (set_params self (known ++ (unknown, value) :: rest)) !! key
      = self !! key)) /\
  (In "self"%string (map fst (known ++ (unknown, value) :: rest)) ->
   set_params self (known ++ (unknown, value) :: rest)
   = (self, Raise TypeError)).
Proof.
  intros Hknown Hnd Hunknown. split; [|apply set_params_self].
  intros Hself. rewrite (set_params_bound self _ Hself).
  rewrite (set_params_body_stops known rest unknown value self Hknown Hunknown).
  cbn [fst snd]. split; [reflexivity|]. now apply foldl_insert_lookup.
Qed.

Lemma set_params_keeps_earlier_assignments_witness :
  snd (set_params fresh_instance
         ([("maxiter"%string, @VInt binary64 5)]
          ++ ("momentum"%string, @VInt binary64 1) :: []))
  = Raise (AttributeError "momentum") /\
  fst (set_params fresh_instance
         ([("maxiter"%string, @VInt binary64 5)]
          ++ ("momentum"%string, @VInt binary64 1) :: []))
  !! "maxiter"%string = Some (@VInt binary64 5).
Proof.
  destruct (@set_params_keeps_earlier_assignments binary64 fresh_instance
              [("maxiter"%string, @VInt binary64 5)] []
              "momentum" (@VInt binary64 1))
    as (Hbound & _).
  - repeat constructor. cbn [fst]. eexists. reflexivity.
  - repeat constructor. intros [].
  - reflexivity.
  - destruct Hbound as (Hraise & Hkept & _).
    + cbn. intuition discriminate.
    + split; [exact Hraise|]. apply Hkept. left. reflexivity.
Defined.

(** X13.  On an instance without an attribute named [self], as every
    instance of the class is, when every key given to [set_params] is
    an attribute and the keys are distinct, as those of keyword
    arguments are, the call returns; afterwards every key given holds
    the value given, every other attribute holds what it held, and no
    attribute has been created. *)
Theorem set_params_assigns `{Scalar} (self : gmap string pyval)
    (parameters : list (string * pyval)) :
  self !! "self"%string = None ->
  Forall (fun kv => is_Some (self !! fst kv)) parameters ->
  List.NoDup (map fst parameters) ->
  snd (set_params self parameters) = Ok tt /\
  (forall key value, In (key, value) parameters ->
     fst (set_params self parameters) !! key = Some value) /\
  (forall key, ~ In key (map fst parameters) ->
     fst (set_params self parameters) !! key = self !! key) /\
  dom (fst (set_params self parameters)) = dom self.
Proof.
  intros Hself Hknown Hnd.
  pose proof (set_params_dom parameters self) as Hdom.
  rewrite (set_params_bound self parameters
             (known_keys_not_self self parameters Hself Hknown)) in *.
  rewrite (set_params_body_all_known parameters self Hknown) in *.
  cbn [fst snd] in *. split; [reflexivity|].
  destruct (foldl_insert_lookup parameters self Hnd) as [Hin Hout].
  split; [exact Hin|]. split; [exact Hout|exact Hdom].
Qed.

Lemma set_params_assigns_witness :
  snd (set_params fresh_instance
         [("maxiter"%string, @VInt binary64 5);
          ("neuron"%string, @VStr binary64 "tanh")]) = Ok tt /\
  fst (set_params fresh_instance
         [("maxiter"%string, @VInt binary64 5);
          ("neuron"%string, @VStr binary64 "tanh")]) !! "neuron"%string
  = Some (@VStr binary64 "tanh").
Proof.
  destruct (@set_params_assigns binary64 fresh_instance
              [("maxiter"%string, @VInt binary64 5);
               ("neuron"%string, @VStr binary64 "tanh")])
    as (Hok & Hin & _).
  - reflexivity.
  - repeat constructor; cbn [fst]; eexists; reflexivity.
  - repeat constructor; cbn; intuition discriminate.
  - split; [exact Hok|]. apply Hin. right. left. reflexivity.
Defined.

(** X14.  [get_params] and [set_params] round trip: when [get_params]
    returns, its keys are the five configuration options in the order
    of the source, [_trainedParams] is not among them, and giving the
    result back to [set_params] returns and leaves the instance as it
    is. *)
Theorem get_params_set_params `{Scalar} (self : gmap string pyval)
    (parameters : list (string * pyval)) :
  get_params self = Ok parameters ->
  map fst parameters = configuration_options /\
  ~ In "_trainedParams"%string (map fst parameters) /\
  set_params self parameters = (self, Ok tt).
Proof.
  unfold get_params, getattr.
  destruct (self !! "architecture"%string) as [a|] eqn:Ea; [|discriminate].
  destruct (self !! "LAMBDA"%string) as [l|] eqn:El; [|discriminate].
  destruct (self !! "neuron"%string) as [n|] eqn:En; [|discriminate].
  destruct (self !! "optimiser"%string) as [o|] eqn:Eo; [|discriminate].
  destruct (self !! "maxiter"%string) as [m|] eqn:Em; [|discriminate].
  cbn [bind]. intros [= <-].
  split; [reflexivity|]. split; [cbn; intuition discriminate|].
  rewrite set_params_bound by (cbn; intuition discriminate).
  cbn [set_params_body]. unfold setattr.
  rewrite Ea, (insert_id _ _ _ Ea).
  rewrite El, (insert_id _ _ _ El).
  rewrite En, (insert_id _ _ _ En).
  rewrite Eo, (insert_id _ _ _ Eo).
  rewrite Em, (insert_id _ _ _ Em).
  reflexivity.
Qed.

Lemma get_params_set_params_witness :
  exists parameters,
    get_params fresh_instance = Ok parameters /\
    map fst parameters = configuration_options /\
    ~ In "_trainedParams"%string (map fst parameters) /\
    set_params fresh_instance parameters = (fresh_instance, Ok tt).
Proof.
  eexists. split; [reflexivity|].
  apply (@get_params_set_params binary64 fresh_instance). reflexivity.
Defined.

(** X15.  [__init__] builds an instance for the optimisers [fmin_cg]
    and [fmin_bfgs] and for no other: every other name, the
    [grad_decent] and [stoch_grad_decent] of the class's documentation
    among them, raises [NotImplementedError].  The instance holds the
    optimiser function in place of its name and [None] as trained
    parameters. *)
Theorem init_optimisers `{Scalar} (architecture : loc) (LAMBDA : F)
    (neuron optimiser : string) (maxiter : Z) :
  (optimiser = "fmin_cg"%string \/ optimiser = "fmin_bfgs"%string ->
   exists self,
     init architecture LAMBDA neuron optimiser maxiter = Ok self /\
     dom self = attribute_names /\
     self !! "optimiser"%string = Some (VFunc optimiser) /\
     self !! "_trainedParams"%string = Some VNone) /\
  (optimiser <> "fmin_cg"%string -> optimiser <> "fmin_bfgs"%string ->
   init architecture LAMBDA neuron optimiser maxiter
   = Raise NotImplementedError) /\
  init architecture LAMBDA neuron "grad_decent" maxiter
  = Raise NotImplementedError /\
  init architecture LAMBDA neuron "stoch_grad_decent" maxiter
  = Raise NotImplementedError.
Proof.
  split; [|split; [|split; reflexivity]].
  - intros Hopt. eexists. split.
    + unfold init. destruct Hopt as [-> | ->]; reflexivity.
    + split; [|split].
      * unfold attribute_names. rewrite !dom_insert_L, dom_empty_L.
        set_solver.
      * rewrite lookup_insert_ne by discriminate. apply lookup_insert_eq.
      * apply lookup_insert_eq.
  - intros H1 H2. unfold init, scipy_optimisers. cbn [existsb].
    destruct (String.eqb_spec optimiser "fmin_cg"); [contradiction|].
    destruct (String.eqb_spec optimiser "fmin_bfgs"); [contradiction|].
    reflexivity.
Qed.

(** X16.  The attributes of an instance are fixed at construction: on
    every instance obtained from [__init__] by calls to [fit] and
    [set_params] the attribute names are the six [__init__] creates;
    [_trainedParams] is always there and [_architecture] never is. *)
Theorem reachable_attributes `{Scalar}
    (array_equals : list F -> string -> result bool)
    (h : gmap loc pyobj) (self : gmap string pyval) :
  reachable array_equals h self ->
  dom self = attribute_names /\
  is_Some (self !! "_trainedParams"%string) /\
  self !! "_architecture"%string = None.
Proof.
  intros Hreach.
  pose proof (reachable_dom array_equals h self Hreach) as Hdom.
  split; [exact Hdom|]. split.
  - apply elem_of_dom. rewrite Hdom. unfold attribute_names. set_solver.
  - apply not_elem_of_dom. rewrite Hdom. unfold attribute_names.
    set_solver.
Qed.

Lemma reachable_attributes_witness :
  dom (fst (set_params fresh_instance
              [("maxiter"%string, @VInt binary64 5)])) = attribute_names /\
  is_Some (fst (set_params fresh_instance
                  [("maxiter"%string, @VInt binary64 5)])
           !! "_trainedParams"%string) /\
  fst (set_params fresh_instance [("maxiter"%string, @VInt binary64 5)])
  !! "_architecture"%string = None.
Proof.
  apply (@reachable_attributes binary64 never_equal
           (fst (@fit binary64 never_equal class_store fresh_instance [4; 2]
                   [0; 1; 2; 1]%Z))).
  apply reachable_set_params. apply reachable_fit.
  apply (@reachable_init binary64 never_equal class_store
           default_architecture_ref b0 "sigmoid" "fmin_cg" 1000).
  reflexivity.
Defined.

(** X17.  [initialise] never returns on an instance obtained from
    [__init__] by calls to [fit] and [set_params] whose architecture
    is a dictionary: it draws the first matrix and then reads
    [self._architecture], an attribute no instance has.  With the
    layers 0 and 1 in the architecture the exception is
    [AttributeError]; without one of them it is the [KeyError] of the
    lookup. *)
Theorem initialise_raises `{Scalar}
    (array_equals : list F -> string -> result bool)
    (np_sqrt : F -> F) (of_nat : nat -> F)
    (generator : Type)
    (np_random_rand : generator -> nat -> nat -> ndarray * generator)
    (g : generator) (h : gmap loc pyobj) (self : gmap string pyval)
    (architecture : dict.t nat) :
  reachable array_equals h self ->
  architecture_of h self = Some architecture ->
  Initialisation.initialise np_sqrt of_nat generator np_random_rand g h self
  = Raise (if existsb (Z.eqb 0) (dict.keys architecture)
              && existsb (Z.eqb 1) (dict.keys architecture)
           then AttributeError "_architecture"
           else KeyError).
Proof.
  intros Hreach Ha.
  assert (Hnone : self !! "_architecture"%string = None).
  { apply not_elem_of_dom.
    rewrite (reachable_dom array_equals h self Hreach).
    unfold attribute_names. set_solver. }
  destruct (architecture_of_Some _ _ _ Ha) as (l & Hl & Hd).
  unfold Initialisation.initialise, getattr.
  rewrite Hl. cbn [bind]. rewrite Hd.
  destruct (existsb (Z.eqb 0) (dict.keys architecture)) eqn:E0.
  - apply existsb_exists in E0 as (k & Hk & Ek).
    apply Z.eqb_eq in Ek. subst k.
    destruct (get_in _ _ Hk) as [nIn ->]. cbn [bind andb].
    destruct (existsb (Z.eqb 1) (dict.keys architecture)) eqn:E1.
    + apply existsb_exists in E1 as (k & Hk1 & Ek).
      apply Z.eqb_eq in Ek. subst k.
      destruct (get_in _ _ Hk1) as [nOut ->]. cbn [bind].
      destruct (Initialisation.randInitParams _ _ _ _ _ _ _).
      now rewrite Hnone.
    + rewrite get_notin; [reflexivity|].
      intros Hin.
      assert (existsb (Z.eqb 1) (dict.keys architecture) = true);
        [|congruence].
      apply existsb_exists. exists 1%Z. split; [exact Hin|reflexivity].
  - rewrite get_notin; [reflexivity|].
    intros Hin.
    assert (existsb (Z.eqb 0) (dict.keys architecture) = true);
      [|congruence].
    apply existsb_exists. exists 0%Z. split; [exact Hin|reflexivity].
Qed.

Lemma initialise_raises_witness :
  @Initialisation.initialise binary64 (fun x : spec_float => x)
    (fun _ => b1) unit
    (fun g r c => (@NdArray binary64 r c (fun _ _ => b0), g)) tt
    (fst (@fit binary64 never_equal class_store fresh_instance [4; 2]
            [0; 1; 2; 1]%Z))
    fresh_instance
  = Raise (AttributeError "_architecture").
Proof.
  apply (@initialise_raises binary64 never_equal (fun x : spec_float => x)
           (fun _ => b1)
           unit (fun g r c => (@NdArray binary64 r c (fun _ _ => b0), g)) tt
           (fst (@fit binary64 never_equal class_store fresh_instance [4; 2]
                   [0; 1; 2; 1]%Z))
           fresh_instance
           [(1%Z, 25); (0%Z, 2); (2%Z, 3)]).
  - apply reachable_fit.
    apply (@reachable_init binary64 never_equal class_store
             default_architecture_ref b0 "sigmoid" "fmin_cg" 1000).
    reflexivity.
  - reflexivity.
Defined.

(** ** The body of [oneHotEncoding] *)

Section OneHot.
Context `{Scalar}.

Lemma index_in_range (k : nat) (t : Z) :
  (0 <= t < Z.of_nat k)%Z -> np.index k t = Ok (Z.to_nat t).
Proof.
  intros Ht. unfold np.index.
  destruct (Z.leb_spec 0 t); [|lia].
  destruct (Z.ltb_spec t (Z.of_nat k)); [reflexivity|lia].
Qed.

Lemma index_out_of_range (k : nat) (t : Z) :
  (t < - Z.of_nat k \/ Z.of_nat k <= t)%Z -> np.index k t = Raise IndexError.
Proof.
  intros Ht. unfold np.index.
  destruct (Z.leb_spec 0 t), (Z.ltb_spec t (Z.of_nat k)),
    (Z.leb_spec (- Z.of_nat k) t), (Z.ltb_spec t 0);
    cbn [andb]; try reflexivity; lia.
Qed.

Lemma index_raises_IndexError (k : nat) (t : Z) (e : pyerr) :
  np.index k t = Raise e -> e = IndexError.
Proof.
  unfold np.index.
  destruct ((0 <=? t)%Z && (t <? Z.of_nat k)%Z); [discriminate|].
  destruct ((- Z.of_nat k <=? t)%Z && (t <? 0)%Z); [discriminate|].
  now intros [= <-].
Qed.

Lemma one_hot_loop (targets : list Z) (k : nat) (idxs : list nat) :
  forall ind,
    (forall i, In i idxs -> (0 <= nth i targets 0 < Z.of_nat k)%Z) ->
    exists ind',
      for_each idxs
        (fun ind i =>
           let* j := np.index k (nth i targets 0%Z) in
           Ok (np.set_entry ind i j F1)) ind = Ok ind' /\
      shape ind' = shape ind /\
      forall i' j',
        entry ind' i' j'
        = if existsb (fun i => (i' =? i)
                               && (j' =? Z.to_nat (nth i targets 0%Z))) idxs
          then F1 else entry ind i' j'.
Proof.
  induction idxs as [|i idxs IH]; intros ind Hrange.
  - exists ind. split; [reflexivity|]. split; reflexivity.
  - cbn [for_each].
    rewrite index_in_range by (apply Hrange; now left). cbn [bind].
    destruct (IH (np.set_entry ind i (Z.to_nat (nth i targets 0%Z)) F1))
      as (ind' & -> & Hshape & Hentry).
    { intros i0 Hi0. apply Hrange. now right. }
    exists ind'. split; [reflexivity|]. split; [exact Hshape|].
    intros i' j'. rewrite Hentry. cbn [existsb np.set_entry entry].
    destruct (existsb _ idxs); [now rewrite orb_true_r|].
    rewrite orb_false_r. reflexivity.
Qed.

Lemma existsb_seq_diagonal (m i' : nat) (p : nat -> bool) :
  i' < m ->
  existsb (fun i => (i' =? i) && p i) (seq 0 m) = p i'.
Proof.
  intros Hi. destruct (p i') eqn:E.
  - apply existsb_exists. exists i'. split; [apply in_seq; lia|].
    now rewrite Nat.eqb_refl.
  - destruct (existsb _ _) eqn:Ex; [|reflexivity].
    apply existsb_exists in Ex as (i & _ & Hi').
    apply andb_true_iff in Hi' as [Heq Hp].
    apply Nat.eqb_eq in Heq. subst i. congruence.
Qed.

Lemma one_hot_loop_raises (targets : list Z) (k : nat) (idxs : list nat) :
  forall ind,
    (exists i, In i idxs /\
       (nth i targets 0 < - Z.of_nat k \/ Z.of_nat k <= nth i targets 0)%Z) ->
    for_each idxs
      (fun ind i =>
         let* j := np.index k (nth i targets 0%Z) in
         Ok (np.set_entry ind i j F1)) ind = Raise IndexError.
Proof.
  induction idxs as [|i idxs IH]; intros ind (i0 & Hin & Hbad).
  - contradiction.
  - cbn [for_each].
    destruct (np.index k (nth i targets 0%Z)) as [j|e] eqn:E.
    + cbn [bind]. apply IH. exists i0. split; [|exact Hbad].
      destruct Hin as [->|Hin]; [|exact Hin].
      rewrite index_out_of_range in E by exact Hbad. discriminate.
    + cbn [bind]. now rewrite (index_raises_IndexError _ _ _ E).
Qed.

End OneHot.

(** X18.  The body of [oneHotEncoding], run on labels that are the
    integers 0..k-1 for k distinct values, returns the (k, m) matrix
    whose column [i] has a 1 in the row of the label of example [i] and
    0 elsewhere. *)
Theorem oneHotEncoding_body_one_hot `{Scalar} (targets : list Z) :
  Forall (fun t => (0 <= t < Z.of_nat (length (np.unique targets)))%Z)
         targets ->
  exists M,
    oneHotEncoding_body targets = Ok M /\ one_hot_of targets M.
Proof.
  intros Hrange. unfold oneHotEncoding_body. cbv zeta.
  destruct (one_hot_loop targets (length (np.unique targets))
              (seq 0 (length targets))
              (NdArray _ (length targets) (length (np.unique targets))
                       (fun _ _ => F0)))
    as (ind & -> & [= Hr Hc] & Hentry).
  { intros i Hi. apply in_seq in Hi.
    rewrite List.Forall_forall in Hrange. apply Hrange. apply nth_In. lia. }
  cbn [bind]. eexists. split; [reflexivity|]. split.
  - unfold shape. cbn [np.transpose nrows ncols]. now rewrite Hr, Hc.
  - intros i j Hi Hj. cbn [np.transpose entry]. rewrite Hentry.
    rewrite (existsb_seq_diagonal (length targets) i
               (fun i0 => j =? Z.to_nat (nth i0 targets 0%Z))) by exact Hi.
    cbn [entry].
    assert (Ht : (0 <= nth i targets 0)%Z).
    { rewrite List.Forall_forall in Hrange.
      apply (Hrange (nth i targets 0%Z)). apply nth_In. lia. }
    destruct (Nat.eqb_spec j (Z.to_nat (nth i targets 0%Z))) as [->|Hne].
    + rewrite Z2Nat.id by exact Ht. now rewrite Z.eqb_refl.
    + destruct (Z.eqb_spec (Z.of_nat j) (nth i targets 0%Z)) as [E|];
        [|reflexivity].
      contradiction Hne. rewrite <- E. now rewrite Nat2Z.id.
Qed.

Lemma oneHotEncoding_body_one_hot_witness :
  exists M,
    @oneHotEncoding_body binary64 [0; 1; 2; 1]%Z = Ok M /\
    one_hot_of [0; 1; 2; 1]%Z M.
Proof.
  apply (@oneHotEncoding_body_one_hot binary64 [0; 1; 2; 1]%Z).
  repeat constructor; vm_compute; intuition discriminate.
Defined.

(** The matrix of the witness. *)
Example oneHotEncoding_body_run :
  match @oneHotEncoding_body binary64 [0; 1; 2; 1]%Z with
  | Ok M => to_rows M = [[b1; b0; b0; b0]; [b0; b1; b0; b1]; [b0; b0; b1; b0]]
  | Raise _ => False
  end.
Proof. vm_compute. reflexivity. Qed.

(** X19.  The body of [oneHotEncoding] uses the label itself as the
    row index.  A label at or above the number k of distinct labels, or
    below -k, raises [IndexError]; labels numbered 1..k, as the
    docstring of the function says they are, contain the label k and
    are refused. *)
Theorem oneHotEncoding_body_label_out_of_range `{Scalar} (targets : list Z)
    (label : Z) :
  In label targets ->
  (label < - Z.of_nat (length (np.unique targets)) \/
   Z.of_nat (length (np.unique targets)) <= label)%Z ->
  oneHotEncoding_body targets = Raise IndexError.
Proof.
  intros Hin Hbad. unfold oneHotEncoding_body. cbv zeta.
  rewrite one_hot_loop_raises; [reflexivity|].
  destruct (In_nth targets label 0%Z Hin) as (i & Hi & Hnth).
  exists i. split; [apply in_seq; lia|]. now rewrite Hnth.
Qed.

Lemma oneHotEncoding_body_label_out_of_range_witness :
  @oneHotEncoding_body binary64 [1; 2; 3; 2]%Z = Raise IndexError.
Proof.
  apply (@oneHotEncoding_body_label_out_of_range binary64 [1; 2; 3; 2]%Z 3%Z).
  - right. right. left. reflexivity.
  - right. vm_compute. discriminate.
Defined.

(** ** The neurons, in binary64 *)

(** X20.  The sigmoid saturates to the exact boundary values.  Where
    the exponential overflows to +infinity, [SigmoidNeuron.fire] is
    exactly 0.0, which the check of [feedForward] turns into 1e-9;
    where it underflows to 0.0, [fire] is exactly 1.0, which the check
    turns into 1 - 1e-9.  In both cases [dfire] is exactly 0.0. *)
Theorem sigmoid_saturation (np_exp : spec_float -> spec_float)
    (stimuli : spec_float) :
  np_exp (SFopp stimuli) = S754_infinity false \/
  np_exp (SFopp stimuli) = S754_zero false ->
  @Neuron.sigmoid_dfire binary64 np_exp SFopp stimuli = Binary64.zero /\
  match np_exp (SFopp stimuli) with
  | S754_infinity _ =>
      @Neuron.sigmoid_fire binary64 np_exp SFopp stimuli = Binary64.zero /\
      @nudge_zero binary64
        (@nudge_one binary64
           (@Neuron.sigmoid_fire binary64 np_exp SFopp stimuli))
      = Binary64.lit_1e_9
  | _ =>
      @Neuron.sigmoid_fire binary64 np_exp SFopp stimuli = Binary64.one /\
      @nudge_zero binary64
        (@nudge_one binary64
           (@Neuron.sigmoid_fire binary64 np_exp SFopp stimuli))
      = one_minus_1e_9
  end.
Proof.
  unfold Neuron.sigmoid_dfire, Neuron.sigmoid_fire.
  intros [-> | ->]; vm_compute; repeat split; reflexivity.
Qed.

Lemma sigmoid_saturation_witness :
  @Neuron.sigmoid_dfire binary64 (fun _ => S754_infinity false) SFopp b5
  = Binary64.zero /\
  @Neuron.sigmoid_fire binary64 (fun _ => S754_infinity false) SFopp b5
  = Binary64.zero.
Proof.
  destruct (sigmoid_saturation (fun _ => S754_infinity false) b5)
    as [Hd [Hf _]].
  - left. reflexivity.
  - split; [exact Hd|exact Hf].
Defined.

(** X21.  [TanhNeuron.dfire] is [fire] times the square of one minus
    [fire]: where the hyperbolic tangent is exactly -1.0 it returns
    -4.0, and where the hyperbolic tangent is 0.0 it returns 0.0. *)
Theorem tanh_dfire_values (np_tanh : spec_float -> spec_float)
    (stimuli : spec_float) :
  np_tanh stimuli = minus_one \/ np_tanh stimuli = Binary64.zero ->
  @Neuron.tanh_dfire binary64 np_tanh stimuli
  = if SFeqb (np_tanh stimuli) Binary64.zero
    then Binary64.zero else minus_four.
Proof.
  unfold Neuron.tanh_dfire, Neuron.tanh_fire.
  intros [-> | ->]; vm_compute; reflexivity.
Qed.

Lemma tanh_dfire_values_witness :
  @Neuron.tanh_dfire binary64 (fun _ => minus_one) b5 = minus_four.
Proof.
  apply (tanh_dfire_values (fun _ => minus_one) b5).
  left. reflexivity.
Defined.

(** ** The gradient vector on any weight mapping *)

Section GradientKeys.
Context `{Scalar}.

Lemma gradient_step_sets (LAMBDA : F) (thetas activs deltas : dict.t ndarray)
    (m : F) (grads grads' : dict.t ndarray) (layer : Z) :
  gradient_step LAMBDA thetas activs deltas m grads layer = Ok grads' ->
  exists grad, grads' = dict.set grads layer grad.
Proof.
  unfold gradient_step.
  destruct (truediv F1 m) as [inv|]; [|discriminate].
  cbn [bind].
  destruct (dict.get deltas (layer + 1)) as [d|]; [|discriminate].
  cbn [bind].
  destruct (dict.get activs layer) as [a|]; [|discriminate].
  cbn [bind].
  destruct (np.dot d (np.transpose a)) as [p|]; [|discriminate].
  cbn [bind].
  destruct (dict.get thetas layer) as [theta|]; [|discriminate].
  cbn [bind].
  destruct (np.add _ _) as [v|]; [|discriminate]. cbn [bind].
  destruct (np.set_cols_from1 _ v) as [grad|]; [|discriminate].
  cbn [bind]. intros [= <-]. eauto.
Qed.

Lemma gradient_loop_keys (LAMBDA : F) (thetas activs deltas : dict.t ndarray)
    (m : F) (layers : list Z) :
  forall grads grads',
    List.NoDup layers ->
    (forall l, In l layers -> ~ In l (dict.keys grads)) ->
    for_each layers (gradient_step LAMBDA thetas activs deltas m) grads
    = Ok grads' ->
    exists added, grads' = grads ++ added /\ dict.keys added = layers.
Proof.
  induction layers as [|l layers IH]; intros grads grads' Hnd Hfresh Hrun.
  - injection Hrun as <-. exists []. now rewrite app_nil_r.
  - inversion Hnd as [|? ? Hnotin Hnd']; subst. cbn [for_each] in Hrun.
    destruct (gradient_step LAMBDA thetas activs deltas m grads l)
      as [grads1|] eqn:Hstep; [|discriminate].
    cbn [bind] in Hrun.
    destruct (gradient_step_sets _ _ _ _ _ _ _ _ Hstep) as [grad ->].
    rewrite set_notin in Hrun by (apply Hfresh; now left).
    assert (Hfresh' : forall l', In l' layers ->
                        ~ In l' (dict.keys (grads ++ [(l, grad)]))).
    { intros l' Hl'. rewrite keys_app, in_app_iff. simpl.
      intros [Hin|[->|[]]]; [|contradiction].
      revert Hin. apply Hfresh. now right. }
    destruct (IH _ _ Hnd' Hfresh' Hrun) as (added & -> & Hkeys).
    exists ((l, grad) :: added). rewrite <- app_assoc.
    split; [reflexivity|]. simpl. now rewrite Hkeys.
Qed.

End GradientKeys.

(** X22.  On any weight mapping without repeated keys, when [backProp]
    returns there is one gradient for every key of [thetas], in the
    order of the keys, and the vector returned is the gradient of
    layer 1 read column by column followed by the gradients of all the
    keys after the first: each layer once and in order when the first
    key is 1, as it is in what [reshapeParams] returns. *)
Theorem backProp_gradient_order `{Scalar} (architecture : dict.t nat)
    (LAMBDA : F) (thetas : dict.t ndarray) (hypothesis : ndarray)
    (activs : dict.t ndarray) (targets : ndarray) (m : F)
    (dneuron : F -> F) (gradients : list F) :
  dict.wf thetas ->
  backProp architecture LAMBDA thetas hypothesis activs targets m dneuron
  = Ok gradients ->
  exists grads g1,
    backProp_grads architecture LAMBDA thetas hypothesis activs targets m
                   dneuron = Ok grads /\
    dict.keys grads = dict.keys thetas /\
    dict.get grads 1 = Ok g1 /\
    gradients = np.ravel_F g1
                ++ concat (map np.ravel_F (skipn 1 (dict.values grads))) /\
    (hd_error (dict.keys thetas) = Some 1%Z ->
     gradients = concat (map np.ravel_F (dict.values grads))).
Proof.
  intros Hwf Hrun. unfold backProp in Hrun.
  destruct (backProp_grads architecture LAMBDA thetas hypothesis activs
              targets m dneuron) as [grads|] eqn:HG; [|discriminate].
  cbn [bind] in Hrun.
  assert (Hkeys : dict.keys grads = dict.keys thetas).
  { unfold backProp_grads in HG.
    destruct (np.subtract hypothesis targets) as [d|]; [|discriminate].
    cbn [bind] in HG.
    destruct (for_each (range_down _ 2) _ _) as [deltas|]; [|discriminate].
    cbn [bind] in HG.
    assert (Hfresh : forall l, In l (dict.keys thetas) ->
                       ~ In l (dict.keys (@nil (Z * ndarray)))).
    { intros l _ []. }
    destruct (gradient_loop_keys _ _ _ _ _ _ [] grads Hwf Hfresh HG)
      as (added & -> & Hk).
    exact Hk. }
  unfold flatten in Hrun.
  destruct (dict.get grads 1) as [g1|] eqn:E1; [|discriminate].
  cbn [bind] in Hrun.
  exists grads, g1. split; [reflexivity|]. split; [exact Hkeys|].
  split; [exact E1|].
  assert (Hwfg : List.NoDup (dict.keys grads)) by (rewrite Hkeys; exact Hwf).
  destruct grads as [|[k0 g0] rest].
  { discriminate E1. }
  cbn [dict.keys map fst skipn] in Hrun.
  change (map fst rest) with (dict.keys rest) in Hrun.
  rewrite (flatten_loop [(k0, g0)] rest) in Hrun by exact Hwfg.
  injection Hrun as <-. split; [reflexivity|].
  rewrite <- Hkeys. cbn. intros [= ->].
  cbn in E1. injection E1 as ->. reflexivity.
Qed.

Lemma backProp_gradient_order_witness :
  match @backProp binary64 arch_1_2_1 b5 thetas_1_2_1 hypothesis_1x2
          activs_1_2_1 targets_1x2 b2 identity with
  | Ok gradients =>
      exists grads g1,
        @backProp_grads binary64 arch_1_2_1 b5 thetas_1_2_1 hypothesis_1x2
          activs_1_2_1 targets_1x2 b2 identity = Ok grads /\
        dict.keys grads = dict.keys thetas_1_2_1 /\
        dict.get grads 1 = Ok g1 /\
        gradients = np.ravel_F g1
                    ++ concat (map np.ravel_F (skipn 1 (dict.values grads))) /\
        (hd_error (dict.keys thetas_1_2_1) = Some 1%Z ->
         gradients = concat (map np.ravel_F (dict.values grads)))
  | Raise _ => False
  end.
Proof.
  assert (Hwf : dict.wf thetas_1_2_1).
  { repeat constructor; cbn; intuition discriminate. }
  destruct (@backProp binary64 arch_1_2_1 b5 thetas_1_2_1 hypothesis_1x2
              activs_1_2_1 targets_1x2 b2 identity) as [g|e] eqn:Hrun.
  - exact (@backProp_gradient_order binary64 arch_1_2_1 b5 thetas_1_2_1
             hypothesis_1x2 activs_1_2_1 targets_1x2 b2 identity g Hwf Hrun).
  - assert (Hok : is_ok (@backProp binary64 arch_1_2_1 b5 thetas_1_2_1
                           hypothesis_1x2 activs_1_2_1 targets_1x2 b2
                           identity) = true) by (vm_compute; reflexivity).
    rewrite Hrun in Hok. discriminate Hok.
Defined.

(** ** The recurrences of back propagation *)

Section BackwardValues.
Context `{Scalar}.
Variable architecture : dict.t nat.
Variables N m : nat.
Variables thetas activs : dict.t ndarray.
Variable dneuron : F -> F.
Hypothesis Hthetas : thetas_shapes architecture N thetas.
Hypothesis Hactivs :
  forall l, (1 <= l <= Z.of_nat N)%Z ->
    exists a, dict.get activs l = Ok a /\
      shape a = (size_at architecture (l - 1) + 1, m).

Lemma backward_recurrence_kept (deltas : dict.t ndarray) (c l : Z)
    (e1 e2 : ndarray) :
  (c < l)%Z ->
  backward_recurrence_at thetas activs dneuron deltas l ->
  backward_recurrence_at thetas activs dneuron
    (dict.set (dict.set deltas c e1) c e2) l.
Proof.
  intros Hlt (theta & d & p & a & e & Ht & Hd & Hp & Ha & He & Hl).
  exists theta, d, p, a, e.
  split; [exact Ht|]. split; [now rewrite !get_set_other by lia|].
  split; [exact Hp|]. split; [exact Ha|]. split; [exact He|].
  now rewrite !get_set_other by lia.
Qed.

Lemma backward_step_values (deltas : dict.t ndarray) (c : nat) (top : ndarray) :
  2 <= c <= N ->
  deltas_shapes architecture N m deltas (Z.of_nat (S c)) ->
  dict.get deltas (Z.of_nat N + 1)%Z = Ok top ->
  (forall l, (Z.of_nat (S c) <= l <= Z.of_nat N)%Z ->
     backward_recurrence_at thetas activs dneuron deltas l) ->
  exists deltas',
    backward_step thetas activs dneuron deltas (Z.of_nat (S c)) = Ok deltas' /\
    deltas_shapes architecture N m deltas' (Z.of_nat c) /\
    dict.get deltas' (Z.of_nat N + 1)%Z = Ok top /\
    (forall l, (Z.of_nat c <= l <= Z.of_nat N)%Z ->
       backward_recurrence_at thetas activs dneuron deltas' l).
Proof using Hthetas Hactivs.
  intros Hc Hd Htop Hrec.
  destruct (backward_step_shapes architecture N m thetas activs dneuron
              Hthetas Hactivs deltas c Hc Hd) as (deltas' & Hstep & Hd').
  exists deltas'. split; [exact Hstep|]. split; [exact Hd'|].
  unfold backward_step in Hstep.
  replace (Z.of_nat (S c) - 1)%Z with (Z.of_nat c) in Hstep by lia.
  destruct (Hthetas (Z.of_nat c)) as (theta & Ht & [= Htr Htc]); [lia|].
  rewrite Ht in Hstep. cbn [bind] in Hstep.
  destruct (Hd (Z.of_nat (S c))) as (d & Hdn & [= Hdr Hdc]); [lia|].
  rewrite Hdn in Hstep. cbn [bind] in Hstep.
  replace (Z.of_nat (S c) - 1)%Z with (Z.of_nat c) in Hdr by lia.
  destruct (dot_shape (np.transpose theta) d) as (p & Hp & [= Hpr Hpc]).
  { cbn. congruence. }
  rewrite Hp in Hstep. cbn [bind] in Hstep.
  cbn [np.transpose nrows ncols] in Hpr.
  destruct (Hactivs (Z.of_nat c)) as (a & Ha & [= Har Hac]); [lia|].
  rewrite Ha in Hstep. cbn [bind] in Hstep.
  destruct (elementwise_same_shape Fmul p (np.map_entries dneuron a))
    as (e & He & _).
  { unfold shape. cbn. congruence. }
  unfold np.multiply in Hstep. rewrite He in Hstep. cbn [bind] in Hstep.
  rewrite get_set_same in Hstep. cbn [bind] in Hstep.
  injection Hstep as <-. split.
  - rewrite !get_set_other by lia. exact Htop.
  - intros l Hl. destruct (Z.eq_dec l (Z.of_nat c)) as [->|Hne].
    + exists theta, d, p, a, e.
      split; [exact Ht|].
      split; [rewrite !get_set_other by lia;
              now replace (Z.of_nat c + 1)%Z with (Z.of_nat (S c)) by lia|].
      split; [exact Hp|]. split; [exact Ha|]. split; [exact He|].
      apply get_set_same.
    + apply backward_recurrence_kept; [lia|]. apply Hrec. lia.
Qed.

Lemma backward_loop_values (c : nat) :
  forall deltas top,
    2 <= c <= S N ->
    deltas_shapes architecture N m deltas (Z.of_nat c) ->
    dict.get deltas (Z.of_nat N + 1)%Z = Ok top ->
    (forall l, (Z.of_nat c <= l <= Z.of_nat N)%Z ->
       backward_recurrence_at thetas activs dneuron deltas l) ->
    exists deltas',
      for_each (range_down c 2) (backward_step thetas activs dneuron) deltas
      = Ok deltas' /\
      deltas_shapes architecture N m deltas' 2 /\
      dict.get deltas' (Z.of_nat N + 1)%Z = Ok top /\
      (forall l, (2 <= l <= Z.of_nat N)%Z ->
         backward_recurrence_at thetas activs dneuron deltas' l).
Proof using Hthetas Hactivs.
  induction c as [|c IH]; intros deltas top Hc Hd Htop Hrec; [lia|].
  destruct (Nat.eq_dec c 1) as [->|Hne].
  - rewrite range_down_nil. exists deltas.
    split; [reflexivity|]. split; [exact Hd|]. split; [exact Htop|exact Hrec].
  - rewrite range_down_S by lia. cbn [for_each].
    destruct (backward_step_values deltas c top)
      as (deltas1 & -> & Hd1 & Htop1 & Hrec1);
      [lia|exact Hd|exact Htop|exact Hrec|].
    cbn [bind]. apply IH; [lia|exact Hd1|exact Htop1|exact Hrec1].
Qed.

Lemma gradient_at_grows (LAMBDA mF : F) (deltas grads extra : dict.t ndarray)
    (l : Z) :
  gradient_at LAMBDA thetas activs deltas mF grads l ->
  gradient_at LAMBDA thetas activs deltas mF (grads ++ extra) l.
Proof.
  intros (theta & d & a & p & grad & Ht & Hd & Ha & Hp & Hg & Hrest).
  exists theta, d, a, p, grad.
  repeat (split; [assumption|]).
  split; [now apply get_app_l|exact Hrest].
Qed.

Lemma gradient_step_values (LAMBDA mF : F) (deltas grads : dict.t ndarray)
    (l : Z) :
  Feqb mF F0 = false ->
  (1 <= l <= Z.of_nat N)%Z ->
  deltas_shapes architecture N m deltas 2 ->
  ~ In l (dict.keys grads) ->
  exists grad,
    gradient_step LAMBDA thetas activs deltas mF grads l
    = Ok (grads ++ [(l, grad)]) /\
    gradient_at LAMBDA thetas activs deltas mF (grads ++ [(l, grad)]) l.
Proof using Hthetas Hactivs.
  intros Hm Hl Hd Hfresh. unfold gradient_step.
  rewrite !(truediv_nonzero _ _ Hm). cbn [bind].
  destruct (Hd (l + 1)%Z) as (d & Hdn & [= Hdr Hdc]); [lia|].
  replace (l + 1 - 1)%Z with l in Hdr by lia.
  rewrite Hdn. cbn [bind].
  destruct (Hactivs l Hl) as (a & Ha & [= Har Hac]). rewrite Ha. cbn [bind].
  destruct (dot_shape d (np.transpose a)) as (p & Hp & [= Hpr Hpc]).
  { cbn. congruence. }
  rewrite Hp. cbn [bind]. cbn [np.transpose nrows ncols] in Hpc.
  destruct (Hthetas l Hl) as (theta & Ht & [= Htr Htc]). rewrite Ht.
  cbn [bind].
  unfold np.add, np.elementwise.
  cbn [np.cols_from1 np.scale nrows ncols].
  replace (nrows theta) with (nrows p) by congruence.
  replace (ncols theta) with (ncols p) by congruence.
  rewrite !broadcast_dim_same. cbn [bind].
  unfold np.set_cols_from1. cbn [np.scale nrows ncols].
  rewrite !Nat.eqb_refl. cbn [orb andb bind].
  rewrite set_notin by exact Hfresh.
  eexists. split; [reflexivity|].
  exists theta, d, a, p. eexists.
  split; [exact Ht|]. split; [exact Hdn|]. split; [exact Ha|].
  split; [exact Hp|].
  split; [apply get_middle; exact Hfresh|].
  split; [unfold shape; cbn [nrows ncols]; congruence|].
  intros i j Hi Hj. cbn [entry np.scale np.cols_from1].
  destruct j as [|j']; [reflexivity|].
  assert (Hbi : np.bidx (nrows p) i = i) by (apply bidx_in_range; lia).
  assert (Hbj : np.bidx (ncols p - 1) j' = j') by (apply bidx_in_range; lia).
  now rewrite !Hbi, !Hbj.
Qed.

Lemma gradient_loop_values (LAMBDA mF : F) (deltas : dict.t ndarray)
    (layers : list Z) :
  Feqb mF F0 = false ->
  deltas_shapes architecture N m deltas 2 ->
  forall grads,
    (forall l, In l layers -> (1 <= l <= Z.of_nat N)%Z) ->
    List.NoDup layers ->
    (forall l, In l layers -> ~ In l (dict.keys grads)) ->
    exists added,
      for_each layers (gradient_step LAMBDA thetas activs deltas mF) grads
      = Ok (grads ++ added) /\
      forall l, In l layers ->
        gradient_at LAMBDA thetas activs deltas mF (grads ++ added) l.
Proof using Hthetas Hactivs.
  intros Hm Hd.
  induction layers as [|l layers IH]; intros grads Hrange Hnd Hfresh.
  - exists []. rewrite app_nil_r. split; [reflexivity|intros ? []].
  - inversion Hnd as [|? ? Hnotin Hnd']; subst.
    destruct (gradient_step_values LAMBDA mF deltas grads l)
      as (grad & Hstep & Hgrad);
      [exact Hm|apply Hrange; now left|exact Hd|apply Hfresh; now left|].
    destruct (IH (grads ++ [(l, grad)])) as (added & Hloop & Hall).
    + intros l' Hl'. apply Hrange. now right.
    + exact Hnd'.
    + intros l' Hl'. rewrite keys_app, in_app_iff. simpl.
      intros [Hin|[->|[]]]; [|contradiction].
      revert Hin. apply Hfresh. now right.
    + exists ((l, grad) :: added). split.
      * cbn [for_each]. rewrite Hstep. cbn [bind].
        rewrite Hloop. now rewrite <- app_assoc.
      * intros l' [<-|Hl'].
        -- replace (grads ++ (l, grad) :: added)
             with ((grads ++ [(l, grad)]) ++ added)
             by (now rewrite <- app_assoc).
           now apply gradient_at_grows.
        -- replace (grads ++ (l, grad) :: added)
             with ((grads ++ [(l, grad)]) ++ added)
             by (now rewrite <- app_assoc).
           now apply Hall.
Qed.

End BackwardValues.

(** X23.  On valid input, with [m] other than zero, the gradients
    [backProp] computes follow the recurrences of back propagation.
    There are errors for the layers 2..N+1 such that: the error of
    layer N+1 is the hypothesis minus the targets; for every layer [l]
    in 2..N the error of layer [l] is the product, entry by entry, of
    the transposed weights times the error of layer [l+1] and of
    [dneuron] of the activation of layer [l], without its first row;
    and for every layer [l] in 1..N the gradient has the shape of the
    weights, is [1/m] times the error of layer [l+1] times the
    transposed activation of layer [l], and has [1/m] times [LAMBDA]
    times the weight added in every column but column 0.  With [m]
    equal to zero no gradient is computed: the first [1/m] raises
    [ZeroDivisionError]. *)
Theorem backProp_recurrences `{Scalar} (architecture : dict.t nat)
    (N m : nat) (LAMBDA : F) (params : list F) (thetas : dict.t ndarray)
    (hypothesis : ndarray) (activs : dict.t ndarray) (targets : ndarray)
    (mF : F) (dneuron : F -> F) :
  layer_order architecture N ->
  length params = param_count architecture N ->
  reshapeParams architecture params = Ok thetas ->
  backprop_shapes architecture N m hypothesis activs targets ->
  (Feqb mF F0 = false ->
   exists deltas grads top,
     backProp_grads architecture LAMBDA thetas hypothesis activs targets mF
                    dneuron = Ok grads /\
     np.subtract hypothesis targets = Ok top /\
     dict.get deltas (Z.of_nat N + 1)%Z = Ok top /\
     (forall l, (2 <= l <= Z.of_nat N)%Z ->
        backward_recurrence_at thetas activs dneuron deltas l) /\
     (forall l, (1 <= l <= Z.of_nat N)%Z ->
        gradient_at LAMBDA thetas activs deltas mF grads l)) /\
  (Feqb mF F0 = true ->
   backProp_grads architecture LAMBDA thetas hypothesis activs targets mF
                  dneuron = Raise ZeroDivisionError).
Proof.
  intros Hord Hlen Hre (Hactivs & Hhyp & Htar).
  destruct (reshapeParams_ok architecture N params Hord)
    as (thetas' & Hre' & Hun); [lia|].
  rewrite Hre in Hre'. injection Hre' as <-.
  pose proof (unpacked_thetas_shapes _ _ _ _ Hun) as Hthetas.
  destruct (elementwise_same_shape Fsub hypothesis targets)
    as (top & Htop & Hts); [congruence|].
  split.
  2:{ intros Hm.
      exact (proj1 (backProp_grads_zero_division architecture N m LAMBDA
                      thetas _ hypothesis activs targets top mF dneuron
                      Hord Hun Hactivs Hhyp Htop Hts Hm)). }
  intros Hm.
  unfold backProp_grads. rewrite (layer_order_length _ _ Hord).
  unfold np.subtract. rewrite Htop. cbn [bind]. cbn [dict.set].
  destruct (backward_loop_values architecture N m thetas activs dneuron
              Hthetas Hactivs (S N) [(Z.of_nat (S N), top)] top)
    as (deltas & -> & Hdeltas & Hdtop & Hrec).
  { destruct Hord. lia. }
  { intros l Hl. assert (l = Z.of_nat (S N)) as -> by lia.
    cbn [dict.get]. rewrite Z.eqb_refl. exists top. split; [reflexivity|].
    rewrite Hts, Hhyp. do 2 f_equal. lia. }
  { cbn [dict.get].
    replace (Z.of_nat N + 1)%Z with (Z.of_nat (S N)) by lia.
    now rewrite Z.eqb_refl. }
  { intros l Hl. lia. }
  cbn [bind].
  destruct (unpacked_keys _ _ _ _ Hun) as [-> _].
  destruct (gradient_loop_values architecture N m thetas activs
              Hthetas Hactivs LAMBDA mF deltas (zrange 1 N) Hm Hdeltas [])
    as (grads & -> & Hgrads).
  - intros l Hl. apply zrange_in in Hl. lia.
  - apply zrange_NoDup.
  - intros l _ [].
  - exists deltas, grads, top. split; [reflexivity|].
    split; [reflexivity|]. split; [exact Hdtop|]. split; [exact Hrec|].
    intros l Hl. apply Hgrads. apply zrange_in. lia.
Qed.

Lemma backProp_recurrences_witness :
  match @reshapeParams binary64 arch_1_2_1 params7 with
  | Ok thetas =>
      exists deltas grads top,
        @backProp_grads binary64 arch_1_2_1 b5 thetas hypothesis_1x2
          activs_1_2_1 targets_1x2 b2 identity = Ok grads /\
        np.subtract hypothesis_1x2 targets_1x2 = Ok top /\
        dict.get deltas (Z.of_nat 2 + 1)%Z = Ok top /\
        (forall l, (2 <= l <= Z.of_nat 2)%Z ->
           @backward_recurrence_at binary64 thetas activs_1_2_1 identity
             deltas l) /\
        (forall l, (1 <= l <= Z.of_nat 2)%Z ->
           @gradient_at binary64 b5 thetas activs_1_2_1 deltas b2 grads l)
  | Raise _ => False
  end.
Proof.
  assert (Hord : layer_order arch_1_2_1 2).
  { split; [lia|right; reflexivity]. }
  assert (Hlen : length params7 = param_count arch_1_2_1 2) by reflexivity.
  assert (Hshapes : @backprop_shapes binary64 arch_1_2_1 2 2 hypothesis_1x2
                      activs_1_2_1 targets_1x2).
  { split; [|split; reflexivity].
    intros l Hl. assert (Hcases : l = 1%Z \/ l = 2%Z) by lia.
    destruct Hcases as [-> | ->]; eexists; split; reflexivity. }
  assert (Hm : @Feqb binary64 b2 F0 = false) by reflexivity.
  destruct (@reshapeParams binary64 arch_1_2_1 params7) as [thetas|e] eqn:Hre.
  - exact (proj1 (@backProp_recurrences binary64 arch_1_2_1 2 2 b5 params7
                    thetas hypothesis_1x2 activs_1_2_1 targets_1x2 b2
                    identity Hord Hlen Hre Hshapes) Hm).
  - assert (Hok : is_ok (@reshapeParams binary64 arch_1_2_1 params7) = true)
      by (vm_compute; reflexivity).
    rewrite Hre in Hok. discriminate Hok.
Defined.

(** ** Targets of one row *)

(** X24.  [backProp] does not compare the shape of the targets with the
    shape of the hypothesis: targets of a single row are stretched over
    all the rows of the hypothesis, whatever the number of output
    units.  The error of the output layer is then the hypothesis minus
    row 0 of the targets in every row; with [m] other than zero
    [backProp] returns a gradient vector as long as the parameter
    vector, and with [m] equal to zero it raises
    [ZeroDivisionError]. *)
Theorem backProp_stretches_targets `{Scalar} (architecture : dict.t nat)
    (N m : nat) (LAMBDA : F) (params : list F) (thetas : dict.t ndarray)
    (hypothesis : ndarray) (activs : dict.t ndarray) (targets : ndarray)
    (mF : F) (dneuron : F -> F) :
  layer_order architecture N ->
  length params = param_count architecture N ->
  reshapeParams architecture params = Ok thetas ->
  (forall l, (1 <= l <= Z.of_nat N)%Z ->
     exists a, dict.get activs l = Ok a /\
               shape a = (size_at architecture (l - 1) + 1, m)) ->
  shape hypothesis = (size_at architecture (Z.of_nat N), m) ->
  shape targets = (1, m) ->
  exists top,
    np.subtract hypothesis targets = Ok top /\
    shape top = shape hypothesis /\
    (forall i j, i < nrows hypothesis -> j < m ->
       entry top i j = Fsub (entry hypothesis i j) (entry targets 0 j)) /\
    (Feqb mF F0 = false ->
     exists gradients,
       backProp architecture LAMBDA thetas hypothesis activs targets mF
                dneuron = Ok gradients /\
       length gradients = length params) /\
    (Feqb mF F0 = true ->
     backProp architecture LAMBDA thetas hypothesis activs targets mF dneuron
     = Raise ZeroDivisionError).
Proof.
  intros Hord Hlen Hre Hactivs Hhyp Htar.
  destruct (reshapeParams_ok architecture N params Hord)
    as (thetas' & Hre' & Hun); [lia|].
  rewrite Hre in Hre'. injection Hre' as <-.
  pose proof (unpacked_thetas_shapes _ _ _ _ Hun) as Hthetas.
  pose proof Hhyp as Hhyp'.
  injection Hhyp as Hhr Hhc. injection Htar as Htr Htc.
  assert (Htop : exists top,
             np.subtract hypothesis targets = Ok top /\
             shape top = shape hypothesis /\
             forall i j, i < nrows hypothesis -> j < m ->
               entry top i j
               = Fsub (entry hypothesis i j) (entry targets 0 j)).
  { unfold np.subtract, np.elementwise, np.broadcast_dim.
    rewrite Htr, Htc, Hhc, (Nat.eqb_refl m). cbn [Nat.eqb].
    destruct (nrows hypothesis =? 1) eqn:E1.
    - eexists. split; [reflexivity|]. apply Nat.eqb_eq in E1. split.
      + unfold shape. cbn [nrows ncols]. congruence.
      + intros i j Hi Hj. cbn [entry].
        rewrite (bidx_in_range (nrows hypothesis)) by lia.
        rewrite (bidx_in_range m) by lia. reflexivity.
    - eexists. split; [reflexivity|]. split.
      + unfold shape. cbn [nrows ncols]. congruence.
      + intros i j Hi Hj. cbn [entry].
        rewrite (bidx_in_range (nrows hypothesis)) by lia.
        rewrite (bidx_in_range m) by lia. reflexivity. }
  destruct Htop as (top & Htop & Hts & Hentries).
  exists top. split; [exact Htop|]. split; [exact Hts|].
  split; [exact Hentries|]. split.
  2:{ intros Hm.
      exact (proj2 (backProp_grads_zero_division architecture N m LAMBDA
                      thetas _ hypothesis activs targets top mF dneuron
                      Hord Hun Hactivs Hhyp' Htop Hts Hm)). }
  intros Hm. unfold backProp, backProp_grads.
  rewrite (layer_order_length _ _ Hord), Htop. cbn [bind]. cbn [dict.set].
  destruct (backward_loop_shapes architecture N m thetas activs dneuron
              Hthetas Hactivs (S N) [(Z.of_nat (S N), top)])
    as (deltas & -> & Hdeltas).
  { destruct Hord. lia. }
  { intros l Hl. assert (l = Z.of_nat (S N)) as -> by lia.
    cbn [dict.get]. rewrite Z.eqb_refl. exists top. split; [reflexivity|].
    rewrite Hts. unfold shape. rewrite Hhr, Hhc. do 2 f_equal. lia. }
  cbn [bind].
  destruct (unpacked_keys _ _ _ _ Hun) as [-> _].
  destruct (gradient_loop_shapes architecture N m thetas activs
              Hthetas Hactivs LAMBDA mF deltas (zrange 1 N) Hm Hdeltas [])
    as (G & g & -> & HG).
  - intros l Hl. apply zrange_in in Hl. lia.
  - apply zrange_NoDup.
  - intros l _ [].
  - cbn [bind app]. exists g. split.
    + pose proof HG as HG'. rewrite (layer_order_layers _ _ Hord) in HG'.
      eapply flatten_unpacked; [exact HG'|].
      rewrite <- (layer_order_layers _ _ Hord). apply zrange_NoDup.
    + rewrite (unpacked_length _ _ _ _ HG), <- (unpacked_length _ _ _ _ Hun).
      rewrite length_firstn. lia.
Qed.

Lemma backProp_stretches_targets_witness :
  match @reshapeParams binary64 arch_1_2 params_boundary with
  | Ok thetas =>
      exists top gradients,
        np.subtract hypothesis_2x2 targets_1x2 = Ok top /\
        shape top = shape hypothesis_2x2 /\
        (forall i j, i < nrows hypothesis_2x2 -> j < 2 ->
           entry top i j
           = @Fsub binary64 (entry hypothesis_2x2 i j)
                            (entry targets_1x2 0 j)) /\
        @backProp binary64 arch_1_2 b5 thetas hypothesis_2x2
          [(1%Z, input_1x2)] targets_1x2 b2 identity = Ok gradients /\
        length gradients = length params_boundary
  | Raise _ => False
  end.
Proof.
  assert (Hord : layer_order arch_1_2 1).
  { split; [lia|left; reflexivity]. }
  assert (Hlen : length params_boundary = param_count arch_1_2 1)
    by reflexivity.
  assert (Hactivs : forall l, (1 <= l <= Z.of_nat 1)%Z ->
            exists a, dict.get [(1%Z, input_1x2)] l = Ok a /\
                      shape a = (size_at arch_1_2 (l - 1) + 1, 2)).
  { intros l Hl. assert (l = 1%Z) as -> by lia.
    eexists; split; reflexivity. }
  assert (Hm : @Feqb binary64 b2 F0 = false) by reflexivity.
  destruct (@reshapeParams binary64 arch_1_2 params_boundary)
    as [thetas|e] eqn:Hre.
  - destruct (@backProp_stretches_targets binary64 arch_1_2 1 2 b5
                params_boundary thetas hypothesis_2x2 [(1%Z, input_1x2)]
                targets_1x2 b2 identity Hord Hlen Hre Hactivs
                eq_refl eq_refl)
      as (top & Htop & Hts & Hentries & Hback & _).
    destruct (Hback Hm) as (g & Hg & Hglen).
    exists top, g. repeat split; assumption.
  - assert (Hok : is_ok (@reshapeParams binary64 arch_1_2 params_boundary)
                  = true) by (vm_compute; reflexivity).
    rewrite Hre in Hok. discriminate Hok.
Defined.
